(** * pythx: the low-level API handler (pythx/api/handler.py)

    A shallow embedding of [APIHandler] and of the two trace formatters of
    the module, together with the properties of the request/response
    pipeline: assembly, the middleware stages, the transport call with its
    status gate, and response decoding.

    Python objects that are shared by reference (the request data
    dictionary, the header and parameter mappings, domain requests and
    response models) live in a heap of objects addressed by locations.
    Code runs in a monad that threads this heap, accumulates the effects
    sent to the outside (log records and the HTTP call) and may raise.

    Of the libraries the module calls, [urllib.parse.urljoin] is embedded
    from its source for [str] arguments; [requests.request] and the methods
    of [str] beyond ASCII are parameters. *)

From Stdlib Require Import ZArith String Ascii DecimalString.
From Stdlib.Strings Require Import Byte.
From stdpp Require Import base gmap strings list fin_maps.

(** ** The Python runtime, as far as the handler uses it *)

Module Py.

(** *** Text

    A Python [str] is represented by the Rocq string of its UTF-8
    encoding; [bytes] are lists of bytes. *)

Definition nl : string := String (ascii_of_nat 10) EmptyString.

(** Text all of whose characters are ASCII. *)
Definition is_ascii (s : string) : bool :=
  forallb (λ c, (nat_of_ascii c <? 128)%nat) (list_ascii_of_string s).

(** Upper case of ASCII text: the letters a-z go to A-Z, every other
    character is kept.  This is what [str.upper] does on ASCII text; on
    other text [str.upper] follows the Unicode tables, which are not
    embedded here. *)
Definition upper_char (c : ascii) : ascii :=
  let n := nat_of_ascii c in
  if ((97 <=? n) && (n <=? 122))%nat then ascii_of_nat (n - 32) else c.

Fixpoint upper (s : string) : string :=
  match s with
  | EmptyString => EmptyString
  | String c rest => String (upper_char c) (upper rest)
  end.

(** ["{}".format(n)] for an integer [n]. *)
Definition str_of_int (z : Z) : string := NilZero.string_of_int (Z.to_int z).

(** [sep.join(items)] *)
Fixpoint join (sep : string) (items : list string) : string :=
  match items with
  | [] => EmptyString
  | [x] => x
  | x :: rest => x +:+ sep +:+ join sep rest
  end.

(** [sub in s] *)
Definition contains (sub s : string) : Prop :=
  ∃ before after, s = before +:+ sub +:+ after.

(** *** Faults *)

Inductive exn :=
| KeyError (key : string)
| TypeError (msg : string)
| AttributeError (msg : string)
| UnicodeDecodeError
| ValueError (msg : string)
| PythXAPIError (msg : string)
(** a fault of a collaborator (a middleware, a domain model, the
    transport library), with its kind and payload *)
| Fault (kind payload : string).

Inductive result (A : Type) :=
| Ok (a : A)
| Raise (e : exn).
Arguments Ok {A} a.
Arguments Raise {A} e.

(** *** [bytes.decode()]: strict UTF-8 *)

Definition between (lo hi : N) (b : byte) : bool :=
  ((lo <=? Byte.to_N b) && (Byte.to_N b <=? hi))%N.

Definition continuation : byte → bool := between 128 191.

Definition second_of_three (lead : N) : byte → bool :=
  if (lead =? 224)%N then between 160 191
  else if (lead =? 237)%N then between 128 159
  else continuation.

Definition second_of_four (lead : N) : byte → bool :=
  if (lead =? 240)%N then between 144 191
  else if (lead =? 244)%N then between 128 143
  else continuation.

Fixpoint utf8_valid (bs : list byte) : bool :=
  match bs with
  | [] => true
  | b0 :: r0 =>
      let lead := Byte.to_N b0 in
      if (lead <? 128)%N then utf8_valid r0
      else if between 194 223 b0 then
        match r0 with
        | b1 :: r1 => continuation b1 && utf8_valid r1
        | _ => false
        end
      else if between 224 239 b0 then
        match r0 with
        | b1 :: b2 :: r2 =>
            second_of_three lead b1 && continuation b2 && utf8_valid r2
        | _ => false
        end
      else if between 240 244 b0 then
        match r0 with
        | b1 :: b2 :: b3 :: r3 =>
            second_of_four lead b1 && continuation b2 && continuation b3
            && utf8_valid r3
        | _ => false
        end
      else false
  end.

Definition decode (bs : list byte) : result string :=
  if utf8_valid bs then Ok (string_of_list_byte bs) else Raise UnicodeDecodeError.

(** *** Values and objects *)

(** What [json=] accepts: [None], text, integers, lists and mappings. *)
#[warnings="-register-all"] Inductive json :=
| JNone
| JText (s : string)
| JInt (z : Z)
| JList (items : list json)
| JDict (items : list (string * json)).

(** Object identities. *)
Abbreviation loc := positive (only parsing).

End Py.

Import Py.

(** ** [urllib.parse.urljoin], for [str] arguments

    From the source of the library (CPython 3.11, [urllib/parse.py]):
    [urljoin] with [urlparse], [urlsplit], [urlunparse] and their helpers.
    All of it works on ASCII delimiters, so it reads the same on the UTF-8
    encoding of the text. *)

Module Urllib.

(** *** The methods of [str] it uses *)

Definition is_char (c : ascii) : ascii → bool := Ascii.eqb c.

Definition one_of (cs : string) (c : ascii) : bool :=
  existsb (Ascii.eqb c) (list_ascii_of_string cs).

(** [c in s] *)
Definition mem (c : ascii) (s : string) : bool :=
  existsb (Ascii.eqb c) (list_ascii_of_string s).

Definition head (s : string) : option ascii :=
  match s with String c _ => Some c | EmptyString => None end.

Definition tail (s : string) : string :=
  match s with String _ r => r | EmptyString => EmptyString end.

Definition nonempty (s : string) : bool :=
  match s with EmptyString => false | String _ _ => true end.

(** [s.startswith(c)], which is also [s[:1] == c] *)
Definition starts_with (c : ascii) (s : string) : bool :=
  match s with String a _ => Ascii.eqb a c | EmptyString => false end.

(** [s[:2] == '//'] *)
Definition starts_with_slashes (s : string) : bool :=
  match s with
  | String a (String b _) => Ascii.eqb a "/" && Ascii.eqb b "/"
  | _ => false
  end.

(** The text before the first character that satisfies [p], and the text
    from that character on (empty when there is none). *)
Fixpoint break (p : ascii → bool) (s : string) : string * string :=
  match s with
  | EmptyString => (EmptyString, EmptyString)
  | String c r =>
      if p c then (EmptyString, s)
      else let '(before, rest) := break p r in (String c before, rest)
  end.

(** The text up to and including the last [c], and the text after it; the
    first is empty when there is no [c]. *)
Fixpoint rbreak (c : ascii) (s : string) : string * string :=
  match s with
  | EmptyString => (EmptyString, EmptyString)
  | String a r =>
      let '(upto, after) := rbreak c r in
      if nonempty upto then (String a upto, after)
      else if Ascii.eqb a c then (String a EmptyString, r)
      else (EmptyString, String a after)
  end.

(** [s.lstrip(chars)] and [s.strip(chars)] *)
Fixpoint lstrip (p : ascii → bool) (s : string) : string :=
  match s with
  | EmptyString => EmptyString
  | String c r => if p c then lstrip p r else s
  end.

Fixpoint rstrip (p : ascii → bool) (s : string) : string :=
  match s with
  | EmptyString => EmptyString
  | String c r =>
      let r' := rstrip p r in
      if negb (nonempty r') && p c then EmptyString else String c r'
  end.

Definition strip (p : ascii → bool) (s : string) : string := rstrip p (lstrip p s).

(** [s.replace(c, "")] for each [c] that satisfies [p] *)
Fixpoint remove (p : ascii → bool) (s : string) : string :=
  match s with
  | EmptyString => EmptyString
  | String c r => if p c then remove p r else String c (remove p r)
  end.

(** [s.split(c)] *)
Fixpoint split (c : ascii) (s : string) : list string :=
  match s with
  | EmptyString => [EmptyString]
  | String a r =>
      if Ascii.eqb a c then EmptyString :: split c r
      else match split c r with
           | x :: xs => String a x :: xs
           | [] => [String a EmptyString]
           end
  end.

(** [s.partition(c)]: before, whether [c] was found, after *)
Definition partition (c : ascii) (s : string) : string * bool * string :=
  let '(before, rest) := break (is_char c) s in
  (before, nonempty rest, tail rest).

(** [s.rpartition(c)[2]] *)
Definition after_last (c : ascii) (s : string) : string := snd (rbreak c s).

(** [s.lower()] on the characters of a scheme, which are ASCII *)
Definition lower_char (c : ascii) : ascii :=
  let n := nat_of_ascii c in
  if ((65 <=? n) && (n <=? 90))%nat then ascii_of_nat (n + 32) else c.

Fixpoint lower (s : string) : string :=
  match s with
  | EmptyString => EmptyString
  | String c r => String (lower_char c) (lower r)
  end.

Definition is_ascii_char (c : ascii) : bool := (nat_of_ascii c <? 128)%nat.

Definition is_ascii_alpha (c : ascii) : bool :=
  let n := nat_of_ascii c in
  (((65 <=? n) && (n <=? 90)) || ((97 <=? n) && (n <=? 122)))%nat.

(** [s.isascii()] *)
Definition isascii (s : string) : bool :=
  forallb is_ascii_char (list_ascii_of_string s).

Definition in_list (s : string) (l : list string) : bool :=
  existsb (String.eqb s) l.

(** *** The tables of the module *)

Definition uses_relative : list string :=
  [EmptyString; "ftp"; "http"; "gopher"; "nntp"; "imap";
   "wais"; "file"; "https"; "shttp"; "mms";
   "prospero"; "rtsp"; "rtspu"; "sftp";
   "svn"; "svn+ssh"; "ws"; "wss"].

Definition uses_netloc : list string :=
  [EmptyString; "ftp"; "http"; "gopher"; "nntp"; "telnet";
   "imap"; "wais"; "file"; "mms"; "https"; "shttp";
   "snews"; "prospero"; "rtsp"; "rtspu"; "rsync";
   "svn"; "svn+ssh"; "sftp"; "nfs"; "git"; "git+ssh";
   "ws"; "wss"].

Definition uses_params : list string :=
  [EmptyString; "ftp"; "hdl"; "prospero"; "http"; "imap";
   "https"; "shttp"; "rtsp"; "rtspu"; "sip"; "sips";
   "mms"; "sftp"; "tel"].

Definition scheme_chars : string :=
  "abcdefghijklmnopqrstuvwxyzABCDEFGHIJKLMNOPQRSTUVWXYZ0123456789+-.".

(** [_WHATWG_C0_CONTROL_OR_SPACE]: the characters 0 to 32 *)
Definition c0_control_or_space (c : ascii) : bool := (nat_of_ascii c <=? 32)%nat.

(** [_UNSAFE_URL_BYTES_TO_REMOVE]: tab, carriage return, line feed *)
Definition unsafe_url_byte (c : ascii) : bool :=
  let n := nat_of_ascii c in ((n =? 9) || (n =? 13) || (n =? 10))%nat.

(** *** What the module takes from other libraries

    [_check_bracketed_host], which validates an address with [ipaddress]
    and [re], and [unicodedata.normalize('NFKC', s)]. *)
Record library := {
  check_bracketed_host : string → result unit;
  normalize_nfkc : string → string
}.

Section Parse.

Variable lib : library.

Definition ValueError_IPv6 : exn := ValueError "Invalid IPv6 URL".

(** [_splitparams] *)
Definition splitparams (url : string) : string * string :=
  if mem "/" url then
    let '(upto, last) := rbreak "/" url in
    let '(before, rest) := break (is_char ";") last in
    if nonempty rest then (upto +:+ before, tail rest) else (url, EmptyString)
  else
    let '(before, rest) := break (is_char ";") url in
    (before, tail rest).

(** [_splitnetloc(url, 2)] *)
Definition splitnetloc (url : string) : string * string :=
  break (one_of "/?#") (tail (tail url)).

(** [_checknetloc] *)
Definition checknetloc (netloc : string) : result unit :=
  if negb (nonempty netloc) || isascii netloc then Ok tt
  else
    let n := remove (one_of "@:#?") netloc in
    let netloc2 := normalize_nfkc lib n in
    if String.eqb n netloc2 then Ok tt
    else if existsb (λ c, mem c netloc2) (list_ascii_of_string "/?#@:")
    then Raise (ValueError ("netloc '" +:+ netloc
                            +:+ "' contains invalid characters under NFKC normalization"))
    else Ok tt.

(** [_check_bracketed_netloc] *)
Definition check_bracketed_netloc (netloc : string) : result unit :=
  let hostname_and_port := after_last "@" netloc in
  let '(before_bracket, have_open_br, bracketed) := partition "[" hostname_and_port in
  if have_open_br then
    if nonempty before_bracket then Raise ValueError_IPv6
    else
      let '(hostname, _, port) := partition "]" bracketed in
      if nonempty port && negb (starts_with ":" port) then Raise ValueError_IPv6
      else check_bracketed_host lib hostname
  else
    let '(hostname, _, port) := partition ":" hostname_and_port in
    check_bracketed_host lib hostname.

Record SplitResult := {
  s_scheme : string; s_netloc : string; s_path : string;
  s_query : string; s_fragment : string
}.

(** [urlsplit(url, scheme)] *)
Definition urlsplit (url scheme : string) : result SplitResult :=
  let url := lstrip c0_control_or_space url in
  let scheme := strip c0_control_or_space scheme in
  let url := remove unsafe_url_byte url in
  let scheme := remove unsafe_url_byte scheme in
  let '(scheme, url) :=
    let '(before, rest) := break (is_char ":") url in
    if nonempty rest && nonempty before
       && match head url with
          | Some c => is_ascii_char c && is_ascii_alpha c
          | None => false
          end
       && forallb (one_of scheme_chars) (list_ascii_of_string before)
    then (lower before, tail rest)
    else (scheme, url) in
  let after_netloc :=
    if starts_with_slashes url then
      let '(netloc, url) := splitnetloc url in
      if (mem "[" netloc && negb (mem "]" netloc))
         || (mem "]" netloc && negb (mem "[" netloc))
      then Raise ValueError_IPv6
      else if mem "[" netloc && mem "]" netloc then
        match check_bracketed_netloc netloc with
        | Ok _ => Ok (netloc, url)
        | Raise e => Raise e
        end
      else Ok (netloc, url)
    else Ok (EmptyString, url) in
  match after_netloc with
  | Raise e => Raise e
  | Ok (netloc, url) =>
      let '(url, fragment) :=
        if mem "#" url
        then let '(before, rest) := break (is_char "#") url in (before, tail rest)
        else (url, EmptyString) in
      let '(url, query) :=
        if mem "?" url
        then let '(before, rest) := break (is_char "?") url in (before, tail rest)
        else (url, EmptyString) in
      match checknetloc netloc with
      | Raise e => Raise e
      | Ok _ =>
          Ok {| s_scheme := scheme; s_netloc := netloc; s_path := url;
                s_query := query; s_fragment := fragment |}
      end
  end.

Record ParseResult := {
  scheme : string; netloc : string; path : string;
  params : string; query : string; fragment : string
}.

(** [urlparse(url, scheme)] *)
Definition urlparse (url scheme : string) : result ParseResult :=
  match urlsplit url scheme with
  | Raise e => Raise e
  | Ok s =>
      let '(url, params) :=
        if in_list (s_scheme s) uses_params && mem ";" (s_path s)
        then splitparams (s_path s)
        else (s_path s, EmptyString) in
      Ok {| scheme := s_scheme s; netloc := s_netloc s; path := url;
            params := params; query := s_query s; fragment := s_fragment s |}
  end.

End Parse.

(** [urlunsplit] *)
Definition urlunsplit (scheme netloc url query fragment : string) : string :=
  let url :=
    if nonempty netloc
       || (nonempty scheme && in_list scheme uses_netloc
           && negb (starts_with_slashes url))
    then
      let url := if nonempty url && negb (starts_with "/" url)
                 then "/" +:+ url else url in
      "//" +:+ netloc +:+ url
    else url in
  let url := if nonempty scheme then scheme +:+ ":" +:+ url else url in
  let url := if nonempty query then url +:+ "?" +:+ query else url in
  if nonempty fragment then url +:+ "#" +:+ fragment else url.

(** [urlunparse] *)
Definition urlunparse (p : ParseResult) : string :=
  let url := if nonempty (params p) then path p +:+ ";" +:+ params p else path p in
  urlunsplit (scheme p) (netloc p) url (query p) (fragment p).

(** [del base_parts[-1]] when the last part is not empty *)
Definition drop_file (parts : list string) : list string :=
  match last parts with
  | Some x => if nonempty x then removelast parts else parts
  | None => parts
  end.

(** [segments[1:-1] = filter(None, segments[1:-1])] *)
Definition filter_middle (segments : list string) : list string :=
  match segments with
  | first :: (_ :: _) as rest =>
      first :: filter (λ s, nonempty s = true) (removelast rest)
            ++ match last rest with Some x => [x] | None => [] end
  | _ => segments
  end.

(** The loop over the segments: [..] takes the last resolved segment away,
    if there is one; [.] is skipped. *)
Definition resolve_step (resolved : list string) (seg : string) : list string :=
  if String.eqb seg ".." then removelast resolved
  else if String.eqb seg "." then resolved
  else resolved ++ [seg].

Definition resolve (segments : list string) : list string :=
  foldl resolve_step [] segments.

Definition is_dot (seg : string) : bool :=
  String.eqb seg "." || String.eqb seg "..".

(** [urljoin(base, url)] *)
Definition urljoin (lib : library) (base url : string) : result string :=
  if negb (nonempty base) then Ok url
  else if negb (nonempty url) then Ok base
  else
    match urlparse lib base EmptyString with
    | Raise e => Raise e
    | Ok b =>
        match urlparse lib url (scheme b) with
        | Raise e => Raise e
        | Ok u =>
            if negb (String.eqb (scheme u) (scheme b))
               || negb (in_list (scheme u) uses_relative)
            then Ok url
            else if in_list (scheme u) uses_netloc && nonempty (netloc u)
            then Ok (urlunparse u)
            else
              let netloc := if in_list (scheme u) uses_netloc
                            then netloc b else netloc u in
              if negb (nonempty (path u)) && negb (nonempty (params u)) then
                Ok (urlunparse
                      {| scheme := scheme u; netloc := netloc; path := path b;
                         params := params b;
                         query := if nonempty (query u) then query u else query b;
                         fragment := fragment u |})
              else
                let base_parts := drop_file (split "/" (path b)) in
                let segments :=
                  if starts_with "/" (path u) then split "/" (path u)
                  else filter_middle (base_parts ++ split "/" (path u)) in
                let resolved_path := resolve segments in
                let resolved_path :=
                  match last segments with
                  | Some seg => if is_dot seg then resolved_path ++ [EmptyString]
                                else resolved_path
                  | None => resolved_path
                  end in
                let joined := join "/" resolved_path in
                Ok (urlunparse
                      {| scheme := scheme u; netloc := netloc;
                         path := if nonempty joined then joined else "/";
                         params := params u; query := query u;
                         fragment := fragment u |})
        end
    end.

End Urllib.

(** The request data dictionary built by [APIHandler.assemble_request]:
    its five keys.  The two mappings are held by reference. *)
Module RequestData.
Record t := Make {
  method : string;
  payload : json;
  params : loc;
  headers : loc;
  url : string
}.
End RequestData.

(** The attributes of a request model that stores them: the values, with
    the two mappings held by reference. *)
Module StoredRequest.
Record t := Make {
  endpoint : string;
  method : string;
  payload : json;
  parameters : loc;
  headers : loc
}.
End StoredRequest.

(** ** The transport library [requests] *)

(** The body of a prepared request: absent, bytes, or text. *)
Inductive prepared_body :=
| BodyNone
| BodyBytes (bs : list byte)
| BodyStr (s : string).

(** [requests.PreparedRequest], as the trace reads it. *)
Module PreparedRequest.
Record t := Make {
  method : string;
  url : string;
  headers : list (string * string);
  body : prepared_body
}.
End PreparedRequest.

(** [requests.Response] *)
Module Response.
Record t := Make {
  status_code : Z;
  headers : list (string * string);
  content : list byte;
  text : string;
  request : PreparedRequest.t
}.
End Response.

(** The keyword arguments of [requests.request]. *)
Module Call.
Record t := Make {
  method : string;
  url : string;
  headers : gmap string string;
  json : Py.json;
  params : gmap string string
}.
End Call.

(** ** Heap, effects and the monad *)

Inductive obj :=
| ODict (entries : gmap string string)
| ORequestData (d : RequestData.t)
| OStoredRequest (r : StoredRequest.t)
| OModel (variant : string) (fields : json).

Abbreviation heap := (gmap loc obj) (only parsing).

Inductive event :=
| LogDebug (msg : string)
| HttpRequest (c : Call.t).

Record outcome (A : Type) := Outcome {
  res : result A;
  st : heap;
  out : list event
}.
Arguments Outcome {A} res st out.
Arguments res {A} o.
Arguments st {A} o.
Arguments out {A} o.

Definition M (A : Type) : Type := heap → outcome A.

Definition ret {A} (a : A) : M A := λ h, Outcome (Ok a) h [].

Definition bind {A B} (m : M A) (k : A → M B) : M B := λ h,
  let o := m h in
  match res o with
  | Ok a => let o' := k a (st o) in Outcome (res o') (st o') (out o ++ out o')
  | Raise e => Outcome (Raise e) (st o) (out o)
  end.

Definition raise {A} (e : exn) : M A := λ h, Outcome (Raise e) h [].

Definition emit (ev : event) : M unit := λ h, Outcome (Ok tt) h [ev].

Definition lift {A} (r : result A) : M A := λ h, Outcome r h [].

#[global] Instance M_ret : MRet M := @ret.
#[global] Instance M_bind : MBind M := λ A B k m, bind m k.

(** [x = {...}]: a new object at an unused location *)
Definition alloc (o : obj) : M loc := λ h,
  let l := fresh (dom h) in Outcome (Ok l) (<[l := o]> h) [].

Definition read_request_data (l : loc) : M RequestData.t := λ h,
  match h !! l with
  | Some (ORequestData d) => Outcome (Ok d) h []
  | _ => Outcome (Raise (TypeError "request data is not a dictionary")) h []
  end.

Definition read_stored_request (l : loc) : M StoredRequest.t := λ h,
  match h !! l with
  | Some (OStoredRequest r) => Outcome (Ok r) h []
  | _ => Outcome (Raise (AttributeError "object is not a request model")) h []
  end.

Definition read_dict (l : loc) : M (gmap string string) := λ h,
  match h !! l with
  | Some (ODict d) => Outcome (Ok d) h []
  | _ => Outcome (Raise (AttributeError "object is not a mapping")) h []
  end.

(** [x[key] = value] on the object at [l], as a whole-object write *)
Definition store (l : loc) (o : obj) : M unit := λ h,
  Outcome (Ok tt) (<[l := o]> h) [].

(** [d.update(other)]: every entry of [other] is written into [d], so
    [other] wins where both have the key. *)
Definition updated (d other : gmap string string) : gmap string string := other ∪ d.

Definition dict_update (l : loc) (other : gmap string string) : M unit := λ h,
  match h !! l with
  | Some (ODict d) => Outcome (Ok tt) (<[l := ODict (updated d other)]> h) []
  | _ => Outcome (Raise (AttributeError "object has no attribute update")) h []
  end.

(** ** Request domain models

    A request domain model, as the handler reads it: five attributes.
    Reading an attribute runs code of the model (the attributes may be
    properties), so each is a computation. *)
Module DomainRequest.
Record t := Make {
  endpoint : M string;
  method : M string;
  payload : M json;
  parameters : M loc;
  headers : M loc
}.
End DomainRequest.

(** A model that stores its attributes: the object at [l].  Every access
    gives the stored value, and for the two mappings the same object. *)
Definition stored_request (l : loc) : DomainRequest.t :=
  {| DomainRequest.endpoint :=
       r ← read_stored_request l; mret (StoredRequest.endpoint r);
     DomainRequest.method :=
       r ← read_stored_request l; mret (StoredRequest.method r);
     DomainRequest.payload :=
       r ← read_stored_request l; mret (StoredRequest.payload r);
     DomainRequest.parameters :=
       r ← read_stored_request l; mret (StoredRequest.parameters r);
     DomainRequest.headers :=
       r ← read_stored_request l; mret (StoredRequest.headers r) |}.

(** A model whose attributes are properties that compute their value:
    every access to the parameters or to the headers builds a new mapping. *)
Definition computed_request (endpoint method : string) (payload : json)
    (parameters headers : gmap string string) : DomainRequest.t :=
  {| DomainRequest.endpoint := mret endpoint;
     DomainRequest.method := mret method;
     DomainRequest.payload := mret payload;
     DomainRequest.parameters := alloc (ODict parameters);
     DomainRequest.headers := alloc (ODict headers) |}.

(** ** The module: trace formatters and [APIHandler] *)

(** One line of the header block of a trace. *)
Definition format_header (kv : string * string) : string :=
  fst kv +:+ ": " +:+ snd kv.

(** [req.body.decode()]: only bytes have a [decode]. *)
Definition body_decode (b : prepared_body) : result string :=
  match b with
  | BodyBytes bs => decode bs
  | BodyNone =>
      Raise (AttributeError "'NoneType' object has no attribute 'decode'")
  | BodyStr _ =>
      Raise (AttributeError "'str' object has no attribute 'decode'")
  end.

(** The keyword arguments of [format] are evaluated in order; the last
    one decodes the body. *)
Definition print_request (req : PreparedRequest.t) : result string :=
  let method := PreparedRequest.method req in
  let url := PreparedRequest.url req in
  let headers := join nl (map format_header (PreparedRequest.headers req)) in
  match body_decode (PreparedRequest.body req) with
  | Ok body =>
      Ok (nl +:+ "HTTP/1.1 " +:+ method +:+ " " +:+ url +:+ nl
          +:+ headers +:+ nl +:+ nl +:+ body +:+ nl)
  | Raise e => Raise e
  end.

Definition print_response (resp : Response.t) : result string :=
  let status_code := str_of_int (Response.status_code resp) in
  let headers := join nl (map format_header (Response.headers resp)) in
  match decode (Response.content resp) with
  | Ok body =>
      Ok (nl +:+ "HTTP/1.1 " +:+ status_code +:+ nl
          +:+ headers +:+ nl +:+ nl +:+ body +:+ nl)
  | Raise e => Raise e
  end.

(** [LOGGER.debug(msg)] *)
Definition LOGGER_debug (msg : string) : M unit := emit (LogDebug msg).

(** A middleware: the two methods of [BaseMiddleware] the handler calls,
    and the text [%s] shows for it in the log. *)
Record BaseMiddleware := {
  mw_str : string;
  process_request : loc → M loc;
  process_response : loc → M loc
}.

(** A response domain model class: its [from_json]. *)
Record ModelClass := {
  from_json : string → M loc
}.

Record APIHandler := {
  middlewares : list BaseMiddleware;
  mode : string
}.

(** [APIHandler.__init__] *)
Definition __init__ (middlewares : option (list BaseMiddleware)) (staging : bool)
  : APIHandler :=
  let middlewares := match middlewares with Some l => l | None => [] end in
  {| middlewares := middlewares;
     mode := if staging then "staging" else "production" |}.

(** The [for mw in self.middlewares] loops. *)
Fixpoint request_loop (mws : list BaseMiddleware) (req : loc) : M loc :=
  match mws with
  | [] => mret req
  | mw :: rest =>
      LOGGER_debug ("Executing request middleware: " +:+ mw_str mw);;
      req ← process_request mw req;
      request_loop rest req
  end.

Fixpoint response_loop (mws : list BaseMiddleware) (resp : loc) : M loc :=
  match mws with
  | [] => mret resp
  | mw :: rest =>
      LOGGER_debug ("Executing response middleware: " +:+ mw_str mw);;
      resp ← process_response mw resp;
      response_loop rest resp
  end.

Definition execute_request_middlewares (self : APIHandler) (req : loc) : M loc :=
  request_loop (middlewares self) req.

Definition execute_response_middlewares (self : APIHandler) (resp : loc) : M loc :=
  response_loop (middlewares self) resp.

Definition parse_response (self : APIHandler) (resp : string) (model : ModelClass)
  : M loc :=
  m ← from_json model resp;
  execute_response_middlewares self m.

Section Environment.

(** [str.upper] *)
Variable str_upper : string → string.

(** [requests.request]: the network, which answers a call with a
    response or raises. *)
Variable requests_request : Call.t → result Response.t.

(** [config["endpoints"]]: base URL per mode. *)
Variable endpoints : gmap string string.

(** [urllib.parse.urljoin]: the joined URL, or the fault it raises. *)
Variable urljoin : string → string → result string.

Definition send_request (request_data : loc)
    (auth_header : option (gmap string string)) : M string :=
  let auth_header := match auth_header with Some a => a | None => ∅ end in
  d ← read_request_data request_data;
  let method := str_upper (RequestData.method d) in
  let headers := RequestData.headers d in
  dict_update headers auth_header;;
  let url := RequestData.url d in
  let payload := RequestData.payload d in
  let params := RequestData.params d in
  hs ← read_dict headers;
  ps ← read_dict params;
  let c := {| Call.method := method; Call.url := url;
              Call.headers := hs; Call.json := payload;
              Call.params := ps |} in
  emit (HttpRequest c);;
  response ← lift (requests_request c);
  msg ← lift (print_request (Response.request response));
  LOGGER_debug msg;;
  msg ← lift (print_response response);
  LOGGER_debug msg;;
  if negb (Response.status_code response =? 200)%Z then
    body ← lift (decode (Response.content response));
    raise (PythXAPIError
             ("Got unexpected status code "
              +:+ str_of_int (Response.status_code response)
              +:+ ": " +:+ body))
  else mret (Response.text response).

Definition assemble_request (self : APIHandler) (req : DomainRequest.t) : M loc :=
  base ← match endpoints !! mode self with
         | Some b => mret b
         | None => raise (KeyError (mode self))
         end;
  endpoint ← DomainRequest.endpoint req;
  url ← lift (urljoin base endpoint);
  method ← DomainRequest.method req;
  payload ← DomainRequest.payload req;
  params ← DomainRequest.parameters req;
  headers ← DomainRequest.headers req;
  base_request ← alloc (ORequestData
    {| RequestData.method := method;
       RequestData.payload := payload;
       RequestData.params := params;
       RequestData.headers := headers;
       RequestData.url := url |});
  execute_request_middlewares self base_request.

(** One invocation as a client makes it: assemble, then send. *)
Definition pipeline (self : APIHandler) (req : DomainRequest.t)
    (auth_header : option (gmap string string)) : M string :=
  request_data ← assemble_request self req;
  send_request request_data auth_header.

End Environment.

(** ** The stages as the specification words them

    A stage folds its argument through the transform of each registered
    middleware, in registration order, left to right; each middleware
    receives the output of the previous one. *)

Definition request_step (mw : BaseMiddleware) (req : loc) : M loc :=
  LOGGER_debug ("Executing request middleware: " +:+ mw_str mw);;
  process_request mw req.

Definition response_step (mw : BaseMiddleware) (resp : loc) : M loc :=
  LOGGER_debug ("Executing response middleware: " +:+ mw_str mw);;
  process_response mw resp.

Definition fold_stage (step : BaseMiddleware → loc → M loc)
    (chain : list BaseMiddleware) (x : loc) : M loc :=
  foldl (λ acc mw, acc ≫= step mw) (mret x) chain.

(** The shape both loops share: one step per middleware, front to back. *)
Fixpoint loop (step : BaseMiddleware → loc → M loc)
    (mws : list BaseMiddleware) (x : loc) : M loc :=
  match mws with
  | [] => mret x
  | mw :: rest => x' ← step mw x; loop step rest x'
  end.

(** Two outcomes with the same result and the same heap: they differ at
    most in what was logged. *)
Definition same_effect {A} (o1 o2 : outcome A) : Prop :=
  res o1 = res o2 ∧ st o1 = st o2.

Definition is_log (ev : event) : Prop := ∃ msg, ev = LogDebug msg.

(** An outcome with the records [pre] logged ahead of its own. *)
Definition logged {A} (pre : list event) (o : outcome A) : outcome A :=
  Outcome (res o) (st o) (pre ++ out o).

(** ** What [send_request] and [assemble_request] build *)

(** The headers after [headers.update(auth_header)]. *)
Definition merged (auth_header : option (gmap string string))
    (hd : gmap string string) : gmap string string :=
  updated hd (default ∅ auth_header).

(** The call [send_request] makes for the request data [d], whose headers
    hold [hd] and whose parameters hold [ps]. *)
Definition call_for (str_upper : string → string) (d : RequestData.t)
    (auth_header : option (gmap string string))
    (hd ps : gmap string string) : Call.t :=
  {| Call.method := str_upper (RequestData.method d);
     Call.url := RequestData.url d;
     Call.headers := merged auth_header hd;
     Call.json := RequestData.payload d;
     Call.params :=
       if decide (RequestData.headers d = RequestData.params d)
       then merged auth_header hd else ps |}.

(** The heap [send_request] leaves: the headers of [d] updated in place. *)
Definition after_merge (d : RequestData.t) (auth_header : option (gmap string string))
    (hd : gmap string string) (h : gmap positive obj) : gmap positive obj :=
  <[RequestData.headers d := ODict (merged auth_header hd)]> h.

(** [str.upper] does on ASCII text what [upper] does. *)
Definition upper_on_ascii (str_upper : string → string) : Prop :=
  ∀ s, is_ascii s = true → str_upper s = upper s.

(** ** Properties of collaborators and of the pipeline, as predicates *)

(** A middleware whose request transform hands on a request data dictionary
    with the [url] it received. *)
Definition url_preserving (mw : BaseMiddleware) : Prop :=
  ∀ l h d l' h' o,
    h !! l = Some (ORequestData d) →
    process_request mw l h = Outcome (Ok l') h' o →
    ∃ d', h' !! l' = Some (ORequestData d') ∧ RequestData.url d' = RequestData.url d.

(** Assembly correctness as the specification has it: whatever
    [assemble_request] returns carries the URL join of the base endpoint and
    the endpoint the request gave. *)
Definition assembled_url_is_join (endpoints : gmap string string)
    (urljoin : string → string → result string) (self : APIHandler) : Prop :=
  ∀ req base h endpoint h1 o1 l h' o,
    endpoints !! mode self = Some base →
    DomainRequest.endpoint req h = Outcome (Ok endpoint) h1 o1 →
    assemble_request endpoints urljoin self req h = Outcome (Ok l) h' o →
    ∃ d, h' !! l = Some (ORequestData d)
         ∧ urljoin base endpoint = Ok (RequestData.url d).

(** The five attribute reads [assemble_request] makes, in its order, when
    each of them returns: the values they gave, the heap they left and
    what they sent out. *)
Definition attributes_read (req : DomainRequest.t) (h : gmap positive obj)
    (endpoint method : string) (payload : json) (params headers : loc)
    (h' : gmap positive obj) (o : list event) : Prop :=
  ∃ h1 o1 h2 o2 h3 o3 h4 o4 o5,
    DomainRequest.endpoint req h = Outcome (Ok endpoint) h1 o1
    ∧ DomainRequest.method req h1 = Outcome (Ok method) h2 o2
    ∧ DomainRequest.payload req h2 = Outcome (Ok payload) h3 o3
    ∧ DomainRequest.parameters req h3 = Outcome (Ok params) h4 o4
    ∧ DomainRequest.headers req h4 = Outcome (Ok headers) h' o5
    ∧ o = o1 ++ o2 ++ o3 ++ o4 ++ o5.

(** The path of a directory: [/d1/d2/.../]. *)
Fixpoint directory_tail (dirs : list string) : string :=
  match dirs with
  | [] => EmptyString
  | d :: rest => d +:+ "/" +:+ directory_tail rest
  end.

Definition directory (dirs : list string) : string := "/" +:+ directory_tail dirs.

(** A path segment that is a plain name: not empty, without [/], and
    neither [.] nor [..]. *)
Definition plain_segment (seg : string) : Prop :=
  Urllib.nonempty seg = true ∧ Urllib.mem "/" seg = false
  ∧ Urllib.is_dot seg = false.

(** A character that URL parsing neither strips nor takes for the
    delimiter of a query, a fragment or parameters. *)
Definition url_char (c : ascii) : bool :=
  negb (Urllib.c0_control_or_space c) && negb (Urllib.one_of "?#;" c).

Definition url_text (s : string) : bool :=
  forallb url_char (list_ascii_of_string s).

(** The text of a path as a request gives it for its endpoint: such
    characters only, no [:], and no [//] at its head. *)
Definition path_text (s : string) : bool :=
  url_text s && negb (Urllib.mem ":" s) && negb (Urllib.starts_with_slashes s).

(** The text of a host part: not empty, such characters only, ASCII,
    without [/] and without brackets. *)
Definition host_text (s : string) : bool :=
  Urllib.nonempty s && url_text s && Urllib.isascii s
  && negb (Urllib.mem "/" s) && negb (Urllib.mem "[" s)
  && negb (Urllib.mem "]" s).

(** The text of the path of a base: such characters only, and either empty
    or with [/] at its head. *)
Definition base_path_text (s : string) : bool :=
  url_text s && (negb (Urllib.nonempty s) || Urllib.starts_with "/" s).

(** A base URL that parses into the scheme [sch], the host part [net] and
    the path [bpath]. *)
Definition base_url (lib : Urllib.library) (base sch net bpath : string) : Prop :=
  Urllib.nonempty base = true
  ∧ ∃ b, Urllib.urlparse lib base EmptyString = Ok b
         ∧ Urllib.scheme b = sch ∧ Urllib.netloc b = net ∧ Urllib.path b = bpath.

(** An endpoint that, for a base with the scheme [sch], parses into the
    path [p] and nothing else. *)
Definition bare_path (lib : Urllib.library) (url sch p : string) : Prop :=
  Urllib.nonempty url = true
  ∧ Urllib.urlparse lib url sch
    = Ok {| Urllib.scheme := sch; Urllib.netloc := EmptyString; Urllib.path := p;
            Urllib.params := EmptyString; Urllib.query := EmptyString;
            Urllib.fragment := EmptyString |}.

(** A scheme with a host part that takes relative references, such as
    [http] and [https]. *)
Definition hierarchical (sch : string) : Prop :=
  Urllib.nonempty sch = true
  ∧ Urllib.in_list sch Urllib.uses_relative = true
  ∧ Urllib.in_list sch Urllib.uses_netloc = true.

(** "A relative path is appended": the result is the base followed by the
    endpoint, with or without a [/] between them. *)
Definition appended (base endpoint joined : string) : Prop :=
  joined = base +:+ endpoint ∨ joined = base +:+ "/" +:+ endpoint.

(** What a request model shows when its attributes are read in the heap
    [h]: endpoint, method and payload, and the objects its parameters and
    its headers are at that moment. *)
Definition shown (attribute : M loc) (h : gmap positive obj) : option obj :=
  match res (attribute h) with
  | Ok l => st (attribute h) !! l
  | Raise _ => None
  end.

Definition reading (req : DomainRequest.t) (h : gmap positive obj)
  : result string * result string * result json * option obj * option obj :=
  (res (DomainRequest.endpoint req h),
   res (DomainRequest.method req h),
   res (DomainRequest.payload req h),
   shown (DomainRequest.parameters req) h,
   shown (DomainRequest.headers req) h).

(** The domain request reads the same in [h'] as in [h]. *)
Definition request_unchanged (req : DomainRequest.t) (h h' : gmap positive obj) : Prop :=
  reading req h' = reading req h.

(** A computation that sends nothing out but log records. *)
Definition logs_only {A} (m : M A) : Prop :=
  ∀ h, Forall is_log (out (m h)).

(** A request model whose attributes send nothing out but log records. *)
Definition attributes_log_only (req : DomainRequest.t) : Prop :=
  logs_only (DomainRequest.endpoint req)
  ∧ logs_only (DomainRequest.method req)
  ∧ logs_only (DomainRequest.payload req)
  ∧ logs_only (DomainRequest.parameters req)
  ∧ logs_only (DomainRequest.headers req).

(** A middleware that logs nothing itself, on the request leg and on the
    response leg. *)
Definition request_silent (mw : BaseMiddleware) : Prop :=
  ∀ l h, out (process_request mw l h) = [].

Definition response_silent (mw : BaseMiddleware) : Prop :=
  ∀ l h, out (process_response mw l h) = [].

(** The records the two loops write, one per middleware. *)
Definition request_record (mw : BaseMiddleware) : event :=
  LogDebug ("Executing request middleware: " +:+ mw_str mw).

Definition response_record (mw : BaseMiddleware) : event :=
  LogDebug ("Executing response middleware: " +:+ mw_str mw).

(** ** Collaborators and inputs of the examples *)

Module Examples.

(** A middleware that marks what passes: a header on the request, a
    wrapper around the fields of the response model. *)
Definition stamp (name : string) : BaseMiddleware :=
  {| mw_str := name;
     process_request := λ req,
       d ← read_request_data req;
       dict_update (RequestData.headers d) {[ "X-" +:+ name := "1" ]};;
       mret req;
     process_response := λ resp, λ h,
       match h !! resp with
       | Some (OModel v fields) =>
           Outcome (Ok resp) (<[resp := OModel v (JList [JText name; fields])]> h) []
       | _ => Outcome (Raise (TypeError "not a response model")) h []
       end |}.

(** A middleware that faults on both legs. *)
Definition failing (name : string) (e : exn) : BaseMiddleware :=
  {| mw_str := name;
     process_request := λ _, raise e;
     process_response := λ _, raise e |}.

(** A middleware that rewrites the URL of the request. *)
Definition url_tagger : BaseMiddleware :=
  {| mw_str := "url_tagger";
     process_request := λ req,
       d ← read_request_data req;
       store req (ORequestData
         {| RequestData.method := RequestData.method d;
            RequestData.payload := RequestData.payload d;
            RequestData.params := RequestData.params d;
            RequestData.headers := RequestData.headers d;
            RequestData.url := RequestData.url d +:+ "?tagged" |});;
       mret req;
     process_response := λ resp, mret resp |}.

(** A response model class: an object is built from text that opens a
    JSON object, anything else is a validation fault. *)
Definition issues_model : ModelClass :=
  {| from_json := λ raw,
       if String.prefix "{" raw
       then alloc (OModel "DetectedIssuesResponse" (JText raw))
       else raise (Fault "ValidationError" raw) |}.

Definition boom : exn := Fault "MiddlewareFault" "boom".

Definition config_endpoints : gmap string string :=
  {[ "production" := "https://api.mythx.io";
     "staging" := "https://staging.api.mythx.io" ]}.

(** A configuration whose base endpoints have a path. *)
Definition versioned_endpoints : gmap string string :=
  {[ "production" := "https://api.mythx.io/v1";
     "staging" := "https://staging.api.mythx.io/v1" ]}.

(** The library behind [urljoin] where one is needed: it is consulted only
    for a host part in brackets or with characters beyond ASCII. *)
Definition library : Urllib.library :=
  {| Urllib.check_bracketed_host := λ _, Ok tt;
     Urllib.normalize_nfkc := λ s, s |}.

Definition urljoin : string → string → result string := Urllib.urljoin library.

(** A request model that stores its attributes, at location 1; its
    parameters (2) and headers (3) are mappings, both empty. *)
Definition issues_request : StoredRequest.t :=
  StoredRequest.Make "/v1/analyses/abc-123/issues" "get" (JText EmptyString)
    2%positive 3%positive.

Definition h_request : heap :=
  {[ 1%positive := OStoredRequest issues_request;
     2%positive := ODict ∅;
     3%positive := ODict ∅ ]}.

(** The same request as a model that computes its attributes. *)
Definition issues_query : DomainRequest.t :=
  computed_request "/v1/analyses/abc-123/issues" "get" (JText EmptyString) ∅ ∅.

(** A login request whose endpoint is a relative path. *)
Definition login_query : DomainRequest.t :=
  computed_request "auth/login" "post" (JText EmptyString) ∅ ∅.

(** A request data dictionary at location 1, with parameters (2) and
    headers (3); the headers already name an agent and a token. *)
Definition issues_data (payload : json) : RequestData.t :=
  RequestData.Make "get" payload 2%positive 3%positive
    "https://api.mythx.io/v1/analyses/abc-123/issues".

Definition h_data (payload : json) : heap :=
  {[ 1%positive := ORequestData (issues_data payload);
     2%positive := ODict ∅;
     3%positive := ODict {[ "User-Agent" := "pythx"; "Authorization" := "Bearer old" ]} ]}.

(** A response model at location 1. *)
Definition h_model : heap :=
  {[ 1%positive := OModel "DetectedIssuesResponse" (JText "{}") ]}.

Definition bearer (token : string) : gmap string string :=
  {[ "Authorization" := "Bearer " +:+ token ]}.

(** The server's answer to a request that was prepared with [body]. *)
Definition answer (status : Z) (body : prepared_body) (content : string)
  : Response.t :=
  {| Response.status_code := status;
     Response.headers := [("Content-Type", "application/json")];
     Response.content := list_byte_of_string content;
     Response.text := content;
     Response.request :=
       {| PreparedRequest.method := "GET";
          PreparedRequest.url := "https://api.mythx.io/v1/analyses/abc-123/issues";
          PreparedRequest.headers := [("Accept", "application/json")];
          PreparedRequest.body := body |} |}.

Definition network (r : Response.t)
  : Call.t → result Response.t := λ _, Ok r.

Definition empty_json_body : prepared_body :=
  BodyBytes (list_byte_of_string "{}").

(** A network that cannot be reached. *)
Definition unreachable : Call.t → result Response.t :=
  λ _, Raise (Fault "ConnectionError" "connection refused").

(** A body of one byte, 255, which no UTF-8 text contains. *)
Definition not_utf8 : string := String (ascii_of_nat 255) EmptyString.

(** The handler with the given chain, for production. *)
Definition handler (mws : list BaseMiddleware) : APIHandler :=
  __init__ (Some mws) false.

End Examples.

(** * Properties *)

(** ** Laws of the monad, pointwise *)

Section Laws.

Context {A B C : Type}.

Lemma bind_ret_l (a : A) (k : A → M B) h : (mret a ≫= k) h = k a h.
Proof. unfold mbind, M_bind, bind, mret, M_ret, ret. simpl. by destruct (k a h). Qed.

Lemma bind_ret_r (m : M A) h : (m ≫= mret) h = m h.
Proof.
  unfold mbind, M_bind, bind, mret, M_ret, ret.
  destruct (m h) as [[a|e] h' o]; simpl; by rewrite ?app_nil_r.
Qed.

Lemma bind_assoc (m : M A) (f : A → M B) (g : B → M C) h :
  ((m ≫= f) ≫= g) h = (m ≫= λ a, f a ≫= g) h.
Proof.
  unfold mbind, M_bind, bind.
  destruct (m h) as [[a|e] h1 o1]; simpl; [|done].
  destruct (f a h1) as [[b|e] h2 o2]; simpl; [|done].
  by rewrite app_assoc.
Qed.

Lemma bind_outcome_l (m1 m2 : M A) (k : A → M B) h :
  m1 h = m2 h → (m1 ≫= k) h = (m2 ≫= k) h.
Proof. unfold mbind, M_bind, bind. by intros ->. Qed.

Lemma bind_outcome_r (m : M A) (k1 k2 : A → M B) h :
  (∀ a h', k1 a h' = k2 a h') → (m ≫= k1) h = (m ≫= k2) h.
Proof.
  intros Hk. unfold mbind, M_bind, bind.
  destruct (m h) as [[a|e] h1 o1]; simpl; [|done]. by rewrite Hk.
Qed.

(** What a sequence does when its first part returns, and when it
    raises. *)
Lemma bind_ok (m : M A) (k : A → M B) h a h1 o1 :
  m h = Outcome (Ok a) h1 o1 →
  (m ≫= k) h = Outcome (res (k a h1)) (st (k a h1)) (o1 ++ out (k a h1)).
Proof. unfold mbind, M_bind, bind. by intros ->. Qed.

Lemma bind_raise (m : M A) (k : A → M B) h e h1 o1 :
  m h = Outcome (Raise e) h1 o1 →
  (m ≫= k) h = Outcome (Raise e) h1 o1.
Proof. unfold mbind, M_bind, bind. by intros ->. Qed.

Lemma bind_same_effect (m1 m2 : M A) (k1 k2 : A → M B) h1 h2 :
  same_effect (m1 h1) (m2 h2) →
  (∀ a h, same_effect (k1 a h) (k2 a h)) →
  same_effect ((m1 ≫= k1) h1) ((m2 ≫= k2) h2).
Proof.
  unfold same_effect, mbind, M_bind, bind. intros [Hr Hs] Hk.
  rewrite Hr, Hs. destruct (res (m2 h2)) as [a|e]; simpl; [|done].
  apply Hk.
Qed.

End Laws.

(** ** The loops and the folds *)

Section Stages.

Variable step : BaseMiddleware → loc → M loc.

Lemma loop_snoc mws mw x h :
  loop step (mws ++ [mw]) x h = (loop step mws x ≫= step mw) h.
Proof.
  revert x h. induction mws as [|m mws IH]; intros x h; simpl.
  - by rewrite bind_ret_l, bind_ret_r.
  - rewrite bind_assoc. apply bind_outcome_r. intros; apply IH.
Qed.

Lemma fold_stage_snoc mws mw x :
  fold_stage step (mws ++ [mw]) x = fold_stage step mws x ≫= step mw.
Proof. unfold fold_stage. by rewrite foldl_app. Qed.

Lemma loop_fold mws x h : loop step mws x h = fold_stage step mws x h.
Proof.
  revert x h. induction mws as [|mw mws IH] using rev_ind; intros x h.
  - done.
  - rewrite loop_snoc, fold_stage_snoc. by apply bind_outcome_l.
Qed.

Lemma loop_app pre post x h :
  loop step (pre ++ post) x h = (loop step pre x ≫= loop step post) h.
Proof.
  revert x h. induction pre as [|m pre IH]; intros x h; simpl.
  - by rewrite bind_ret_l.
  - rewrite bind_assoc. apply bind_outcome_r. intros; apply IH.
Qed.

(** A step that raises ends the loop there: the steps behind it do not
    run, and the heap and the log are those of the fault. *)
Lemma loop_abort pre mk post x h x' h1 o1 e h2 o2 :
  loop step pre x h = Outcome (Ok x') h1 o1 →
  step mk x' h1 = Outcome (Raise e) h2 o2 →
  loop step (pre ++ mk :: post) x h = Outcome (Raise e) h2 (o1 ++ o2).
Proof.
  intros Hpre Hk. rewrite loop_app, (bind_ok _ _ _ _ _ _ Hpre). simpl.
  by rewrite (bind_raise _ _ _ _ _ _ Hk).
Qed.

Variable step' : BaseMiddleware → loc → M loc.
Hypothesis step_same : ∀ mw x h, same_effect (step mw x h) (step' mw x h).

Lemma loop_same_effect mws x h :
  same_effect (loop step mws x h) (loop step' mws x h).
Proof.
  revert x h. induction mws as [|mw mws IH]; intros x h; simpl; [done|].
  apply bind_same_effect; [apply step_same | intros; apply IH].
Qed.

End Stages.

Lemma request_loop_loop mws req h :
  request_loop mws req h = loop request_step mws req h.
Proof.
  revert req h. induction mws as [|mw mws IH]; intros req h; simpl; [done|].
  unfold request_step. rewrite bind_assoc.
  apply bind_outcome_r; intros [] h1. apply bind_outcome_r; intros; apply IH.
Qed.

Lemma response_loop_loop mws resp h :
  response_loop mws resp h = loop response_step mws resp h.
Proof.
  revert resp h. induction mws as [|mw mws IH]; intros resp h; simpl; [done|].
  unfold response_step. rewrite bind_assoc.
  apply bind_outcome_r; intros [] h1. apply bind_outcome_r; intros; apply IH.
Qed.

Lemma request_step_same mw req h :
  same_effect (request_step mw req h) (process_request mw req h).
Proof.
  unfold same_effect, request_step, LOGGER_debug, emit, mbind, M_bind, bind.
  simpl. by destruct (process_request mw req h) as [[?|?] ? ?].
Qed.

Lemma response_step_same mw resp h :
  same_effect (response_step mw resp h) (process_response mw resp h).
Proof.
  unfold same_effect, response_step, LOGGER_debug, emit, mbind, M_bind, bind.
  simpl. by destruct (process_response mw resp h) as [[?|?] ? ?].
Qed.

Lemma request_step_raise mw req h e h' o :
  process_request mw req h = Outcome (Raise e) h' o →
  request_step mw req h
  = Outcome (Raise e) h' (LogDebug ("Executing request middleware: " +:+ mw_str mw) :: o).
Proof.
  intros H. unfold request_step, LOGGER_debug, emit, mbind, M_bind, bind.
  simpl. by rewrite H.
Qed.

Lemma response_step_raise mw resp h e h' o :
  process_response mw resp h = Outcome (Raise e) h' o →
  response_step mw resp h
  = Outcome (Raise e) h' (LogDebug ("Executing response middleware: " +:+ mw_str mw) :: o).
Proof.
  intros H. unfold response_step, LOGGER_debug, emit, mbind, M_bind, bind.
  simpl. by rewrite H.
Qed.

(** ** The middleware chain *)

(** C3. Both stages are the left-to-right fold of their argument through
    the registered middlewares, in registration order: the request stage
    through each [process_request], the response stage through each
    [process_response], over the same list and not its reverse.  Each step
    is preceded by its log record; up to the log, the stages are the folds
    of the bare transforms. *)
Theorem stages_fold_in_registration_order (self : APIHandler) (x : loc) (h : heap) :
  execute_request_middlewares self x h
  = fold_stage request_step (middlewares self) x h
  ∧ execute_response_middlewares self x h
    = fold_stage response_step (middlewares self) x h
  ∧ same_effect (execute_request_middlewares self x h)
                (fold_stage process_request (middlewares self) x h)
  ∧ same_effect (execute_response_middlewares self x h)
                (fold_stage process_response (middlewares self) x h).
Proof.
  unfold execute_request_middlewares, execute_response_middlewares.
  rewrite request_loop_loop, response_loop_loop.
  repeat split.
  - apply loop_fold.
  - apply loop_fold.
  - rewrite <- (loop_fold process_request).
    apply (loop_same_effect _ _ request_step_same).
  - rewrite <- (loop_fold process_request).
    apply (loop_same_effect _ _ request_step_same).
  - rewrite <- (loop_fold process_response).
    apply (loop_same_effect _ _ response_step_same).
  - rewrite <- (loop_fold process_response).
    apply (loop_same_effect _ _ response_step_same).
Qed.

(** The first registered middleware runs first on both legs: the log and
    the marks of a chain of two. *)
Example first_registered_runs_first :
  let self := __init__ (Some [Examples.stamp "A"; Examples.stamp "B"]) false in
  out (execute_request_middlewares self 1%positive (Examples.h_data JNone))
  = [LogDebug "Executing request middleware: A";
     LogDebug "Executing request middleware: B"]
  ∧ out (execute_response_middlewares self 1%positive Examples.h_model)
    = [LogDebug "Executing response middleware: A";
       LogDebug "Executing response middleware: B"]
  ∧ st (execute_response_middlewares self 1%positive Examples.h_model) !! 1%positive
    = Some (OModel "DetectedIssuesResponse"
              (JList [JText "B"; JList [JText "A"; JText "{}"]])).
Proof. vm_compute. done. Qed.

(** C10. A handler constructed without a middleware list has the empty
    chain, and with it both stages return their argument as it is: the
    same value, the heap untouched, nothing logged. *)
Theorem no_middlewares_stages_are_identity (staging : bool) (x : loc) (h : heap) :
  middlewares (__init__ None staging) = []
  ∧ execute_request_middlewares (__init__ None staging) x h = Outcome (Ok x) h []
  ∧ execute_response_middlewares (__init__ None staging) x h = Outcome (Ok x) h [].
Proof. done. Qed.

(** C6. When the k-th middleware of a chain raises, on either stage, the
    stage ends with that very fault, in the heap the faulting middleware
    left behind, which it reached from the heap of middlewares 1..k-1:
    nothing is undone.  The outcome does not depend on the middlewares
    behind the k-th, and the log has a record for each of the first k and
    none for a later one: no later middleware is invoked. *)
Theorem stage_aborts_at_first_fault (self : APIHandler)
    (pre post : list BaseMiddleware) (mk : BaseMiddleware)
    (Hchain : middlewares self = pre ++ mk :: post) :
  (∀ req h req' h1 o1 e h2 o2,
     request_loop pre req h = Outcome (Ok req') h1 o1 →
     process_request mk req' h1 = Outcome (Raise e) h2 o2 →
     execute_request_middlewares self req h
     = Outcome (Raise e) h2
         (o1 ++ LogDebug ("Executing request middleware: " +:+ mw_str mk) :: o2))
  ∧ (∀ resp h resp' h1 o1 e h2 o2,
     response_loop pre resp h = Outcome (Ok resp') h1 o1 →
     process_response mk resp' h1 = Outcome (Raise e) h2 o2 →
     execute_response_middlewares self resp h
     = Outcome (Raise e) h2
         (o1 ++ LogDebug ("Executing response middleware: " +:+ mw_str mk) :: o2)).
Proof.
  unfold execute_request_middlewares, execute_response_middlewares.
  rewrite Hchain. split.
  - intros req h req' h1 o1 e h2 o2 Hpre Hk.
    rewrite request_loop_loop in Hpre |- *.
    apply (loop_abort _ _ _ _ _ _ _ _ _ _ _ _ Hpre).
    by apply request_step_raise.
  - intros resp h resp' h1 o1 e h2 o2 Hpre Hk.
    rewrite response_loop_loop in Hpre |- *.
    apply (loop_abort _ _ _ _ _ _ _ _ _ _ _ _ Hpre).
    by apply response_step_raise.
Qed.


(** The chain A, F, B with F faulting: the mark of A stays, B never runs. *)
Lemma stage_aborts_at_first_fault_witness :
  let self := __init__ (Some [Examples.stamp "A"; Examples.failing "F" Examples.boom;
                          Examples.stamp "B"]) false in
  let o := execute_request_middlewares self 1%positive (Examples.h_data JNone) in
  let o' := execute_response_middlewares self 1%positive Examples.h_model in
  (res o = Raise Examples.boom
   ∧ st o !! 3%positive
     = Some (ODict {[ "X-A" := "1"; "User-Agent" := "pythx";
                      "Authorization" := "Bearer old" ]})
   ∧ out o = [LogDebug "Executing request middleware: A";
              LogDebug "Executing request middleware: F"])
  ∧ (res o' = Raise Examples.boom
     ∧ st o' !! 1%positive
       = Some (OModel "DetectedIssuesResponse" (JList [JText "A"; JText "{}"]))
     ∧ out o' = [LogDebug "Executing response middleware: A";
                 LogDebug "Executing response middleware: F"]).
Proof.
  intros self o o'. subst o o'.
  destruct (stage_aborts_at_first_fault self
              [Examples.stamp "A"] [Examples.stamp "B"]
              (Examples.failing "F" Examples.boom) eq_refl) as [Hreq Hresp].
  split.
  - erewrite Hreq; [|reflexivity|reflexivity]. vm_compute. done.
  - erewrite Hresp; [|reflexivity|reflexivity]. vm_compute. done.
Defined.
(** ** The response decoder *)

(** C5. [parse_response] builds the model with the class's own [from_json]
    on the raw text.  When that returns a model, the result is that of the
    response stage run on it, from the heap construction left; when it
    raises, [parse_response] ends with the same fault, heap and log, and
    the response stage is not entered. *)
Theorem parse_response_builds_then_runs_stage (self : APIHandler) (resp : string)
    (model : ModelClass) (h : heap) :
  (∀ m h1 o1,
     from_json model resp h = Outcome (Ok m) h1 o1 →
     let o := execute_response_middlewares self m h1 in
     parse_response self resp model h = Outcome (res o) (st o) (o1 ++ out o))
  ∧ (∀ e h1 o1,
     from_json model resp h = Outcome (Raise e) h1 o1 →
     parse_response self resp model h = Outcome (Raise e) h1 o1).
Proof.
  split.
  - intros m h1 o1 Hm. unfold parse_response. by rewrite (bind_ok _ _ _ _ _ _ Hm).
  - intros e h1 o1 He. unfold parse_response. by rewrite (bind_raise _ _ _ _ _ _ He).
Qed.

(** A well-formed answer goes through the chain; a malformed one gives the
    model's fault, and the middleware is not run. *)
Lemma parse_response_builds_then_runs_stage_witness :
  let self := __init__ (Some [Examples.stamp "A"]) false in
  let o := parse_response self "{}" Examples.issues_model ∅ in
  let o' := parse_response self "<html>" Examples.issues_model ∅ in
  (res o = Ok 1%positive
   ∧ st o !! 1%positive
     = Some (OModel "DetectedIssuesResponse" (JList [JText "A"; JText "{}"])))
  ∧ o' = Outcome (Raise (Fault "ValidationError" "<html>")) ∅ [].
Proof.
  intros self o o'. subst o o'.
  destruct (parse_response_builds_then_runs_stage self "{}" Examples.issues_model ∅)
    as [Hok _].
  destruct (parse_response_builds_then_runs_stage self "<html>" Examples.issues_model ∅)
    as [_ Hraise].
  split.
  - erewrite Hok; [|reflexivity]. vm_compute. done.
  - erewrite Hraise; reflexivity.
Defined.

(** ** Running the primitives *)

Section Steps.

Context {A B : Type}.

Lemma bind_silent (m : M A) (k : A → M B) h a h1 :
  m h = Outcome (Ok a) h1 [] → (m ≫= k) h = k a h1.
Proof. unfold mbind, M_bind, bind. intros ->. simpl. by destruct (k a h1). Qed.

Lemma bind_lift (r : result A) (k : A → M B) h :
  (lift r ≫= k) h
  = match r with Ok a => k a h | Raise e => Outcome (Raise e) h [] end.
Proof.
  unfold mbind, M_bind, bind, lift. destruct r; simpl; [|done].
  by destruct (k a h).
Qed.

Lemma bind_emit (ev : event) (k : unit → M B) h :
  (emit ev ≫= k) h = logged [ev] (k tt h).
Proof. done. Qed.

Lemma bind_ok_inv (m : M A) (k : A → M B) h b h' o :
  (m ≫= k) h = Outcome (Ok b) h' o →
  ∃ a h1 o1 o2,
    m h = Outcome (Ok a) h1 o1 ∧ k a h1 = Outcome (Ok b) h' o2 ∧ o = o1 ++ o2.
Proof.
  unfold mbind, M_bind, bind.
  destruct (m h) as [[a|e] h1 o1]; simpl; [|done].
  destruct (k a h1) as [r h2 o2] eqn:Hk; simpl. intros [= -> -> <-].
  by exists a, h1, o1, o2.
Qed.

End Steps.

Lemma logged_ok_inv {A} (pre : list event) (o : outcome A) a h' o' :
  logged pre o = Outcome (Ok a) h' o' → ∃ o2, o = Outcome (Ok a) h' o2.
Proof. destruct o as [r s o2]. unfold logged. simpl. intros [= -> -> _]. by exists o2. Qed.

Lemma read_request_data_ok (l : loc) (h : heap) d :
  h !! l = Some (ORequestData d) → read_request_data l h = Outcome (Ok d) h [].
Proof. unfold read_request_data. by intros ->. Qed.

Lemma read_stored_request_ok (l : loc) (h : heap) r :
  h !! l = Some (OStoredRequest r) → read_stored_request l h = Outcome (Ok r) h [].
Proof. unfold read_stored_request. by intros ->. Qed.

Lemma read_dict_ok (l : loc) (h : heap) d :
  h !! l = Some (ODict d) → read_dict l h = Outcome (Ok d) h [].
Proof. unfold read_dict. by intros ->. Qed.

Lemma read_dict_st (l : loc) (h : heap) : st (read_dict l h) = h.
Proof. unfold read_dict. by destruct (h !! l) as [[]|]. Qed.

Lemma dict_update_ok (l : loc) (h : heap) d other :
  h !! l = Some (ODict d) →
  dict_update l other h = Outcome (Ok tt) (<[l := ODict (updated d other)]> h) [].
Proof. unfold dict_update. by intros ->. Qed.

Lemma alloc_ok (o : obj) (h : heap) :
  alloc o h = Outcome (Ok (fresh (dom h))) (<[fresh (dom h) := o]> h) [].
Proof. reflexivity. Qed.

Lemma fresh_unused (h : heap) : h !! fresh (dom h) = None.
Proof. apply not_elem_of_dom, is_fresh. Qed.

(** ** The transport executor *)

Section Transport.

Variable str_upper : string → string.
Variable requests_request : Call.t → result Response.t.

(** [send_request], run step by step on well-formed request data. *)
Lemma send_request_run (l : loc) (auth : option (gmap string string)) (h : heap)
    (d : RequestData.t) (hd ps : gmap string string) :
  h !! l = Some (ORequestData d) →
  h !! RequestData.headers d = Some (ODict hd) →
  h !! RequestData.params d = Some (ODict ps) →
  let c := call_for str_upper d auth hd ps in
  let h' := after_merge d auth hd h in
  send_request str_upper requests_request l auth h =
  match requests_request c with
  | Raise e => Outcome (Raise e) h' [HttpRequest c]
  | Ok response =>
      match print_request (Response.request response) with
      | Raise e => Outcome (Raise e) h' [HttpRequest c]
      | Ok m1 =>
          match print_response response with
          | Raise e => Outcome (Raise e) h' [HttpRequest c; LogDebug m1]
          | Ok m2 =>
              let trace := [HttpRequest c; LogDebug m1; LogDebug m2] in
              if negb (Response.status_code response =? 200)%Z then
                match decode (Response.content response) with
                | Ok body =>
                    Outcome (Raise (PythXAPIError
                               ("Got unexpected status code "
                                +:+ str_of_int (Response.status_code response)
                                +:+ ": " +:+ body))) h' trace
                | Raise e => Outcome (Raise e) h' trace
                end
              else Outcome (Ok (Response.text response)) h' trace
          end
      end
  end.
Proof.
  intros Hl Hh Hp c h'.
  assert (Hh' : h' !! RequestData.headers d = Some (ODict (merged auth hd))).
  { apply lookup_insert_eq. }
  assert (Hp' : h' !! RequestData.params d
                = Some (ODict (Call.params c))).
  { subst c h'. unfold after_merge, call_for. simpl. rewrite lookup_insert.
    by destruct (decide _). }
  change (Call.params c)
    with (if decide (RequestData.headers d = RequestData.params d)
          then merged auth hd else ps) in Hp'.
  unfold send_request.
  rewrite (bind_silent _ _ _ _ _ (read_request_data_ok _ _ _ Hl)).
  rewrite (bind_silent _ _ _ _ _ (dict_update_ok _ _ _ _ Hh)).
  fold (merged auth hd). fold (after_merge d auth hd h). fold h'.
  rewrite (bind_silent _ _ _ _ _ (read_dict_ok _ _ _ Hh')).
  rewrite (bind_silent _ _ _ _ _ (read_dict_ok _ _ _ Hp')).
  change (Call.Make _ _ _ _ _) with c.
  rewrite bind_emit, bind_lift.
  destruct (requests_request c) as [response|e]; [|reflexivity].
  rewrite bind_lift.
  destruct (print_request _) as [m1|e]; [|reflexivity].
  unfold LOGGER_debug. rewrite bind_emit, bind_lift.
  destruct (print_response _) as [m2|e]; [|reflexivity].
  rewrite bind_emit.
  destruct (negb _); [|reflexivity].
  rewrite bind_lift. destruct (decode _) as [body|e]; reflexivity.
Qed.

(** The first thing [send_request] sends out is its one HTTP call; what
    follows are log records.  The heap it leaves is the one after the
    merge, however the call ends. *)
Lemma send_request_effects (l : loc) (auth : option (gmap string string))
    (h : heap) (d : RequestData.t) (hd ps : gmap string string) :
  h !! l = Some (ORequestData d) →
  h !! RequestData.headers d = Some (ODict hd) →
  h !! RequestData.params d = Some (ODict ps) →
  ∃ logs,
    out (send_request str_upper requests_request l auth h)
    = HttpRequest (call_for str_upper d auth hd ps) :: logs
    ∧ Forall is_log logs
    ∧ st (send_request str_upper requests_request l auth h) = after_merge d auth hd h.
Proof.
  intros Hl Hh Hp. rewrite (send_request_run _ _ _ _ _ _ Hl Hh Hp).
  assert (∀ m, is_log (LogDebug m)) as Hlog by (intros m; by exists m).
  destruct (requests_request _) as [response|e]; [|by exists []].
  destruct (print_request _) as [m1|e]; [|by exists []].
  destruct (print_response _) as [m2|e]; [|exists [LogDebug m1]; auto].
  simpl. destruct (negb _); [destruct (decode _)|];
    exists [LogDebug m1; LogDebug m2]; auto.
Qed.

End Transport.

(** ** Text *)

Lemma append_cons (c : ascii) (s t : string) :
  String c s +:+ t = String c (s +:+ t).
Proof. reflexivity. Qed.

Lemma append_nil_r (s : string) : s +:+ EmptyString = s.
Proof.
  induction s as [|c s IH]; [reflexivity|]. by rewrite append_cons, IH.
Qed.

Lemma append_assoc (s1 s2 s3 : string) : (s1 +:+ s2) +:+ s3 = s1 +:+ s2 +:+ s3.
Proof.
  induction s1 as [|c s1 IH]; [reflexivity|]. by rewrite !append_cons, IH.
Qed.

Lemma length_append (s1 s2 : string) :
  String.length (s1 +:+ s2) = (String.length s1 + String.length s2)%nat.
Proof.
  induction s1 as [|c s1 IH]; [reflexivity|].
  rewrite append_cons. simpl. by rewrite IH.
Qed.

Lemma length_upper (s : string) : String.length (upper s) = String.length s.
Proof. induction s as [|c s IH]; simpl; congruence. Qed.

Lemma get_upper (i : nat) (s : string) :
  String.get i (upper s) = option_map upper_char (String.get i s).
Proof.
  revert i. induction s as [|c s IH]; intros i; [done|].
  destruct i as [|i]; simpl; [done|apply IH].
Qed.

Lemma upper_char_code (a : ascii) :
  nat_of_ascii (upper_char a)
  = (if ((97 <=? nat_of_ascii a) && (nat_of_ascii a <=? 122))%nat
     then nat_of_ascii a - 32 else nat_of_ascii a)%nat.
Proof.
  unfold upper_char.
  destruct ((97 <=? nat_of_ascii a) && (nat_of_ascii a <=? 122))%nat; [|done].
  apply nat_ascii_embedding. pose proof (nat_ascii_bounded a). lia.
Qed.

Lemma upper_on_ascii_upper : upper_on_ascii upper.
Proof. by intros s _. Qed.

Lemma contains_middle (before sub after : string) :
  contains sub (before +:+ sub +:+ after).
Proof. by exists before, after. Qed.

Lemma contains_end (before sub : string) : contains sub (before +:+ sub).
Proof. exists before, EmptyString. by rewrite append_nil_r. Qed.

Lemma merged_lookup (auth : option (gmap string string)) (hd : gmap string string)
    (k : string) :
  merged auth hd !! k
  = match default ∅ auth !! k with Some v => Some v | None => hd !! k end.
Proof.
  unfold merged, updated. rewrite lookup_union.
  by destruct (default ∅ auth !! k), (hd !! k).
Qed.

Lemma merged_nothing (auth : option (gmap string string)) (hd : gmap string string) :
  auth = None ∨ auth = Some ∅ → merged auth hd = hd.
Proof.
  unfold merged, updated. intros [-> | ->]; simpl; apply (left_id_L ∅ (∪)).
Qed.

(** The merge leaves the headers as they were exactly when every entry of
    the auth header was already there. *)
Lemma merged_same (auth : option (gmap string string)) (hd : gmap string string) :
  merged auth hd = hd ↔ default ∅ auth ⊆ hd.
Proof.
  unfold merged, updated. split.
  - intros <-. apply map_union_subseteq_l.
  - apply map_subseteq_union.
Qed.

Section Sending.

Variable str_upper : string → string.
Variable requests_request : Call.t → result Response.t.

(** C4. The headers of the HTTP call are the headers of the request data
    with the entries of the auth header written over them: a key of the
    auth header has the auth header's value, any other key has the value
    of the request data.  The call is the first thing sent out, so the
    merge comes before it.  With no auth header, or an empty one, the
    headers of the call are those of the request data. *)
Theorem send_request_merges_auth_header (l : loc)
    (auth : option (gmap string string)) (h : heap) (d : RequestData.t)
    (hd ps : gmap string string) :
  h !! l = Some (ORequestData d) →
  h !! RequestData.headers d = Some (ODict hd) →
  h !! RequestData.params d = Some (ODict ps) →
  ∃ c logs,
    out (send_request str_upper requests_request l auth h) = HttpRequest c :: logs
    ∧ Forall is_log logs
    ∧ (∀ k, Call.headers c !! k
            = match default ∅ auth !! k with
              | Some v => Some v
              | None => hd !! k
              end)
    ∧ (auth = None ∨ auth = Some ∅ → Call.headers c = hd).
Proof.
  intros Hl Hh Hp.
  destruct (send_request_effects str_upper requests_request _ auth _ _ _ _ Hl Hh Hp)
    as (logs & Hout & Hlogs & _).
  exists (call_for str_upper d auth hd ps), logs. repeat split; [done..| |].
  - intros k. apply merged_lookup.
  - apply merged_nothing.
Qed.

(** C9. The verb of the HTTP call is what [str.upper] makes of the method
    of the request data, for every request data.  For a method of ASCII text
    that is the method in upper case, position by position: the same length,
    each letter a-z replaced by its capital, every other character kept.  A
    method [get] goes out as [GET]. *)
Theorem send_request_sends_upper_case_method (l : loc)
    (auth : option (gmap string string)) (h : heap) (d : RequestData.t)
    (hd ps : gmap string string) :
  h !! l = Some (ORequestData d) →
  h !! RequestData.headers d = Some (ODict hd) →
  h !! RequestData.params d = Some (ODict ps) →
  ∃ c logs,
    out (send_request str_upper requests_request l auth h) = HttpRequest c :: logs
    ∧ Forall is_log logs
    ∧ Call.method c = str_upper (RequestData.method d)
    ∧ (upper_on_ascii str_upper →
       is_ascii (RequestData.method d) = true →
       String.length (Call.method c) = String.length (RequestData.method d)
       ∧ ∀ i a,
           String.get i (RequestData.method d) = Some a →
           ∃ a',
             String.get i (Call.method c) = Some a'
             ∧ nat_of_ascii a'
               = (if ((97 <=? nat_of_ascii a) && (nat_of_ascii a <=? 122))%nat
                  then nat_of_ascii a - 32 else nat_of_ascii a)%nat)
    ∧ (upper_on_ascii str_upper →
       RequestData.method d = "get" → Call.method c = "GET").
Proof.
  intros Hl Hh Hp.
  destruct (send_request_effects str_upper requests_request _ auth _ _ _ _ Hl Hh Hp)
    as (logs & Hout & Hlogs & _).
  exists (call_for str_upper d auth hd ps), logs.
  split; [done|]. split; [done|]. split; [done|]. simpl. split.
  - intros Hupper Hascii. rewrite (Hupper _ Hascii). split; [apply length_upper|].
    intros i a Hget. exists (upper_char a). split.
    + by rewrite get_upper, Hget.
    + apply upper_char_code.
  - intros Hupper ->. by rewrite (Hupper "get").
Qed.

(** The status gate, when both traces could be formatted: the text of the
    response for status 200 and for no other status; otherwise
    [PythXAPIError] with the status code and the decoded body in its
    message. *)
Lemma send_request_status_gate (l : loc) (auth : option (gmap string string))
    (h : heap) (d : RequestData.t) (hd ps : gmap string string)
    (response : Response.t) (m1 m2 : string) :
  h !! l = Some (ORequestData d) →
  h !! RequestData.headers d = Some (ODict hd) →
  h !! RequestData.params d = Some (ODict ps) →
  requests_request (call_for str_upper d auth hd ps) = Ok response →
  print_request (Response.request response) = Ok m1 →
  print_response response = Ok m2 →
  let r := res (send_request str_upper requests_request l auth h) in
  (r = Ok (Response.text response) ↔ Response.status_code response = 200%Z)
  ∧ (Response.status_code response ≠ 200%Z →
     ∃ body msg,
       decode (Response.content response) = Ok body
       ∧ r = Raise (PythXAPIError msg)
       ∧ contains (str_of_int (Response.status_code response)) msg
       ∧ contains body msg).
Proof.
  intros Hl Hh Hp Hnet H1 H2 r. subst r.
  rewrite (send_request_run _ _ _ _ _ _ _ _ Hl Hh Hp), Hnet, H1, H2.
  assert (∃ body, decode (Response.content response) = Ok body) as [body Hb].
  { unfold print_response in H2. destruct (decode _) as [body|]; [|done].
    by exists body. }
  rewrite Hb. simpl.
  destruct (Z.eqb_spec (Response.status_code response) 200) as [Heq|Hne]; simpl.
  - split; [by split|]. intros Hne. contradiction.
  - split; [split; [discriminate|by intros ?]|]. intros _.
    eexists body, _. repeat split.
    + apply contains_middle.
    + rewrite <- !append_assoc. apply contains_end.
Qed.

(** A request that was prepared without a bytes body ends [send_request]
    with [AttributeError], whatever the status of the response. *)
Lemma send_request_needs_bytes_body (l : loc) (auth : option (gmap string string))
    (h : heap) (d : RequestData.t) (hd ps : gmap string string)
    (response : Response.t) :
  h !! l = Some (ORequestData d) →
  h !! RequestData.headers d = Some (ODict hd) →
  h !! RequestData.params d = Some (ODict ps) →
  requests_request (call_for str_upper d auth hd ps) = Ok response →
  (∀ bs, PreparedRequest.body (Response.request response) ≠ BodyBytes bs) →
  ∃ msg, res (send_request str_upper requests_request l auth h) = Raise (AttributeError msg).
Proof.
  intros Hl Hh Hp Hnet Hbody.
  rewrite (send_request_run _ _ _ _ _ _ _ _ Hl Hh Hp), Hnet.
  unfold print_request.
  destruct (PreparedRequest.body (Response.request response)) as [|bs|s] eqn:Hb;
    simpl; [by eexists|by destruct (Hbody bs)|by eexists].
Qed.

End Sending.

(** The call of a request with method [get], an old token in its headers
    and a new one in the auth header: verb [GET], the new token, and the
    header the auth header does not name. *)
Lemma send_request_merges_auth_header_witness :
  ∃ c logs,
    out (send_request upper (Examples.network (Examples.answer 200 Examples.empty_json_body "{}"))
           1%positive (Some (Examples.bearer "new")) (Examples.h_data (JDict [])))
    = HttpRequest c :: logs
    ∧ Call.headers c !! "Authorization" = Some "Bearer new"
    ∧ Call.headers c !! "User-Agent" = Some "pythx".
Proof.
  destruct (send_request_merges_auth_header upper
              (Examples.network (Examples.answer 200 Examples.empty_json_body "{}"))
              1%positive (Some (Examples.bearer "new")) (Examples.h_data (JDict []))
              (Examples.issues_data (JDict []))
              {[ "User-Agent" := "pythx"; "Authorization" := "Bearer old" ]} ∅
              eq_refl eq_refl eq_refl)
    as (c & logs & Hout & _ & Hk & _).
  exists c, logs. split; [exact Hout|].
  split; rewrite Hk; vm_compute; reflexivity.
Defined.

Lemma send_request_sends_upper_case_method_witness :
  ∃ c logs,
    out (send_request upper
           (Examples.network (Examples.answer 200 Examples.empty_json_body "{}"))
           1%positive None (Examples.h_data (JDict [])))
    = HttpRequest c :: logs
    ∧ Call.method c = "GET"
    ∧ String.length (Call.method c) = 3%nat.
Proof.
  destruct (send_request_sends_upper_case_method upper
              (Examples.network (Examples.answer 200 Examples.empty_json_body "{}"))
              1%positive None (Examples.h_data (JDict []))
              (Examples.issues_data (JDict []))
              {[ "User-Agent" := "pythx"; "Authorization" := "Bearer old" ]} ∅
              eq_refl eq_refl eq_refl)
    as (c & logs & Hout & _ & _ & Hascii & Hget).
  exists c, logs. split; [exact Hout|]. split.
  - exact (Hget upper_on_ascii_upper eq_refl).
  - exact (proj1 (Hascii upper_on_ascii_upper eq_refl)).
Defined.

(** The scenario of the specification: status 200 gives the body, status
    400 gives [PythXAPIError] naming the code and the body. *)
Example send_request_scenario :
  let send status content :=
    res (send_request upper
           (Examples.network (Examples.answer status Examples.empty_json_body content))
           1%positive None (Examples.h_data (JDict []))) in
  send 200%Z "{}" = Ok "{}"
  ∧ send 400%Z "bad uuid"
    = Raise (PythXAPIError "Got unexpected status code 400: bad uuid").
Proof. vm_compute. done. Qed.

(** ** The diagnostic trace *)

(** C1, where the code departs from it.  The request data has no payload,
    so the request was prepared without a body.  The server answers 200,
    and [send_request] does not return the text: formatting the trace
    raises [AttributeError].  The server answers 404, and the fault is
    again [AttributeError], not [PythXAPIError]. *)
Theorem send_request_gate_preempted_by_trace (str_upper : string → string) :
  let send status content :=
    res (send_request str_upper
           (Examples.network (Examples.answer status BodyNone content))
           1%positive None (Examples.h_data JNone)) in
  send 200%Z "{}"
  = Raise (AttributeError "'NoneType' object has no attribute 'decode'")
  ∧ send 404%Z "not found"
    = Raise (AttributeError "'NoneType' object has no attribute 'decode'").
Proof. vm_compute. done. Qed.

(** C8, where the code departs from it.  The same answer, status 200 and
    body [{}], to three requests that differ only in the body they were
    prepared with: bytes, none, text.  With bytes [send_request] returns the
    text; with no body and with a text body, formatting the trace raises,
    and that is how [send_request] ends.  With no body nothing is logged at
    all. *)
Theorem trace_formatting_changes_outcome (str_upper : string → string) :
  let send body :=
    send_request str_upper (Examples.network (Examples.answer 200 body "{}"))
      1%positive None (Examples.h_data JNone) in
  res (send Examples.empty_json_body) = Ok "{}"
  ∧ print_request (Response.request (Examples.answer 200 BodyNone "{}"))
    = Raise (AttributeError "'NoneType' object has no attribute 'decode'")
  ∧ res (send BodyNone)
    = Raise (AttributeError "'NoneType' object has no attribute 'decode'")
  ∧ Forall (λ ev, ¬ is_log ev) (out (send BodyNone))
  ∧ res (send (BodyStr "{}"))
    = Raise (AttributeError "'str' object has no attribute 'decode'").
Proof.
  vm_compute. repeat split.
  constructor; [|constructor]. by intros [? ?].
Qed.

(** ** The URL join *)

Lemma nonempty_true (s : string) : Urllib.nonempty s = true ↔ s ≠ EmptyString.
Proof. by destruct s. Qed.

Lemma starts_with_nonempty (c : ascii) (s : string) :
  Urllib.starts_with c s = true → Urllib.nonempty s = true.
Proof. by destruct s. Qed.

Lemma resolve_from (resolved segments : list string) :
  Forall (λ seg, Urllib.is_dot seg = false) segments →
  foldl Urllib.resolve_step resolved segments = resolved ++ segments.
Proof.
  intros Hsegs. revert resolved.
  induction Hsegs as [|seg segments Hseg _ IH]; intros resolved; simpl.
  - by rewrite app_nil_r.
  - rewrite IH. unfold Urllib.resolve_step, Urllib.is_dot in *.
    apply orb_false_iff in Hseg as [-> ->]. by rewrite <- app_assoc.
Qed.

Lemma resolve_plain (segments : list string) :
  Forall (λ seg, Urllib.is_dot seg = false) segments →
  Urllib.resolve segments = segments.
Proof. intros. unfold Urllib.resolve. by rewrite resolve_from. Qed.

Lemma split_nonempty (c : ascii) (s : string) : Urllib.split c s ≠ [].
Proof.
  induction s as [|a s IH]; simpl; [done|].
  destruct (Ascii.eqb a c); [done|]. by destruct (Urllib.split c s).
Qed.

Lemma join_cons (sep x y : string) (rest : list string) :
  join sep (x :: y :: rest) = x +:+ sep +:+ join sep (y :: rest).
Proof. reflexivity. Qed.

(** Splitting and joining again gives the text back. *)
Lemma join_split (s : string) : join "/" (Urllib.split "/" s) = s.
Proof.
  induction s as [|a s IH]; [done|]. simpl.
  destruct (Ascii.eqb_spec a "/") as [->|Hne].
  - pose proof (split_nonempty "/" s) as Hs.
    destruct (Urllib.split "/" s) as [|x xs]; [done|].
    rewrite join_cons, IH. reflexivity.
  - pose proof (split_nonempty "/" s) as Hs.
    destruct (Urllib.split "/" s) as [|x xs]; [done|].
    destruct xs as [|y ys].
    + simpl in *. by rewrite IH.
    + rewrite join_cons in *. rewrite append_cons. by rewrite IH.
Qed.

Lemma last_is_not_dot (segments : list string) (seg : string) :
  Forall (λ seg, Urllib.is_dot seg = false) segments →
  last segments = Some seg → Urllib.is_dot seg = false.
Proof.
  intros Hsegs Hlast. rewrite Forall_forall in Hsegs. apply Hsegs.
  apply last_Some in Hlast as [l' ->]. apply elem_of_app. right. by left.
Qed.

Lemma mem_cons (c a : ascii) (s : string) :
  Urllib.mem c (String a s) = Ascii.eqb c a || Urllib.mem c s.
Proof. reflexivity. Qed.

Lemma split_plain (c : ascii) (s : string) :
  Urllib.mem c s = false → Urllib.split c s = [s].
Proof.
  induction s as [|a s IH]; [done|].
  rewrite mem_cons. intros [Hne Hs]%orb_false_iff. simpl.
  rewrite Ascii.eqb_sym, Hne. by rewrite (IH Hs).
Qed.

Lemma split_app (c : ascii) (s rest : string) :
  Urllib.mem c s = false →
  Urllib.split c (s +:+ String c rest) = s :: Urllib.split c rest.
Proof.
  induction s as [|a s IH].
  - intros _. simpl.
    by rewrite Ascii.eqb_refl.
  - rewrite mem_cons. intros [Hne Hs]%orb_false_iff.
    rewrite append_cons. simpl. rewrite Ascii.eqb_sym, Hne. by rewrite (IH Hs).
Qed.

Lemma split_join (segs : list string) :
  segs ≠ [] →
  Forall (λ seg, Urllib.mem "/" seg = false) segs →
  Urllib.split "/" (join "/" segs) = segs.
Proof.
  intros Hne Hsegs. induction Hsegs as [|seg segs Hseg Hsegs IH]; [done|].
  destruct segs as [|seg' segs].
  - by apply split_plain.
  - rewrite join_cons. change ("/" +:+ ?s) with (String "/" s).
    rewrite (split_app _ _ _ Hseg). by rewrite IH.
Qed.

Lemma split_directory (dirs : list string) (file : string) :
  Forall (λ seg, Urllib.mem "/" seg = false) dirs →
  Urllib.mem "/" file = false →
  Urllib.split "/" (directory dirs +:+ file) = EmptyString :: dirs ++ [file].
Proof.
  intros Hdirs Hfile. unfold directory.
  change (("/" +:+ ?s) +:+ file) with (String "/" (s +:+ file)).
  change (Urllib.split "/" (String "/" ?s)) with (EmptyString :: Urllib.split "/" s).
  f_equal. induction Hdirs as [|d dirs Hd _ IH]; simpl.
  - by apply split_plain.
  - rewrite !append_assoc. change ("/" +:+ ?s) with (String "/" s).
    by rewrite (split_app _ _ _ Hd), IH.
Qed.

Lemma join_directory (dirs segs : list string) :
  segs ≠ [] →
  join "/" (EmptyString :: dirs ++ segs) = directory dirs +:+ join "/" segs.
Proof.
  intros Hne. unfold directory.
  assert (Hrest : ∀ dirs, join "/" (dirs ++ segs)
                          = directory_tail dirs +:+ join "/" segs).
  { clear dirs. induction dirs as [|d dirs IH]; [done|].
    simpl app. destruct (dirs ++ segs) as [|x xs] eqn:Happ.
    - by destruct dirs, segs.
    - rewrite join_cons, IH. simpl. by rewrite !append_assoc. }
  destruct (dirs ++ segs) as [|x xs] eqn:Happ.
  - by destruct dirs, segs.
  - rewrite join_cons, <- Happ, Hrest. reflexivity.
Qed.

Lemma filter_plain (segs : list string) :
  Forall (λ seg, Urllib.nonempty seg = true) segs →
  filter (λ s, Urllib.nonempty s = true) segs = segs.
Proof.
  induction 1 as [|seg segs Hseg _ IH]; [done|].
  rewrite filter_cons. destruct (decide _); [by rewrite IH|done].
Qed.

(** The middle of the segments loses its empty ones: the one a base
    directory ends in goes, the names stay. *)
Lemma filter_middle_directory (dirs segs : list string) (gap : list string) :
  gap = [] ∨ gap = [EmptyString] →
  segs ≠ [] →
  Forall (λ seg, Urllib.nonempty seg = true) dirs →
  Forall (λ seg, Urllib.nonempty seg = true) segs →
  Urllib.filter_middle ((EmptyString :: dirs ++ gap) ++ segs)
  = EmptyString :: dirs ++ segs.
Proof.
  intros Hgap Hne Hdirs Hsegs.
  destruct (exists_last Hne) as (front & final & ->).
  apply Forall_app in Hsegs as [Hfront _].
  unfold Urllib.filter_middle. simpl app.
  assert (Hrest : (dirs ++ gap) ++ front ++ [final]
                  = (dirs ++ gap ++ front) ++ [final]) by by rewrite <- !app_assoc.
  rewrite Hrest.
  destruct ((dirs ++ gap ++ front) ++ [final]) as [|y ys] eqn:Hcons;
    [by destruct (dirs ++ gap ++ front)|].
  rewrite <- Hcons. rewrite removelast_last, last_snoc. f_equal.
  rewrite !filter_app, (filter_plain _ Hdirs), (filter_plain _ Hfront).
  destruct Hgap as [-> | ->]; simpl; by rewrite <- !app_assoc.
Qed.

Lemma join_head (seg : string) (rest : list string) :
  Urllib.nonempty seg = true → Urllib.mem "/" seg = false →
  Urllib.nonempty (join "/" (seg :: rest)) = true
  ∧ Urllib.starts_with "/" (join "/" (seg :: rest)) = false.
Proof.
  destruct seg as [|a seg]; [done|]. intros _.
  rewrite mem_cons. intros [Hne _]%orb_false_iff.
  destruct rest as [|y rest].
  - simpl. by rewrite Ascii.eqb_sym.
  - rewrite join_cons, append_cons. simpl. by rewrite Ascii.eqb_sym.
Qed.

Lemma nonempty_false (s : string) : Urllib.nonempty s = false → s = EmptyString.
Proof. by destruct s. Qed.

(** The parts of the path of the base that a relative reference keeps: the
    file name at the end goes, the directories stay. *)
Lemma drop_file_directory (dirs : list string) (file : string) :
  ∃ gap, (gap = [] ∨ gap = [EmptyString])
         ∧ Urllib.drop_file (EmptyString :: dirs ++ [file])
           = EmptyString :: dirs ++ gap.
Proof.
  unfold Urllib.drop_file.
  change (EmptyString :: dirs ++ [file]) with ((EmptyString :: dirs) ++ [file]).
  rewrite last_snoc, removelast_last.
  destruct (Urllib.nonempty file) eqn:Hfile.
  - exists []. split; [by left|]. by rewrite app_nil_r.
  - exists [EmptyString]. split; [by right|].
    by rewrite (nonempty_false _ Hfile).
Qed.

(** ** Parsing plain URLs *)

Lemma append_nil_l (s : string) : EmptyString +:+ s = s.
Proof. reflexivity. Qed.

Lemma url_text_cons (c : ascii) (s : string) :
  url_text (String c s) = url_char c && url_text s.
Proof. reflexivity. Qed.

Lemma url_text_app (s t : string) :
  url_text (s +:+ t) = url_text s && url_text t.
Proof.
  induction s as [|c s IH]; [done|].
  by rewrite append_cons, !url_text_cons, IH, andb_assoc.
Qed.

Lemma url_char_kept (c : ascii) :
  url_char c = true →
  Urllib.c0_control_or_space c = false ∧ Urllib.unsafe_url_byte c = false
  ∧ Ascii.eqb "?" c = false ∧ Ascii.eqb "#" c = false ∧ Ascii.eqb ";" c = false.
Proof.
  unfold url_char, Urllib.one_of. simpl.
  intros [Hc0 Hdelim]%andb_true_iff.
  apply negb_true_iff in Hc0. apply negb_true_iff in Hdelim.
  rewrite !(Ascii.eqb_sym c) in Hdelim.
  apply orb_false_iff in Hdelim as [Hq Hdelim].
  apply orb_false_iff in Hdelim as [Hf Hdelim].
  apply orb_false_iff in Hdelim as [Hp _].
  split; [done|]. split; [|done].
  unfold Urllib.c0_control_or_space in Hc0. unfold Urllib.unsafe_url_byte.
  apply Nat.leb_gt in Hc0.
  rewrite !orb_false_iff, !Nat.eqb_neq. lia.
Qed.

Lemma lstrip_url_text (s : string) :
  url_text s = true → Urllib.lstrip Urllib.c0_control_or_space s = s.
Proof.
  destruct s as [|c s]; [done|]. rewrite url_text_cons.
  intros [Hc _]%andb_true_iff. simpl.
  by destruct (url_char_kept _ Hc) as (-> & _).
Qed.

Lemma remove_url_text (s : string) :
  url_text s = true → Urllib.remove Urllib.unsafe_url_byte s = s.
Proof.
  induction s as [|c s IH]; [done|]. rewrite url_text_cons.
  intros [Hc Hs]%andb_true_iff. simpl.
  destruct (url_char_kept _ Hc) as (_ & -> & _). by rewrite (IH Hs).
Qed.

Lemma url_text_delimiters (s : string) :
  url_text s = true →
  Urllib.mem "?" s = false ∧ Urllib.mem "#" s = false ∧ Urllib.mem ";" s = false.
Proof.
  induction s as [|c s IH]; [done|]. rewrite url_text_cons.
  intros [Hc Hs]%andb_true_iff. rewrite !mem_cons.
  destruct (url_char_kept _ Hc) as (_ & _ & -> & -> & ->).
  by destruct (IH Hs) as (-> & -> & ->).
Qed.

(** [break] on a text without the delimiter, and on a text whose first
    delimiter is known. *)
Lemma break_none (p : ascii → bool) (s : string) :
  forallb (λ c, negb (p c)) (list_ascii_of_string s) = true →
  Urllib.break p s = (s, EmptyString).
Proof.
  induction s as [|c s IH]; [done|]. simpl.
  intros [Hc Hs]%andb_true_iff. apply negb_true_iff in Hc.
  by rewrite Hc, (IH Hs).
Qed.

Lemma break_app (p : ascii → bool) (s t : string) :
  forallb (λ c, negb (p c)) (list_ascii_of_string s) = true →
  match Urllib.head t with Some c => p c = true | None => True end →
  Urllib.break p (s +:+ t) = (s, t).
Proof.
  intros Hs Ht. induction s as [|c s IH].
  - rewrite append_nil_l. destruct t as [|c t]; [done|]. simpl in *.
    by rewrite Ht.
  - simpl in Hs. apply andb_true_iff in Hs as [Hc Hs].
    apply negb_true_iff in Hc.
    rewrite append_cons. simpl. by rewrite Hc, (IH Hs).
Qed.

Lemma mem_forallb (d : ascii) (s : string) :
  Urllib.mem d s = false →
  forallb (λ c, negb (Urllib.is_char d c)) (list_ascii_of_string s) = true.
Proof.
  induction s as [|c s IH]; [done|]. rewrite mem_cons.
  intros [Hc Hs]%orb_false_iff. simpl.
  unfold Urllib.is_char at 1. by rewrite Hc, (IH Hs).
Qed.

(** What the parser needs of a scheme that takes relative references. *)
Lemma hierarchical_scheme (sch : string) :
  hierarchical sch →
  url_text sch = true
  ∧ Urllib.mem ":" sch = false
  ∧ Urllib.lower sch = sch
  ∧ forallb (Urllib.one_of Urllib.scheme_chars) (list_ascii_of_string sch) = true
  ∧ Urllib.strip Urllib.c0_control_or_space sch = sch
  ∧ ∃ c rest, sch = String c rest
              ∧ Urllib.is_ascii_char c && Urllib.is_ascii_alpha c = true.
Proof.
  intros (Hne & Hrel & _). unfold Urllib.in_list in Hrel.
  apply existsb_exists in Hrel as (x & Hin & Heq).
  apply String.eqb_eq in Heq. subst x.
  unfold Urllib.uses_relative in Hin. simpl in Hin.
  repeat (destruct Hin as [<-|Hin]; [try done; by (do 5 (split; [vm_compute; reflexivity|]); eexists _, _)|]).
  done.
Qed.

Section Plain.

Variable lib : Urllib.library.

(** The endpoint of a request that is the text of a path parses into
    that path and nothing else. *)
Lemma path_text_parses (url sch : string) :
  hierarchical sch →
  path_text url = true →
  Urllib.urlparse lib url sch
  = Ok {| Urllib.scheme := sch; Urllib.netloc := EmptyString; Urllib.path := url;
          Urllib.params := EmptyString; Urllib.query := EmptyString;
          Urllib.fragment := EmptyString |}.
Proof.
  intros Hsch Hurl.
  destruct (hierarchical_scheme _ Hsch) as (Htext & _ & _ & _ & Hstrip & _).
  unfold path_text in Hurl.
  apply andb_true_iff in Hurl as [Hurl Hslashes].
  apply andb_true_iff in Hurl as [Hurl Hcolon].
  apply negb_true_iff in Hslashes. apply negb_true_iff in Hcolon.
  destruct (url_text_delimiters _ Hurl) as (Hq & Hf & Hp).
  unfold Urllib.urlparse, Urllib.urlsplit.
  rewrite (lstrip_url_text _ Hurl), (remove_url_text _ Hurl).
  rewrite Hstrip, (remove_url_text _ Htext).
  rewrite (break_none _ _ (mem_forallb _ _ Hcolon)).
  cbn [Urllib.nonempty andb]. rewrite Hslashes, Hf, Hq.
  cbn [Urllib.checknetloc Urllib.nonempty negb orb Urllib.s_scheme Urllib.s_path
       Urllib.s_netloc Urllib.s_query Urllib.s_fragment].
  by rewrite Hp, andb_false_r.
Qed.

(** A base that is a scheme, a host and a path parses into these. *)
Lemma plain_base_parses (sch net bpath : string) :
  hierarchical sch →
  host_text net = true →
  base_path_text bpath = true →
  Urllib.urlparse lib (sch +:+ "://" +:+ net +:+ bpath) EmptyString
  = Ok {| Urllib.scheme := sch; Urllib.netloc := net; Urllib.path := bpath;
          Urllib.params := EmptyString; Urllib.query := EmptyString;
          Urllib.fragment := EmptyString |}.
Proof.
  intros Hsch Hnet Hbpath.
  destruct (hierarchical_scheme _ Hsch)
    as (Htext & Hcolon & Hlower & Hchars & _ & c & rest & -> & Halpha).
  unfold host_text in Hnet.
  apply andb_true_iff in Hnet as [Hnet Hclose]. apply negb_true_iff in Hclose.
  apply andb_true_iff in Hnet as [Hnet Hopen]. apply negb_true_iff in Hopen.
  apply andb_true_iff in Hnet as [Hnet Hslash]. apply negb_true_iff in Hslash.
  apply andb_true_iff in Hnet as [Hnet Hascii].
  apply andb_true_iff in Hnet as [Hnonempty Hnet_text].
  unfold base_path_text in Hbpath.
  apply andb_true_iff in Hbpath as [Hbpath Hhead].
  destruct (url_text_delimiters _ Hbpath) as (Hq & Hf & Hp).
  destruct (url_text_delimiters _ Hnet_text) as (Hnq & Hnf & _).
  assert (Hall : url_text (String c rest +:+ "://" +:+ net +:+ bpath) = true).
  { rewrite !url_text_app, Htext, Hnet_text, Hbpath. reflexivity. }
  unfold Urllib.urlparse, Urllib.urlsplit.
  rewrite (lstrip_url_text _ Hall), (remove_url_text _ Hall).
  change ("://" +:+ net +:+ bpath) with (String ":" ("//" +:+ net +:+ bpath)).
  rewrite (break_app (Urllib.is_char ":") (String c rest)
             (String ":" ("//" +:+ net +:+ bpath)) (mem_forallb _ _ Hcolon) eq_refl).
  rewrite (append_cons c rest).
  cbn [Urllib.nonempty andb Urllib.head Urllib.tail].
  rewrite Halpha, Hchars, Hlower. cbn [andb].
  change (Urllib.starts_with_slashes ("//" +:+ net +:+ bpath)) with true.
  cbv iota. unfold Urllib.splitnetloc.
  change (Urllib.tail (Urllib.tail ("//" +:+ net +:+ bpath))) with (net +:+ bpath).
  rewrite (break_app (Urllib.one_of "/?#") net bpath).
  - rewrite Hopen, Hclose. cbn [andb orb negb]. rewrite Hf, Hq.
    unfold Urllib.checknetloc. rewrite Hascii, orb_true_r.
    cbn [Urllib.s_scheme Urllib.s_path Urllib.s_netloc Urllib.s_query
         Urllib.s_fragment].
    by rewrite Hp, andb_false_r.
  - clear -Hslash Hnq Hnf. induction net as [|a net IH]; [done|].
    rewrite !mem_cons in *.
    apply orb_false_iff in Hslash as [Hs1 Hs2].
    apply orb_false_iff in Hnq as [Hq1 Hq2].
    apply orb_false_iff in Hnf as [Hf1 Hf2].
    simpl. rewrite (IH Hs2 Hq2 Hf2), andb_true_r.
    unfold Urllib.one_of. simpl.
    rewrite !(Ascii.eqb_sym a), Hs1, Hq1, Hf1. reflexivity.
  - destruct bpath as [|a bpath]; [done|]. simpl in *.
    apply Ascii.eqb_eq in Hhead. by subst a.
Qed.

End Plain.


Section Join.

Variable lib : Urllib.library.

(** What [urljoin] does with a base that has a path and an endpoint that is
    a bare path: the path is resolved from the segments, with the scheme
    and the host part of the base around it. *)
Lemma urljoin_bare_path (base url sch net bpath p : string) :
  base_url lib base sch net bpath →
  bare_path lib url sch p →
  hierarchical sch →
  Urllib.nonempty net = true →
  Urllib.nonempty p = true →
  ∀ segments,
    segments = (if Urllib.starts_with "/" p then Urllib.split "/" p
                else Urllib.filter_middle
                       (Urllib.drop_file (Urllib.split "/" bpath)
                        ++ Urllib.split "/" p)) →
    Forall (λ seg, Urllib.is_dot seg = false) segments →
    Urllib.starts_with "/" (join "/" segments) = true →
    Urllib.urljoin lib base url
    = Ok (sch +:+ "://" +:+ net +:+ join "/" segments).
Proof.
  intros (Hbase & b & Hb & <- & <- & <-) (Hurl & Hu) (Hsch & Hrel & Hnet) Hnet' Hp.
  intros segments Hsegments Hplain Hslash.
  unfold Urllib.urljoin. rewrite Hbase, Hurl, Hb, Hu.
  cbn [negb Urllib.scheme Urllib.netloc Urllib.path Urllib.params
       Urllib.query Urllib.fragment].
  rewrite String.eqb_refl, Hrel, Hnet, Hp.
  cbn [negb andb orb Urllib.nonempty].
  rewrite <- Hsegments. rewrite (resolve_plain _ Hplain).
  assert (Hlast : match last segments with
                  | Some seg =>
                      if Urllib.is_dot seg then segments ++ [EmptyString]
                      else segments
                  | None => segments
                  end = segments).
  { destruct (last segments) as [seg|] eqn:Hlast; [|done].
    by rewrite (last_is_not_dot _ _ Hplain Hlast). }
  rewrite Hlast, (starts_with_nonempty _ _ Hslash).
  unfold Urllib.urlunparse, Urllib.urlunsplit.
  cbn [negb andb orb Urllib.nonempty Urllib.scheme Urllib.netloc Urllib.path
       Urllib.params Urllib.query Urllib.fragment].
  rewrite Hnet', Hsch, (starts_with_nonempty _ _ Hslash), Hslash.
  reflexivity.
Qed.

(** An absolute path in the endpoint replaces the path of the base. *)
Lemma urljoin_absolute_path (base url sch net bpath p : string) :
  base_url lib base sch net bpath →
  bare_path lib url sch p →
  hierarchical sch →
  Urllib.nonempty net = true →
  Urllib.starts_with "/" p = true →
  Forall (λ seg, Urllib.is_dot seg = false) (Urllib.split "/" p) →
  Urllib.urljoin lib base url = Ok (sch +:+ "://" +:+ net +:+ p).
Proof.
  intros Hbase Hurl Hsch Hnet Hslash Hplain.
  pose proof (urljoin_bare_path base url sch net bpath p Hbase Hurl Hsch Hnet
                (starts_with_nonempty _ _ Hslash) (Urllib.split "/" p)) as Hjoin.
  rewrite Hslash, join_split in Hjoin. by apply Hjoin.
Qed.

(** A relative path in the endpoint is resolved against the directory of
    the base path: the path of the base up to its last [/], and [/] when
    the base has no path. *)
Lemma urljoin_relative_path (base url sch net bpath p : string)
    (dirs : list string) (file : string) (segs : list string) :
  base_url lib base sch net bpath →
  bare_path lib url sch p →
  hierarchical sch →
  Urllib.nonempty net = true →
  (bpath = EmptyString ∧ dirs = []
   ∨ bpath = directory dirs +:+ file ∧ Forall plain_segment dirs
     ∧ Urllib.mem "/" file = false) →
  segs ≠ [] →
  Forall plain_segment segs →
  p = join "/" segs →
  Urllib.urljoin lib base url
  = Ok (sch +:+ "://" +:+ net +:+ directory dirs +:+ p).
Proof.
  intros Hbase Hurl Hsch Hnet Hbpath Hne Hsegs Hp.
  assert (Hslashes : Forall (λ seg, Urllib.mem "/" seg = false) segs).
  { eapply Forall_impl; [exact Hsegs|]. by intros seg (_ & ? & _). }
  assert (Hnames : Forall (λ seg, Urllib.nonempty seg = true) segs).
  { eapply Forall_impl; [exact Hsegs|]. by intros seg (? & _ & _). }
  assert (Hdots : Forall (λ seg, Urllib.is_dot seg = false) segs).
  { eapply Forall_impl; [exact Hsegs|]. by intros seg (_ & _ & ?). }
  assert (Hhead : Urllib.nonempty p = true ∧ Urllib.starts_with "/" p = false).
  { rewrite Hp. destruct Hsegs as [|seg rest (Hseg & Hslash & _) _]; [done|].
    by apply join_head. }
  destruct Hhead as [Hnonempty Hrelative].
  assert (Hdirs : Forall plain_segment dirs).
  { destruct Hbpath as [[_ ->]|(_ & ? & _)]; [constructor|done]. }
  assert (Hdir_names : Forall (λ seg, Urllib.nonempty seg = true) dirs).
  { eapply Forall_impl; [exact Hdirs|]. by intros seg (? & _ & _). }
  assert (Hdir_dots : Forall (λ seg, Urllib.is_dot seg = false) dirs).
  { eapply Forall_impl; [exact Hdirs|]. by intros seg (_ & _ & ?). }
  assert (Hparts : ∃ gap, (gap = [] ∨ gap = [EmptyString])
                          ∧ Urllib.drop_file (Urllib.split "/" bpath)
                            = EmptyString :: dirs ++ gap).
  { destruct Hbpath as [[-> ->]|(-> & Hd & Hfile)].
    - exists []. split; [by left|done].
    - rewrite split_directory; [apply drop_file_directory| |done].
      eapply Forall_impl; [exact Hd|]. by intros seg (_ & ? & _). }
  destruct Hparts as (gap & Hgap & Hparts).
  pose proof (urljoin_bare_path base url sch net bpath p Hbase Hurl Hsch Hnet
                Hnonempty (EmptyString :: dirs ++ segs)) as Hjoin.
  rewrite (join_directory _ _ Hne), <- Hp in Hjoin. apply Hjoin.
  - rewrite Hrelative, Hparts, Hp, (split_join _ Hne Hslashes).
    symmetry. by apply filter_middle_directory.
  - constructor; [done|]. by apply Forall_app.
  - reflexivity.
Qed.

(** The two lemmas above on a base that is written as scheme, host and
    path, and an endpoint that is the text of a path. *)
Lemma plain_base_url (sch net bpath : string) :
  hierarchical sch →
  host_text net = true →
  base_path_text bpath = true →
  base_url lib (sch +:+ "://" +:+ net +:+ bpath) sch net bpath
  ∧ Urllib.nonempty net = true.
Proof.
  intros Hsch Hnet Hbpath. split.
  - split.
    + destruct Hsch as (Hne & _). destruct sch; [done|]. by rewrite append_cons.
    + eexists. split; [by apply plain_base_parses|done].
  - unfold host_text in Hnet. by destruct (Urllib.nonempty net).
Qed.

Lemma urljoin_plain_absolute (sch net bpath endpoint : string) :
  hierarchical sch →
  host_text net = true →
  base_path_text bpath = true →
  path_text endpoint = true →
  Urllib.starts_with "/" endpoint = true →
  Forall (λ seg, Urllib.is_dot seg = false) (Urllib.split "/" endpoint) →
  Urllib.urljoin lib (sch +:+ "://" +:+ net +:+ bpath) endpoint
  = Ok (sch +:+ "://" +:+ net +:+ endpoint).
Proof.
  intros Hsch Hnet Hbpath Hendpoint Hslash Hdots.
  destruct (plain_base_url _ _ _ Hsch Hnet Hbpath) as [Hbase Hnonempty].
  apply (urljoin_absolute_path _ _ sch net bpath endpoint); try done.
  split; [by eapply starts_with_nonempty|by apply path_text_parses].
Qed.

Lemma urljoin_plain_relative (sch net bpath endpoint : string)
    (dirs : list string) (file : string) (segs : list string) :
  hierarchical sch →
  host_text net = true →
  base_path_text bpath = true →
  path_text endpoint = true →
  (bpath = EmptyString ∧ dirs = [] ∧ file = EmptyString
   ∨ bpath = directory dirs +:+ file ∧ Forall plain_segment dirs
     ∧ Urllib.mem "/" file = false) →
  segs ≠ [] →
  Forall plain_segment segs →
  endpoint = join "/" segs →
  Urllib.urljoin lib (sch +:+ "://" +:+ net +:+ bpath) endpoint
  = Ok (sch +:+ "://" +:+ net +:+ directory dirs +:+ endpoint)
  ∧ (file = EmptyString →
     appended (sch +:+ "://" +:+ net +:+ bpath) endpoint
       (sch +:+ "://" +:+ net +:+ directory dirs +:+ endpoint)).
Proof.
  intros Hsch Hnet Hbpath Hendpoint Hshape Hne Hsegs Hjoin.
  destruct (plain_base_url _ _ _ Hsch Hnet Hbpath) as [Hbase Hnonempty].
  split.
  - apply (urljoin_relative_path _ _ sch net bpath endpoint dirs file segs);
      try done.
    + split; [|by apply path_text_parses].
      rewrite Hjoin. destruct Hsegs as [|seg rest (Hseg & Hslash & _) _]; [done|].
      by apply join_head.
    + destruct Hshape as [(-> & -> & _)|Hshape]; [by left|by right].
  - intros ->. destruct Hshape as [(-> & -> & _)|(-> & _)].
    + right. unfold directory. simpl directory_tail.
      by rewrite !append_nil_r, !append_assoc.
    + left. by rewrite !append_nil_r, !append_assoc.
Qed.

(** The path of the base plays no part in the join with an endpoint whose
    path is absolute: two bases with the same scheme and host part give
    the same result. *)
Lemma urljoin_absolute_any_base_path (base1 base2 url : string)
    (b1 b2 u : Urllib.ParseResult) :
  Urllib.nonempty base1 = true →
  Urllib.nonempty base2 = true →
  Urllib.nonempty url = true →
  Urllib.urlparse lib base1 EmptyString = Ok b1 →
  Urllib.urlparse lib base2 EmptyString = Ok b2 →
  Urllib.scheme b1 = Urllib.scheme b2 →
  Urllib.netloc b1 = Urllib.netloc b2 →
  Urllib.urlparse lib url (Urllib.scheme b1) = Ok u →
  Urllib.starts_with "/" (Urllib.path u) = true →
  Urllib.urljoin lib base1 url = Urllib.urljoin lib base2 url.
Proof.
  intros H1 H2 Hurl Hb1 Hb2 Hscheme Hnetloc Hu Hslash.
  unfold Urllib.urljoin. rewrite H1, H2, Hurl, Hb1, Hb2.
  cbn [negb]. rewrite <- Hscheme, Hu, <- Hnetloc, Hslash.
  rewrite (starts_with_nonempty _ _ Hslash). reflexivity.
Qed.

End Join.
(** ** What a computation sends out *)

Lemma out_bind {A B} (m : M A) (k : A → M B) h :
  out ((m ≫= k) h)
  = out (m h) ++ match res (m h) with
                 | Ok a => out (k a (st (m h)))
                 | Raise _ => []
                 end.
Proof.
  unfold mbind, M_bind, bind.
  destruct (m h) as [[a|e] h1 o1]; simpl; by rewrite ?app_nil_r.
Qed.

Lemma is_log_debug (msg : string) : is_log (LogDebug msg).
Proof. by exists msg. Qed.

Lemma request_loop_cons (mw : BaseMiddleware) (rest : list BaseMiddleware)
    (l : loc) (h : heap) :
  request_loop (mw :: rest) l h
  = logged [request_record mw] ((process_request mw l ≫= request_loop rest) h).
Proof. reflexivity. Qed.

Lemma response_loop_cons (mw : BaseMiddleware) (rest : list BaseMiddleware)
    (l : loc) (h : heap) :
  response_loop (mw :: rest) l h
  = logged [response_record mw] ((process_response mw l ≫= response_loop rest) h).
Proof. reflexivity. Qed.

Lemma request_loop_heap_invariant (I : heap → Prop) (mws : list BaseMiddleware) :
  (∀ mw, mw ∈ mws → ∀ (l : loc) (h : heap), I h → I (st (process_request mw l h))) →
  ∀ (l : loc) (h : heap), I h → I (st (request_loop mws l h)).
Proof.
  induction mws as [|mw mws IH]; intros Hmws l h HI; [done|].
  rewrite request_loop_cons. unfold logged. simpl.
  assert (Hstep : I (st (process_request mw l h))) by (apply Hmws; [left|done]).
  unfold mbind, M_bind, bind.
  destruct (process_request mw l h) as [[l1|e] h1 o1]; simpl in *; [|done].
  apply IH; [|done]. intros mw' Hin. apply Hmws. by right.
Qed.

(** ** The request assembler *)

Lemma bind_logged {A B} (m : M A) (k : A → M B) h a h1 o1 :
  m h = Outcome (Ok a) h1 o1 → (m ≫= k) h = logged o1 (k a h1).
Proof. intros Hm. by rewrite (bind_ok _ _ _ _ _ _ Hm). Qed.

Lemma logged_logged {A} (o1 o2 : list event) (x : outcome A) :
  logged o1 (logged o2 x) = logged (o1 ++ o2) x.
Proof. unfold logged. simpl. by rewrite app_assoc. Qed.

Lemma logged_nil {A} (x : outcome A) : logged [] x = x.
Proof. by destruct x. Qed.

(** A model that stores its attributes gives them as they are stored,
    and leaves the heap alone. *)
Lemma stored_request_attributes (l : loc) (h : heap) (r : StoredRequest.t) :
  h !! l = Some (OStoredRequest r) →
  DomainRequest.endpoint (stored_request l) h
  = Outcome (Ok (StoredRequest.endpoint r)) h []
  ∧ DomainRequest.method (stored_request l) h
    = Outcome (Ok (StoredRequest.method r)) h []
  ∧ DomainRequest.payload (stored_request l) h
    = Outcome (Ok (StoredRequest.payload r)) h []
  ∧ DomainRequest.parameters (stored_request l) h
    = Outcome (Ok (StoredRequest.parameters r)) h []
  ∧ DomainRequest.headers (stored_request l) h
    = Outcome (Ok (StoredRequest.headers r)) h [].
Proof.
  intros Hl. unfold stored_request. simpl.
  by rewrite !(bind_silent _ _ _ _ _ (read_stored_request_ok _ _ _ Hl)).
Qed.

Lemma stored_request_read (l : loc) (h : heap) (r : StoredRequest.t) :
  h !! l = Some (OStoredRequest r) →
  attributes_read (stored_request l) h
    (StoredRequest.endpoint r) (StoredRequest.method r) (StoredRequest.payload r)
    (StoredRequest.parameters r) (StoredRequest.headers r) h [].
Proof.
  intros Hl.
  destruct (stored_request_attributes _ _ _ Hl) as (He & Hm & Hp & Hps & Hhs).
  by exists h, [], h, [], h, [], h, [], [].
Qed.

(** A model that computes its attributes builds the two mappings anew,
    at unused locations. *)
Lemma computed_request_read (endpoint method : string) (payload : json)
    (parameters headers : gmap string string) (h : heap) :
  let lp := fresh (dom h) in
  let h1 := <[lp := ODict parameters]> h in
  let lh := fresh (dom h1) in
  attributes_read (computed_request endpoint method payload parameters headers) h
    endpoint method payload lp lh (<[lh := ODict headers]> h1) [].
Proof.
  intros lp h1 lh.
  by exists h, [], h, [], h, [], h1, [], [].
Qed.

Lemma reading_stored (l : loc) (h : heap) (r : StoredRequest.t) :
  h !! l = Some (OStoredRequest r) →
  reading (stored_request l) h
  = (Ok (StoredRequest.endpoint r), Ok (StoredRequest.method r),
     Ok (StoredRequest.payload r),
     h !! StoredRequest.parameters r, h !! StoredRequest.headers r).
Proof.
  intros Hl.
  destruct (stored_request_attributes _ _ _ Hl) as (He & Hm & Hp & Hps & Hhs).
  unfold reading, shown. by rewrite He, Hm, Hp, Hps, Hhs.
Qed.

Lemma reading_computed (endpoint method : string) (payload : json)
    (parameters headers : gmap string string) (h : heap) :
  reading (computed_request endpoint method payload parameters headers) h
  = (Ok endpoint, Ok method, Ok payload,
     Some (ODict parameters), Some (ODict headers)).
Proof.
  unfold reading, shown, computed_request. simpl.
  by rewrite !lookup_insert_eq.
Qed.

Section Assembly.

Variable str_upper : string → string.
Variable requests_request : Call.t → result Response.t.
Variable endpoints : gmap string string.
Variable urljoin : string → string → result string.

(** [assemble_request] reads the five attributes, allocates the new
    dictionary at an unused location and hands it to the request stage;
    nothing else. *)
Lemma assemble_request_run (self : APIHandler) (req : DomainRequest.t) (h : heap)
    (base endpoint method : string) (payload : json) (params headers : loc)
    (h' : heap) (o : list event) (url : string) :
  endpoints !! mode self = Some base →
  attributes_read req h endpoint method payload params headers h' o →
  urljoin base endpoint = Ok url →
  assemble_request endpoints urljoin self req h
  = logged o
      (execute_request_middlewares self (fresh (dom h'))
         (<[fresh (dom h') :=
              ORequestData (RequestData.Make method payload params headers url)]> h')).
Proof.
  intros Hbase (h1 & o1 & h2 & o2 & h3 & o3 & h4 & o4 & o5
                & He & Hm & Hp & Hps & Hhs & ->) Hjoin.
  unfold assemble_request. rewrite Hbase, bind_ret_l.
  rewrite (bind_logged _ _ _ _ _ _ He), bind_lift, Hjoin.
  rewrite (bind_logged _ _ _ _ _ _ Hm), (bind_logged _ _ _ _ _ _ Hp).
  rewrite (bind_logged _ _ _ _ _ _ Hps), (bind_logged _ _ _ _ _ _ Hhs).
  rewrite (bind_silent _ _ _ _ _ (alloc_ok _ _)).
  by rewrite !logged_logged, <- !app_assoc.
Qed.

(** When the join raises, so does [assemble_request], with only the
    endpoint read. *)
Lemma assemble_request_join_fault (self : APIHandler) (req : DomainRequest.t)
    (h : heap) (base endpoint : string) (h1 : heap) (o1 : list event) (e : exn) :
  endpoints !! mode self = Some base →
  DomainRequest.endpoint req h = Outcome (Ok endpoint) h1 o1 →
  urljoin base endpoint = Raise e →
  assemble_request endpoints urljoin self req h = Outcome (Raise e) h1 o1.
Proof.
  intros Hbase He Hjoin. unfold assemble_request. rewrite Hbase, bind_ret_l.
  rewrite (bind_logged _ _ _ _ _ _ He), bind_lift, Hjoin.
  unfold logged. simpl. by rewrite app_nil_r.
Qed.

(** What a returning [assemble_request] went through. *)
Lemma assemble_request_inv (self : APIHandler) (req : DomainRequest.t) (h : heap)
    (base : string) (l : loc) (h' : heap) (o : list event) :
  endpoints !! mode self = Some base →
  assemble_request endpoints urljoin self req h = Outcome (Ok l) h' o →
  ∃ endpoint method payload params headers h5 o5 url o',
    attributes_read req h endpoint method payload params headers h5 o5
    ∧ urljoin base endpoint = Ok url
    ∧ execute_request_middlewares self (fresh (dom h5))
        (<[fresh (dom h5) :=
             ORequestData (RequestData.Make method payload params headers url)]> h5)
      = Outcome (Ok l) h' o'.
Proof.
  intros Hbase Hrun. unfold assemble_request in Hrun.
  rewrite Hbase, bind_ret_l in Hrun.
  apply bind_ok_inv in Hrun as (endpoint & h1 & o1 & r1 & He & Hrun & _).
  rewrite bind_lift in Hrun.
  destruct (urljoin base endpoint) as [url|e] eqn:Hjoin; [|done].
  apply bind_ok_inv in Hrun as (method & h2 & o2 & r2 & Hm & Hrun & _).
  apply bind_ok_inv in Hrun as (payload & h3 & o3 & r3 & Hp & Hrun & _).
  apply bind_ok_inv in Hrun as (params & h4 & o4 & r4 & Hps & Hrun & _).
  apply bind_ok_inv in Hrun as (headers & h5 & o5 & r5 & Hhs & Hrun & _).
  rewrite (bind_silent _ _ _ _ _ (alloc_ok _ _)) in Hrun.
  exists endpoint, method, payload, params, headers, h5,
    (o1 ++ o2 ++ o3 ++ o4 ++ o5), url, r5.
  split; [|done].
  by exists h1, o1, h2, o2, h3, o3, h4, o4, o5.
Qed.

(** The request stage keeps the URL when every middleware does. *)
Lemma request_loop_keeps_url (mws : list BaseMiddleware) :
  Forall url_preserving mws →
  ∀ (l : loc) (h : heap) d l' h' o,
    h !! l = Some (ORequestData d) →
    request_loop mws l h = Outcome (Ok l') h' o →
    ∃ d', h' !! l' = Some (ORequestData d')
          ∧ RequestData.url d' = RequestData.url d.
Proof.
  induction 1 as [|mw mws Hmw _ IH]; intros l h d l' h' o Hl Hrun.
  - injection Hrun as <- <- _. by exists d.
  - simpl in Hrun. unfold LOGGER_debug in Hrun. rewrite bind_emit in Hrun.
    apply logged_ok_inv in Hrun as [o' Hrun].
    apply bind_ok_inv in Hrun as (l1 & h1 & o1 & o2 & Hstep & Hrest & _).
    destruct (Hmw _ _ _ _ _ _ Hl Hstep) as (d1 & Hl1 & Hurl1).
    destruct (IH _ _ _ _ _ _ Hl1 Hrest) as (d' & Hl' & Hurl').
    exists d'. split; [done|congruence].
Qed.

(** The dictionary [assemble_request] returns carries the join whenever
    every registered middleware hands on the URL it received. *)
Lemma assemble_request_keeps_join (self : APIHandler) :
  Forall url_preserving (middlewares self) →
  assembled_url_is_join endpoints urljoin self.
Proof.
  intros Hmws req base h endpoint h1 o1 l h' o Hbase He Hrun.
  destruct (assemble_request_inv _ _ _ _ _ _ _ Hbase Hrun)
    as (endpoint' & method & payload & params & headers & h5 & o5 & url & o'
        & Hread & Hjoin & Hstage).
  destruct Hread as (h1' & o1' & _ & _ & _ & _ & _ & _ & _ & He' & _).
  rewrite He in He'. injection He' as <- _ _.
  unfold execute_request_middlewares in Hstage.
  eapply (request_loop_keeps_url _ Hmws) in Hstage; [|apply lookup_insert_eq].
  destruct Hstage as (d & Hd & Hurl). exists d. split; [done|].
  by rewrite Hurl.
Qed.

(** The pipeline on a request whose reads return, with no middleware
    registered: assembly returns the new dictionary, sending follows. *)
Lemma pipeline_run (self : APIHandler) (req : DomainRequest.t)
    (auth : option (gmap string string)) (h : heap)
    (base endpoint method : string) (payload : json) (params headers : loc)
    (h' : heap) (o : list event) (url : string) :
  middlewares self = [] →
  endpoints !! mode self = Some base →
  attributes_read req h endpoint method payload params headers h' o →
  urljoin base endpoint = Ok url →
  pipeline str_upper requests_request endpoints urljoin self req auth h
  = logged o
      (send_request str_upper requests_request (fresh (dom h')) auth
         (<[fresh (dom h') :=
              ORequestData (RequestData.Make method payload params headers url)]> h')).
Proof.
  intros Hnil Hbase Hread Hjoin. unfold pipeline.
  apply (bind_logged (assemble_request endpoints urljoin self req)
           (λ request_data,
              send_request str_upper requests_request request_data auth)).
  rewrite (assemble_request_run _ _ _ _ _ _ _ _ _ _ _ _ Hbase Hread Hjoin).
  unfold execute_request_middlewares. rewrite Hnil.
  unfold logged. simpl. by rewrite app_nil_r.
Qed.

End Assembly.

(** A middleware that marks the headers hands on the URL. *)
Lemma stamp_url_preserving (name : string) : url_preserving (Examples.stamp name).
Proof.
  intros l h d l' h' o Hl. unfold Examples.stamp, process_request.
  rewrite (bind_silent _ _ _ _ _ (read_request_data_ok _ _ _ Hl)).
  unfold dict_update, mbind, M_bind, bind.
  destruct (h !! RequestData.headers d) as [[hd| | |]|] eqn:Hh; simpl; try done.
  intros [= <- <- _]. exists d. split; [|done].
  rewrite lookup_insert_ne; [done|congruence].
Qed.

(** C2, as the code has it.  The dictionary [assemble_request] builds
    carries what [urljoin] returned for the base endpoint of the handler's
    mode and the endpoint of the request, and the request stage runs on that
    dictionary.  So the URL of the returned dictionary is the join whenever
    every registered middleware hands on the URL it received; with no
    middleware registered, [assemble_request] returns such a dictionary as
    soon as the attributes of the request can be read and the join returns.
    The join itself: with an endpoint whose path is absolute, the path of
    the base plays no part, two bases with the same scheme and host part
    give the same join.  For a base written as scheme, host and path, with a
    scheme such as [https], and an endpoint that is the text of a path: an
    absolute path without [.] and [..] segments takes the place of the path
    of the base; a relative path of plain names is put behind the directory
    of the base path, which is that path up to its last [/], and [/] for a
    base without a path.  It is appended to the base exactly in the two
    cases where nothing follows the last [/] of the base path: a file name
    at the end of the base path is dropped. *)
Theorem assemble_request_url_is_join (lib : Urllib.library)
    (endpoints : gmap string string) (self : APIHandler) :
  (Forall url_preserving (middlewares self) →
   assembled_url_is_join endpoints (Urllib.urljoin lib) self)
  ∧ (middlewares self = [] →
     ∀ req base h endpoint method payload params headers h1 o url,
       endpoints !! mode self = Some base →
       attributes_read req h endpoint method payload params headers h1 o →
       Urllib.urljoin lib base endpoint = Ok url →
       ∃ l h' d,
         assemble_request endpoints (Urllib.urljoin lib) self req h
         = Outcome (Ok l) h' o
         ∧ h' !! l = Some (ORequestData d)
         ∧ RequestData.url d = url)
  ∧ (∀ base1 base2 url b1 b2 u,
       Urllib.nonempty base1 = true →
       Urllib.nonempty base2 = true →
       Urllib.nonempty url = true →
       Urllib.urlparse lib base1 EmptyString = Ok b1 →
       Urllib.urlparse lib base2 EmptyString = Ok b2 →
       Urllib.scheme b1 = Urllib.scheme b2 →
       Urllib.netloc b1 = Urllib.netloc b2 →
       Urllib.urlparse lib url (Urllib.scheme b1) = Ok u →
       Urllib.starts_with "/" (Urllib.path u) = true →
       Urllib.urljoin lib base1 url = Urllib.urljoin lib base2 url)
  ∧ (∀ sch net bpath endpoint,
       hierarchical sch →
       host_text net = true →
       base_path_text bpath = true →
       path_text endpoint = true →
       (Urllib.starts_with "/" endpoint = true →
        Forall (λ seg, Urllib.is_dot seg = false) (Urllib.split "/" endpoint) →
        Urllib.urljoin lib (sch +:+ "://" +:+ net +:+ bpath) endpoint
        = Ok (sch +:+ "://" +:+ net +:+ endpoint))
       ∧ (∀ dirs file segs,
            (bpath = EmptyString ∧ dirs = [] ∧ file = EmptyString
             ∨ bpath = directory dirs +:+ file ∧ Forall plain_segment dirs
               ∧ Urllib.mem "/" file = false) →
            segs ≠ [] →
            Forall plain_segment segs →
            endpoint = join "/" segs →
            Urllib.urljoin lib (sch +:+ "://" +:+ net +:+ bpath) endpoint
            = Ok (sch +:+ "://" +:+ net +:+ directory dirs +:+ endpoint)
            ∧ (file = EmptyString →
               appended (sch +:+ "://" +:+ net +:+ bpath) endpoint
                 (sch +:+ "://" +:+ net +:+ directory dirs +:+ endpoint)))).
Proof.
  split; [apply assemble_request_keeps_join|]. split.
  - intros Hnil req base h endpoint method payload params headers h1 o url
      Hbase Hread Hjoin.
    rewrite (assemble_request_run _ _ _ _ _ _ _ _ _ _ _ _ _ _ Hbase Hread Hjoin).
    unfold execute_request_middlewares. rewrite Hnil.
    eexists _, _, _. split.
    { unfold logged. simpl. by rewrite app_nil_r. }
    split; [apply lookup_insert_eq|done].
  - split; [apply urljoin_absolute_any_base_path|].
    intros sch net bpath endpoint Hsch Hnet Hbpath Hendpoint. split.
    + by apply urljoin_plain_absolute.
    + intros dirs file segs. by apply urljoin_plain_relative.
Qed.

(** The scenario of the specification, with a stamping middleware
    registered, and the join on a base with a path: an absolute path
    replaces it, a relative path goes behind its last [/]. *)
Lemma assemble_request_url_is_join_witness :
  (∃ d,
     st (assemble_request Examples.config_endpoints Examples.urljoin
           (__init__ (Some [Examples.stamp "A"]) false)
           (stored_request 1%positive) Examples.h_request)
     !! 4%positive = Some (ORequestData d)
     ∧ Examples.urljoin "https://api.mythx.io" "/v1/analyses/abc-123/issues"
       = Ok (RequestData.url d))
  ∧ Examples.urljoin "https://api.mythx.io/v1/users" "/v2/version"
    = Ok "https://api.mythx.io/v2/version"
  ∧ Examples.urljoin "https://api.mythx.io/v1/users?page=2" "/v2/version;x?y#z"
    = Examples.urljoin "https://api.mythx.io" "/v2/version;x?y#z"
  ∧ Examples.urljoin "https://api.mythx.io/v1/" "auth/login"
    = Ok "https://api.mythx.io/v1/auth/login"
  ∧ Examples.urljoin "https://api.mythx.io/v1" "auth/login"
    = Ok "https://api.mythx.io/auth/login"
  ∧ Examples.urljoin "https://api.mythx.io" "auth/login"
    = Ok "https://api.mythx.io/auth/login".
Proof.
  pose proof (assemble_request_url_is_join Examples.library
                Examples.config_endpoints
                (__init__ (Some [Examples.stamp "A"]) false))
    as (Hkeeps & _ & Hsame & Hjoin).
  assert (Hmws : Forall url_preserving
                   (middlewares (__init__ (Some [Examples.stamp "A"]) false))).
  { repeat constructor. apply stamp_url_preserving. }
  split.
  { assert (Hrun : assemble_request Examples.config_endpoints Examples.urljoin
                     (__init__ (Some [Examples.stamp "A"]) false)
                     (stored_request 1%positive) Examples.h_request
                   = Outcome (Ok 4%positive)
                       (st (assemble_request Examples.config_endpoints
                              Examples.urljoin
                              (__init__ (Some [Examples.stamp "A"]) false)
                              (stored_request 1%positive) Examples.h_request))
                       [LogDebug "Executing request middleware: A"])
      by (vm_compute; reflexivity).
    exact (Hkeeps Hmws (stored_request 1%positive) "https://api.mythx.io"
             Examples.h_request "/v1/analyses/abc-123/issues"
             Examples.h_request [] 4%positive _ _ eq_refl eq_refl Hrun). }
  assert (Hhttps : hierarchical "https") by (by repeat split).
  split.
  { refine (proj1 (Hjoin "https" "api.mythx.io" "/v1/users" "/v2/version"
                     Hhttps eq_refl eq_refl eq_refl) eq_refl _).
    vm_compute. repeat constructor. }
  split.
  { refine (Hsame "https://api.mythx.io/v1/users?page=2" "https://api.mythx.io"
              "/v2/version;x?y#z" _ _ _ eq_refl eq_refl eq_refl _ _ _ _ _ _);
      vm_compute; reflexivity. }
  split.
  { refine (proj1 (proj2 (Hjoin "https" "api.mythx.io" "/v1/" "auth/login"
                            Hhttps eq_refl eq_refl eq_refl)
                     ["v1"] EmptyString ["auth"; "login"] _ _ _ eq_refl)).
    - right. split; [reflexivity|]. split; [|reflexivity].
      by repeat constructor.
    - discriminate.
    - by repeat constructor. }
  split.
  { refine (proj1 (proj2 (Hjoin "https" "api.mythx.io" "/v1" "auth/login"
                            Hhttps eq_refl eq_refl eq_refl)
                     [] "v1" ["auth"; "login"] _ _ _ eq_refl)).
    - right. split; [reflexivity|]. split; [|reflexivity]. constructor.
    - discriminate.
    - by repeat constructor. }
  refine (proj1 (proj2 (Hjoin "https" "api.mythx.io" EmptyString "auth/login"
                          Hhttps eq_refl eq_refl eq_refl)
                   [] EmptyString ["auth"; "login"] _ _ _ eq_refl)).
  - by left.
  - discriminate.
  - by repeat constructor.
Defined.

(** C2, where the statement of the specification fails.  With a
    middleware registered that rewrites the URL, what [assemble_request]
    returns is not the join.  And with a base endpoint whose path does not
    end in [/], a relative endpoint is not appended: the join drops the
    last segment of the base path. *)
Lemma url_rewriting_middleware_breaks_join :
  ¬ assembled_url_is_join Examples.config_endpoints Examples.urljoin
      (__init__ (Some [Examples.url_tagger]) false)
  ∧ ∃ l d,
      res (assemble_request Examples.versioned_endpoints Examples.urljoin
             (__init__ None false) Examples.login_query ∅) = Ok l
      ∧ st (assemble_request Examples.versioned_endpoints Examples.urljoin
              (__init__ None false) Examples.login_query ∅) !! l
        = Some (ORequestData d)
      ∧ RequestData.url d = "https://api.mythx.io/auth/login"
      ∧ ¬ appended "https://api.mythx.io/v1" "auth/login" (RequestData.url d).
Proof.
  split.
  - intros Hjoin.
    assert (Hrun : assemble_request Examples.config_endpoints Examples.urljoin
                     (__init__ (Some [Examples.url_tagger]) false)
                     (stored_request 1%positive) Examples.h_request
                   = Outcome (Ok 4%positive)
                       (st (assemble_request Examples.config_endpoints
                              Examples.urljoin
                              (__init__ (Some [Examples.url_tagger]) false)
                              (stored_request 1%positive) Examples.h_request))
                       [LogDebug "Executing request middleware: url_tagger"])
      by (vm_compute; reflexivity).
    destruct (Hjoin (stored_request 1%positive) "https://api.mythx.io"
                Examples.h_request "/v1/analyses/abc-123/issues"
                Examples.h_request [] 4%positive _ _ eq_refl eq_refl Hrun)
      as (d & Hd & Hurl).
    vm_compute in Hd. injection Hd as <-. vm_compute in Hurl. discriminate.
  - eexists _, _. split; [vm_compute; reflexivity|].
    split; [vm_compute; reflexivity|]. split; [reflexivity|].
    intros [Happ|Happ]; vm_compute in Happ; discriminate.
Qed.

Section Frame.

Variable str_upper : string → string.
Variable requests_request : Call.t → result Response.t.
Variable endpoints : gmap string string.
Variable urljoin : string → string → result string.

(** The pipeline on a model that stores its attributes, with no
    middleware registered: the heap it leaves. *)
Lemma pipeline_stored_heap (self : APIHandler) (req : loc)
    (auth : option (gmap string string)) (h : heap) (r : StoredRequest.t)
    (base url : string) (hd ps : gmap string string) :
  middlewares self = [] →
  endpoints !! mode self = Some base →
  h !! req = Some (OStoredRequest r) →
  h !! StoredRequest.headers r = Some (ODict hd) →
  h !! StoredRequest.parameters r = Some (ODict ps) →
  urljoin base (StoredRequest.endpoint r) = Ok url →
  st (pipeline str_upper requests_request endpoints urljoin self
        (stored_request req) auth h)
  = <[StoredRequest.headers r := ODict (merged auth hd)]>
      (<[fresh (dom h) :=
           ORequestData
             (RequestData.Make (StoredRequest.method r) (StoredRequest.payload r)
                (StoredRequest.parameters r) (StoredRequest.headers r) url)]> h).
Proof.
  intros Hnil Hbase Hreq Hh Hp Hjoin.
  assert (Hne0 : ∀ l' o', h !! l' = Some o' → fresh (dom h) ≠ l').
  { intros l' o' Hl' <-. by rewrite fresh_unused in Hl'. }
  rewrite (pipeline_run _ _ _ _ _ _ _ _ _ _ _ _ _ _ _ _ _ Hnil Hbase
             (stored_request_read _ _ _ Hreq) Hjoin).
  rewrite logged_nil.
  destruct (send_request_effects str_upper requests_request (fresh (dom h)) auth
              (<[fresh (dom h) :=
                   ORequestData
                     (RequestData.Make (StoredRequest.method r)
                        (StoredRequest.payload r) (StoredRequest.parameters r)
                        (StoredRequest.headers r) url)]> h)
              _ hd ps (lookup_insert_eq _ _ _))
    as (logs & _ & _ & Hst); [| |exact Hst].
  - simpl. by rewrite lookup_insert_ne; [|eapply Hne0].
  - simpl. by rewrite lookup_insert_ne; [|eapply Hne0].
Qed.

(** The same on a model that computes its attributes: the two mappings
    and the dictionary are new objects, and the merge is made in the new
    headers mapping. *)
Lemma pipeline_computed_heap (self : APIHandler)
    (auth : option (gmap string string)) (h : heap)
    (base endpoint method : string) (payload : json)
    (parameters headers : gmap string string) (url : string) :
  middlewares self = [] →
  endpoints !! mode self = Some base →
  urljoin base endpoint = Ok url →
  let lp := fresh (dom h) in
  let h1 := <[lp := ODict parameters]> h in
  let lh := fresh (dom h1) in
  let h2 := <[lh := ODict headers]> h1 in
  let l0 := fresh (dom h2) in
  st (pipeline str_upper requests_request endpoints urljoin self
        (computed_request endpoint method payload parameters headers) auth h)
  = <[lh := ODict (merged auth headers)]>
      (<[l0 := ORequestData (RequestData.Make method payload lp lh url)]> h2)
  ∧ h !! lp = None ∧ h1 !! lh = None ∧ h2 !! l0 = None.
Proof.
  intros Hnil Hbase Hjoin lp h1 lh h2 l0.
  assert (Hlp : h !! lp = None) by apply fresh_unused.
  assert (Hlh : h1 !! lh = None) by apply fresh_unused.
  assert (Hl0 : h2 !! l0 = None) by apply fresh_unused.
  split; [|done].
  rewrite (pipeline_run _ _ _ _ _ _ _ _ _ _ _ _ _ _ _ _ _ Hnil Hbase
             (computed_request_read _ _ _ _ _ _) Hjoin).
  rewrite logged_nil. fold lp h1 lh h2 l0.
  assert (Hlh2 : h2 !! lh = Some (ODict headers)) by apply lookup_insert_eq.
  assert (Hlp2 : h2 !! lp = Some (ODict parameters)).
  { unfold h2. rewrite lookup_insert_ne; [apply lookup_insert_eq|].
    intros Heq. rewrite Heq in Hlh. unfold h1 in Hlh.
    by rewrite lookup_insert_eq in Hlh. }
  destruct (send_request_effects str_upper requests_request l0 auth
              (<[l0 := ORequestData (RequestData.Make method payload lp lh url)]> h2)
              _ headers parameters (lookup_insert_eq _ _ _))
    as (logs & _ & _ & Hst); [| |exact Hst].
  - simpl. rewrite lookup_insert_ne; [done|]. intros Heq. congruence.
  - simpl. rewrite lookup_insert_ne; [done|]. intros Heq. congruence.
Qed.

(** C7, as the code has it.  Assembly changes no object: once the five
    attributes of the request have been read, it adds the new dictionary at
    an unused location, holding the objects that reading the parameters and
    the headers returned, and runs the request stage on it.  The stage
    changes the heap through the transforms of the middlewares only: what
    each of them keeps, however it ends, the stage keeps.  Sending changes
    one object, the headers mapping its request data refers to, which
    becomes the merge with the auth header.  What this does to the caller's
    request depends on the request.  With no middleware registered and a
    model that stores its mappings, the headers mapping of the dictionary is
    the model's own: after the pipeline the model object is as before, its
    headers are the merge, its parameters are as before unless they are the
    same object as the headers, and the request reads unchanged exactly when
    every entry of the auth header was in its headers already.  With no
    middleware registered and a model that computes its mappings on every
    access, the merge is made in a mapping of its own: every object that
    existed is as before and the request reads unchanged. *)
Theorem pipeline_changes_only_shared_headers (self : APIHandler)
    (auth : option (gmap string string)) (h : heap) (base : string) :
  endpoints !! mode self = Some base →
  (∀ req endpoint method payload params headers h1 o url,
     attributes_read req h endpoint method payload params headers h1 o →
     urljoin base endpoint = Ok url →
     h1 !! fresh (dom h1) = None
     ∧ assemble_request endpoints urljoin self req h
       = logged o
           (execute_request_middlewares self (fresh (dom h1))
              (<[fresh (dom h1) :=
                   ORequestData
                     (RequestData.Make method payload params headers url)]> h1)))
  ∧ (∀ (I : heap → Prop) (l : loc) (h0 : heap),
       (∀ mw, mw ∈ middlewares self →
          ∀ (l : loc) (h : heap), I h → I (st (process_request mw l h))) →
       I h0 → I (st (execute_request_middlewares self l h0)))
  ∧ (∀ (l : loc) (h2 : heap) d hd ps,
       h2 !! l = Some (ORequestData d) →
       h2 !! RequestData.headers d = Some (ODict hd) →
       h2 !! RequestData.params d = Some (ODict ps) →
       st (send_request str_upper requests_request l auth h2)
       = after_merge d auth hd h2)
  ∧ (middlewares self = [] →
     ∀ (req : loc) r hd ps url,
       h !! req = Some (OStoredRequest r) →
       h !! StoredRequest.headers r = Some (ODict hd) →
       h !! StoredRequest.parameters r = Some (ODict ps) →
       urljoin base (StoredRequest.endpoint r) = Ok url →
       let h' := st (pipeline str_upper requests_request endpoints urljoin self
                       (stored_request req) auth h) in
       h' !! req = Some (OStoredRequest r)
       ∧ h' !! StoredRequest.headers r = Some (ODict (merged auth hd))
       ∧ (StoredRequest.parameters r ≠ StoredRequest.headers r →
          h' !! StoredRequest.parameters r = Some (ODict ps))
       ∧ (∀ l o, h !! l = Some o → l ≠ StoredRequest.headers r →
                 h' !! l = Some o)
       ∧ (request_unchanged (stored_request req) h h' ↔ default ∅ auth ⊆ hd))
  ∧ (middlewares self = [] →
     ∀ endpoint method payload parameters headers url,
       urljoin base endpoint = Ok url →
       let req := computed_request endpoint method payload parameters headers in
       let h' := st (pipeline str_upper requests_request endpoints urljoin self
                       req auth h) in
       (∀ l o, h !! l = Some o → h' !! l = Some o)
       ∧ request_unchanged req h h').
Proof.
  intros Hbase. split; [|split; [|split; [|split]]].
  - intros req endpoint method payload params headers h1 o url Hread Hjoin.
    split; [apply fresh_unused|].
    by apply (assemble_request_run endpoints urljoin self req h base endpoint).
  - intros I l h0 Hmws HI. unfold execute_request_middlewares.
    by apply (request_loop_heap_invariant I).
  - intros l h2 d hd ps Hl Hh Hp.
    by destruct (send_request_effects str_upper requests_request l auth h2 d hd ps
                   Hl Hh Hp) as (logs & _ & _ & Hst).
  - intros Hnil req r hd ps url Hreq Hh Hp Hjoin h'.
    assert (Hst : h' = <[StoredRequest.headers r := ODict (merged auth hd)]>
                         (<[fresh (dom h) :=
                              ORequestData
                                (RequestData.Make (StoredRequest.method r)
                                   (StoredRequest.payload r)
                                   (StoredRequest.parameters r)
                                   (StoredRequest.headers r) url)]> h))
      by by apply (pipeline_stored_heap self req auth h r base url hd ps).
    assert (Hne0 : ∀ l' o', h !! l' = Some o' → fresh (dom h) ≠ l').
    { intros l' o' Hl' <-. by rewrite fresh_unused in Hl'. }
    assert (Hkept : ∀ l o, h !! l = Some o → l ≠ StoredRequest.headers r →
                           h' !! l = Some o).
    { intros l o Hl Hne. rewrite Hst, lookup_insert_ne by done.
      by rewrite lookup_insert_ne; [|eapply Hne0]. }
    assert (Hreq' : h' !! req = Some (OStoredRequest r)).
    { apply Hkept; [done|]. intros ->. congruence. }
    assert (Hh' : h' !! StoredRequest.headers r = Some (ODict (merged auth hd))).
    { rewrite Hst. apply lookup_insert_eq. }
    assert (Hp' : StoredRequest.parameters r ≠ StoredRequest.headers r →
                  h' !! StoredRequest.parameters r = Some (ODict ps)).
    { intros Hne. by apply Hkept. }
    split; [done|]. split; [done|]. split; [done|]. split; [done|].
    unfold request_unchanged.
    rewrite (reading_stored _ _ _ Hreq), (reading_stored _ _ _ Hreq').
    rewrite Hh', Hh, Hp. split.
    + intros [= _ Hsame]. by apply merged_same.
    + intros Hsub. apply merged_same in Hsub. rewrite Hsub.
      destruct (decide (StoredRequest.parameters r = StoredRequest.headers r))
        as [Heq|Hne].
      * rewrite Heq, Hh', Hsub. rewrite Heq, Hh in Hp. by rewrite Hp.
      * by rewrite (Hp' Hne).
  - intros Hnil endpoint method payload parameters headers url Hjoin req h'.
    split; [|unfold request_unchanged, req; by rewrite !reading_computed].
    destruct (pipeline_computed_heap self auth h base endpoint method payload
                parameters headers url Hnil Hbase Hjoin)
      as (Hst & Hlp & Hlh & Hl0).
    intros l o Hl. unfold h', req. rewrite Hst.
    assert (Hne1 : l ≠ fresh (dom h)) by (intros ->; congruence).
    assert (Hl1 : <[fresh (dom h) := ODict parameters]> h !! l = Some o)
      by by rewrite lookup_insert_ne.
    set (h1 := <[fresh (dom h) := ODict parameters]> h) in *.
    assert (Hne2 : l ≠ fresh (dom h1)) by (intros ->; congruence).
    assert (Hl2 : <[fresh (dom h1) := ODict headers]> h1 !! l = Some o)
      by by rewrite lookup_insert_ne.
    set (h2 := <[fresh (dom h1) := ODict headers]> h1) in *.
    assert (Hne3 : l ≠ fresh (dom h2)) by (intros ->; congruence).
    by rewrite !lookup_insert_ne.
Qed.

End Frame.

(** The pipeline on a request with stored, empty mappings and a token in
    the auth header: the request object and its parameters stay, its
    headers now hold the token.  The same request as a model that computes
    its mappings reads as before. *)
Lemma pipeline_changes_only_shared_headers_witness :
  let run req :=
    st (pipeline upper
          (Examples.network (Examples.answer 200 Examples.empty_json_body "{}"))
          Examples.config_endpoints Examples.urljoin
          (__init__ None false) req (Some (Examples.bearer "t"))
          Examples.h_request) in
  run (stored_request 1%positive) !! 1%positive
  = Some (OStoredRequest Examples.issues_request)
  ∧ run (stored_request 1%positive) !! 2%positive = Some (ODict ∅)
  ∧ run (stored_request 1%positive) !! 3%positive
    = Some (ODict (Examples.bearer "t"))
  ∧ run Examples.issues_query !! 3%positive = Some (ODict ∅)
  ∧ request_unchanged Examples.issues_query Examples.h_request
      (run Examples.issues_query).
Proof.
  intros run. subst run.
  destruct (pipeline_changes_only_shared_headers upper
              (Examples.network (Examples.answer 200 Examples.empty_json_body "{}"))
              Examples.config_endpoints Examples.urljoin
              (__init__ None false) (Some (Examples.bearer "t"))
              Examples.h_request "https://api.mythx.io" eq_refl)
    as (_ & _ & _ & Hstored & Hcomputed).
  destruct (Hstored eq_refl 1%positive Examples.issues_request ∅ ∅
              "https://api.mythx.io/v1/analyses/abc-123/issues"
              eq_refl eq_refl eq_refl ltac:(vm_compute; reflexivity))
    as (Hreq & Hheaders & Hparams & _ & _).
  destruct (Hcomputed eq_refl "/v1/analyses/abc-123/issues" "get"
              (JText EmptyString) ∅ ∅
              "https://api.mythx.io/v1/analyses/abc-123/issues"
              ltac:(vm_compute; reflexivity))
    as (Hkept & Hsame).
  split; [exact Hreq|]. split; [by apply Hparams|]. split; [exact Hheaders|].
  split; [by apply Hkept|exact Hsame].
Defined.

(** C7, where the statement of the specification fails.  After the
    pipeline the headers of the caller's request hold the token of the auth
    header: the request does not read as before. *)
Lemma auth_merge_changes_request_headers :
  ¬ request_unchanged (stored_request 1%positive) Examples.h_request
      (st (pipeline upper
             (Examples.network (Examples.answer 200 Examples.empty_json_body "{}"))
             Examples.config_endpoints Examples.urljoin
             (__init__ None false) (stored_request 1%positive)
             (Some (Examples.bearer "t")) Examples.h_request)).
Proof.
  unfold request_unchanged. vm_compute. discriminate.
Qed.
(** * Further properties of the handler *)

Lemma request_loop_logs_only (mws : list BaseMiddleware) :
  Forall (λ mw, ∀ l, logs_only (process_request mw l)) mws →
  ∀ l, logs_only (request_loop mws l).
Proof.
  induction 1 as [|mw mws Hmw _ IH]; intros l h; [constructor|].
  rewrite request_loop_cons. unfold logged. simpl.
  constructor; [apply is_log_debug|].
  rewrite out_bind. apply Forall_app. split; [apply Hmw|].
  destruct (res _); [apply IH|constructor].
Qed.

(** ** Assembly *)

Lemma stored_request_log_only (l : loc) : attributes_log_only (stored_request l).
Proof.
  assert (Hread : ∀ {A} (f : StoredRequest.t → A) h,
             out ((read_stored_request l ≫= λ r, mret (f r)) h) = []).
  { intros A f h. rewrite out_bind. unfold read_stored_request.
    by destruct (h !! l) as [[]|]. }
  repeat split; intros h; simpl; rewrite Hread; constructor.
Qed.

Lemma computed_request_log_only (endpoint method : string) (payload : json)
    (parameters headers : gmap string string) :
  attributes_log_only (computed_request endpoint method payload parameters headers).
Proof. repeat split; intros h; constructor. Qed.

Section AssemblyMore.

Variable endpoints : gmap string string.
Variable urljoin : string → string → result string.

(** X1. A handler constructed without middlewares, for staging or for
    production, with a base endpoint configured for its mode.  When the
    five attributes of the request can be read and the join of the base
    endpoint with the request's endpoint returns, assembly returns one new
    dictionary at a location that was unused after the reads: it holds what
    the reads returned, the mappings by reference, and the joined URL; the
    log is that of the reads, and no object is changed.  When the join
    raises, assembly ends with that fault after reading the endpoint only,
    and builds no dictionary.  For a model that stores its attributes the
    dictionary holds the model's own parameters and headers mappings,
    nothing is logged and the heap is otherwise as it was. *)
Theorem assemble_request_without_middlewares (staging : bool)
    (req : DomainRequest.t) (h : heap) (base : string) :
  endpoints !! (if staging then "staging" else "production") = Some base →
  (∀ endpoint method payload params headers h1 o url,
     attributes_read req h endpoint method payload params headers h1 o →
     urljoin base endpoint = Ok url →
     assemble_request endpoints urljoin (__init__ None staging) req h
     = Outcome (Ok (fresh (dom h1)))
         (<[fresh (dom h1) :=
              ORequestData
                {| RequestData.method := method;
                   RequestData.payload := payload;
                   RequestData.params := params;
                   RequestData.headers := headers;
                   RequestData.url := url |}]> h1)
         o
     ∧ h1 !! fresh (dom h1) = None)
  ∧ (∀ endpoint h1 o1 e,
       DomainRequest.endpoint req h = Outcome (Ok endpoint) h1 o1 →
       urljoin base endpoint = Raise e →
       assemble_request endpoints urljoin (__init__ None staging) req h
       = Outcome (Raise e) h1 o1)
  ∧ (∀ (l : loc) r url,
       req = stored_request l →
       h !! l = Some (OStoredRequest r) →
       urljoin base (StoredRequest.endpoint r) = Ok url →
       assemble_request endpoints urljoin (__init__ None staging) req h
       = Outcome (Ok (fresh (dom h)))
           (<[fresh (dom h) :=
                ORequestData
                  {| RequestData.method := StoredRequest.method r;
                     RequestData.payload := StoredRequest.payload r;
                     RequestData.params := StoredRequest.parameters r;
                     RequestData.headers := StoredRequest.headers r;
                     RequestData.url := url |}]> h)
           []).
Proof.
  intros Hbase.
  assert (Hmode : endpoints !! mode (__init__ None staging) = Some base)
    by by destruct staging.
  assert (Hrun : ∀ endpoint method payload params headers h1 o url,
             attributes_read req h endpoint method payload params headers h1 o →
             urljoin base endpoint = Ok url →
             assemble_request endpoints urljoin (__init__ None staging) req h
             = Outcome (Ok (fresh (dom h1)))
                 (<[fresh (dom h1) :=
                      ORequestData
                        (RequestData.Make method payload params headers url)]> h1)
                 o).
  { intros endpoint method payload params headers h1 o url Hread Hjoin.
    rewrite (assemble_request_run _ _ _ _ _ _ _ _ _ _ _ _ _ _ Hmode Hread Hjoin).
    unfold logged. simpl. by rewrite app_nil_r. }
  split; [|split].
  - intros endpoint method payload params headers h1 o url Hread Hjoin.
    split; [by apply (Hrun endpoint)|apply fresh_unused].
  - intros endpoint h1 o1 e He Hjoin.
    by apply (assemble_request_join_fault _ _ _ _ _ base endpoint).
  - intros l r url -> Hl Hjoin.
    by apply (Hrun _ _ _ _ _ _ _ _ (stored_request_read _ _ _ Hl)).
Qed.

(** X2. When the configuration has no endpoint for the handler's mode,
    assembly raises [KeyError] for that mode before it looks at the request:
    the heap is as it was, nothing is logged, no middleware runs. *)
Theorem assemble_request_unknown_mode (self : APIHandler) (req : DomainRequest.t)
    (h : heap) :
  endpoints !! mode self = None →
  assemble_request endpoints urljoin self req h
  = Outcome (Raise (KeyError (mode self))) h [].
Proof.
  intros Hnone. unfold assemble_request. rewrite Hnone.
  by apply bind_raise.
Qed.

(** X3. Assembly makes no HTTP call of its own: when the request transform
    of every registered middleware sends out log records only, and so do
    the attributes of the request, so does [assemble_request], however it
    ends.  The attributes of a model that stores them, or that computes
    them from values, send out nothing. *)
Theorem assemble_request_makes_no_http_call (self : APIHandler) :
  Forall (λ mw, ∀ l, logs_only (process_request mw l)) (middlewares self) →
  (∀ req, attributes_log_only req →
          logs_only (assemble_request endpoints urljoin self req))
  ∧ (∀ l : loc, logs_only (assemble_request endpoints urljoin self (stored_request l)))
  ∧ (∀ endpoint method payload parameters headers,
       logs_only (assemble_request endpoints urljoin self
                    (computed_request endpoint method payload parameters headers))).
Proof.
  intros Hmws.
  assert (Hall : ∀ req, attributes_log_only req →
                        logs_only (assemble_request endpoints urljoin self req)).
  { intros req (He & Hm & Hp & Hps & Hhs) h. unfold assemble_request.
    destruct (endpoints !! mode self) as [base|] eqn:Hbase.
    - rewrite bind_ret_l.
      rewrite out_bind. apply Forall_app. split; [apply He|].
      destruct (res _) as [endpoint|]; [|constructor].
      rewrite bind_lift. destruct (urljoin base endpoint) as [url|]; [|constructor].
      rewrite out_bind. apply Forall_app. split; [apply Hm|].
      destruct (res _) as [method|]; [|constructor].
      rewrite out_bind. apply Forall_app. split; [apply Hp|].
      destruct (res _) as [payload|]; [|constructor].
      rewrite out_bind. apply Forall_app. split; [apply Hps|].
      destruct (res _) as [params|]; [|constructor].
      rewrite out_bind. apply Forall_app. split; [apply Hhs|].
      destruct (res _) as [headers|]; [|constructor].
      rewrite (bind_silent _ _ _ _ _ (alloc_ok _ _)).
      by apply request_loop_logs_only.
    - rewrite (bind_raise _ _ _ _ _ _ eq_refl). constructor. }
  split; [done|]. split.
  - intros l. apply Hall, stored_request_log_only.
  - intros. apply Hall, computed_request_log_only.
Qed.

End AssemblyMore.

Lemma stamp_request_silent (name : string) : request_silent (Examples.stamp name).
Proof.
  intros l h. unfold Examples.stamp, process_request.
  rewrite out_bind. unfold read_request_data.
  destruct (h !! l) as [[|d| |]|]; simpl; try done.
  rewrite out_bind. unfold dict_update.
  by destruct (h !! RequestData.headers d) as [[]|].
Qed.

Lemma stamp_response_silent (name : string) : response_silent (Examples.stamp name).
Proof.
  intros l h. unfold Examples.stamp, process_response.
  by destruct (h !! l) as [[]|].
Qed.

Lemma assemble_request_without_middlewares_witness :
  assemble_request Examples.config_endpoints Examples.urljoin
    (__init__ None true) (stored_request 1%positive) Examples.h_request
  = Outcome (Ok 4%positive)
      (<[4%positive := ORequestData
           (RequestData.Make "get" (JText EmptyString) 2%positive 3%positive
              "https://staging.api.mythx.io/v1/analyses/abc-123/issues")]>
         Examples.h_request)
      []
  ∧ assemble_request Examples.config_endpoints Examples.urljoin
      (__init__ None true)
      (computed_request "//[" "get" (JText EmptyString) ∅ ∅) Examples.h_request
    = Outcome (Raise (ValueError "Invalid IPv6 URL")) Examples.h_request [].
Proof.
  split.
  - exact (proj2 (proj2 (assemble_request_without_middlewares
                           Examples.config_endpoints Examples.urljoin true
                           (stored_request 1%positive) Examples.h_request
                           "https://staging.api.mythx.io" eq_refl))
             1%positive Examples.issues_request
             "https://staging.api.mythx.io/v1/analyses/abc-123/issues"
             eq_refl eq_refl ltac:(vm_compute; reflexivity)).
  - exact (proj1 (proj2 (assemble_request_without_middlewares
                           Examples.config_endpoints Examples.urljoin true
                           (computed_request "//[" "get" (JText EmptyString) ∅ ∅)
                           Examples.h_request
                           "https://staging.api.mythx.io" eq_refl))
             "//[" Examples.h_request [] (ValueError "Invalid IPv6 URL")
             eq_refl ltac:(vm_compute; reflexivity)).
Defined.

Lemma assemble_request_unknown_mode_witness :
  assemble_request ∅ Examples.urljoin (__init__ None true)
    (stored_request 1%positive) Examples.h_request
  = Outcome (Raise (KeyError "staging")) Examples.h_request [].
Proof.
  exact (assemble_request_unknown_mode ∅ Examples.urljoin
           (__init__ None true) (stored_request 1%positive) Examples.h_request
           eq_refl).
Defined.

Lemma assemble_request_makes_no_http_call_witness :
  Forall is_log
    (out (assemble_request Examples.config_endpoints Examples.urljoin
            (Examples.handler [Examples.stamp "A"; Examples.failing "F" Examples.boom])
            (stored_request 1%positive) Examples.h_request)).
Proof.
  apply (proj1 (proj2 (assemble_request_makes_no_http_call
                         Examples.config_endpoints Examples.urljoin
                         (Examples.handler
                            [Examples.stamp "A"; Examples.failing "F" Examples.boom])
                         ltac:(repeat constructor;
                               intros l h; rewrite stamp_request_silent;
                               constructor)))).
Defined.

(** ** The trace formatters *)

Lemma contains_refl (s : string) : contains s s.
Proof. exists EmptyString, EmptyString. by rewrite append_nil_r. Qed.

Lemma contains_app_r (sub s t : string) : contains sub t → contains sub (s +:+ t).
Proof.
  intros (b & a & ->). exists (s +:+ b), a. by rewrite append_assoc.
Qed.

Lemma contains_app_l (sub s t : string) : contains sub s → contains sub (s +:+ t).
Proof.
  intros (b & a & ->). exists b, (a +:+ t). by rewrite !append_assoc.
Qed.

Lemma contains_join (sep x : string) (items : list string) :
  x ∈ items → contains x (join sep items).
Proof.
  induction items as [|y items IH]; [by intros ?%elem_of_nil|].
  intros [->|Hin]%elem_of_cons.
  - destruct items; [apply contains_refl|]. apply contains_app_l, contains_refl.
  - destruct items as [|z items]; [by apply elem_of_nil in Hin|].
    change (join sep (y :: z :: items)) with (y +:+ sep +:+ join sep (z :: items)).
    by apply contains_app_r, contains_app_r, IH.
Qed.

Lemma decode_valid (bs : list byte) :
  utf8_valid bs = true → decode bs = Ok (string_of_list_byte bs).
Proof. unfold decode. by intros ->. Qed.

Lemma decode_invalid (bs : list byte) :
  utf8_valid bs = false → decode bs = Raise UnicodeDecodeError.
Proof. unfold decode. by intros ->. Qed.

Lemma decode_ok_inv (bs : list byte) (s : string) :
  decode bs = Ok s → utf8_valid bs = true ∧ s = string_of_list_byte bs.
Proof. unfold decode. destruct (utf8_valid bs); [by intros [= <-]|done]. Qed.

(** X4. [print_request] returns a trace exactly for a request whose body
    is bytes of valid UTF-8.  The trace then shows the method, the URL, the
    decoded body and one line [name: value] for every header of the request. *)
Theorem print_request_formats_bytes_bodies_only (req : PreparedRequest.t) :
  ((∃ trace, print_request req = Ok trace)
   ↔ ∃ bs, PreparedRequest.body req = BodyBytes bs ∧ utf8_valid bs = true)
  ∧ (∀ trace bs,
       PreparedRequest.body req = BodyBytes bs →
       print_request req = Ok trace →
       contains (PreparedRequest.method req) trace
       ∧ contains (PreparedRequest.url req) trace
       ∧ contains (string_of_list_byte bs) trace
       ∧ ∀ name value,
           (name, value) ∈ PreparedRequest.headers req →
           contains (name +:+ ": " +:+ value) trace).
Proof.
  unfold print_request. split.
  - split.
    + intros [trace Htrace].
      destruct (PreparedRequest.body req) as [|bs|s]; simpl in Htrace; try done.
      exists bs. split; [done|].
      destruct (decode bs) as [body|] eqn:Hd; [|done].
      by apply decode_ok_inv in Hd as [? _].
    + intros (bs & -> & Hvalid). simpl. rewrite (decode_valid _ Hvalid). by eexists.
  - intros trace bs -> Htrace. simpl in Htrace.
    destruct (decode bs) as [body|] eqn:Hd; [|done].
    apply decode_ok_inv in Hd as [_ ->]. injection Htrace as <-.
    repeat split.
    + do 2 apply contains_app_r. apply contains_app_l, contains_refl.
    + do 4 apply contains_app_r. apply contains_app_l, contains_refl.
    + do 9 apply contains_app_r. apply contains_app_l, contains_refl.
    + intros name value Hin. do 6 apply contains_app_r. apply contains_app_l.
      apply contains_join.
      change (name +:+ ": " +:+ value) with (format_header (name, value)).
      by apply list_elem_of_fmap_2.
Qed.

(** X5. [print_response] returns a trace exactly for a response whose
    content is valid UTF-8, and raises [UnicodeDecodeError] for any other.
    The trace shows the status code, the decoded content and one line
    [name: value] for every header of the response. *)
Theorem print_response_formats_utf8_content_only (resp : Response.t) :
  ((∃ trace, print_response resp = Ok trace)
   ↔ utf8_valid (Response.content resp) = true)
  ∧ (utf8_valid (Response.content resp) = false →
     print_response resp = Raise UnicodeDecodeError)
  ∧ (∀ trace,
       print_response resp = Ok trace →
       contains (str_of_int (Response.status_code resp)) trace
       ∧ contains (string_of_list_byte (Response.content resp)) trace
       ∧ ∀ name value,
           (name, value) ∈ Response.headers resp →
           contains (name +:+ ": " +:+ value) trace).
Proof.
  unfold print_response. split; [split|split].
  - intros [trace Htrace].
    destruct (decode _) as [body|] eqn:Hd; [|done].
    by apply decode_ok_inv in Hd as [? _].
  - intros Hvalid. rewrite (decode_valid _ Hvalid). by eexists.
  - intros Hinvalid. by rewrite (decode_invalid _ Hinvalid).
  - intros trace Htrace.
    destruct (decode _) as [body|] eqn:Hd; [|done]. injection Htrace as <-.
    apply decode_ok_inv in Hd as [_ ->].
    repeat split.
    + do 2 apply contains_app_r. apply contains_app_l, contains_refl.
    + do 7 apply contains_app_r. apply contains_app_l, contains_refl.
    + intros name value Hin.
      do 4 apply contains_app_r. apply contains_app_l.
      apply contains_join.
      change (name +:+ ": " +:+ value) with (format_header (name, value)).
      by apply list_elem_of_fmap_2.
Qed.

Lemma print_request_formats_bytes_bodies_only_witness :
  ∃ trace,
    print_request (Response.request (Examples.answer 200 Examples.empty_json_body "{}"))
    = Ok trace
    ∧ contains "GET" trace
    ∧ contains "Accept: application/json" trace.
Proof.
  destruct (print_request_formats_bytes_bodies_only
              (Response.request (Examples.answer 200 Examples.empty_json_body "{}")))
    as [[_ Hsome] Hshows].
  destruct Hsome as [trace Htrace].
  { exists (list_byte_of_string "{}"). split; reflexivity. }
  exists trace. split; [exact Htrace|].
  destruct (Hshows trace (list_byte_of_string "{}") eq_refl Htrace)
    as (Hm & _ & _ & Hh).
  split; [exact Hm|].
  apply (Hh "Accept" "application/json"). repeat constructor.
Defined.

Lemma print_response_formats_utf8_content_only_witness :
  print_response (Examples.answer 200 Examples.empty_json_body Examples.not_utf8)
  = Raise UnicodeDecodeError
  ∧ ∃ trace,
      print_response (Examples.answer 404 Examples.empty_json_body "not found")
      = Ok trace
      ∧ contains "404" trace ∧ contains "not found" trace.
Proof.
  split.
  - apply (proj1 (proj2 (print_response_formats_utf8_content_only
                           (Examples.answer 200 Examples.empty_json_body
                              Examples.not_utf8)))).
    reflexivity.
  - destruct (print_response_formats_utf8_content_only
                (Examples.answer 404 Examples.empty_json_body "not found"))
      as ([_ Hsome] & _ & Hshows).
    destruct (Hsome eq_refl) as [trace Htrace].
    exists trace. split; [exact Htrace|].
    destruct (Hshows trace Htrace) as (Hs & Hb & _). split; [exact Hs|exact Hb].
Defined.

(** ** Sending *)

Section SendingMore.

Variable str_upper : string → string.
Variable requests_request : Call.t → result Response.t.

(** X6. Once both traces can be formatted (the request was prepared with a
    body of UTF-8 bytes and the content of the response is UTF-8),
    [send_request] logs the two traces after its HTTP call and then looks at
    the status: for 200 it returns the text of the response, for any other
    status it raises [PythXAPIError] with the message
    [Got unexpected status code N: body].  The headers stay merged either
    way. *)
Theorem send_request_status_gate_on_utf8 (l : loc)
    (auth : option (gmap string string)) (h : heap) (d : RequestData.t)
    (hd ps : gmap string string) (response : Response.t) (bs : list byte) :
  h !! l = Some (ORequestData d) →
  h !! RequestData.headers d = Some (ODict hd) →
  h !! RequestData.params d = Some (ODict ps) →
  requests_request (call_for str_upper d auth hd ps) = Ok response →
  PreparedRequest.body (Response.request response) = BodyBytes bs →
  utf8_valid bs = true →
  utf8_valid (Response.content response) = true →
  ∃ trace1 trace2,
    print_request (Response.request response) = Ok trace1
    ∧ print_response response = Ok trace2
    ∧ send_request str_upper requests_request l auth h
      = Outcome
          (if (Response.status_code response =? 200)%Z
           then Ok (Response.text response)
           else Raise (PythXAPIError
                         ("Got unexpected status code "
                          +:+ str_of_int (Response.status_code response)
                          +:+ ": "
                          +:+ string_of_list_byte (Response.content response))))
          (<[RequestData.headers d := ODict (merged auth hd)]> h)
          [HttpRequest (call_for str_upper d auth hd ps); LogDebug trace1; LogDebug trace2].
Proof.
  intros Hl Hh Hp Hnet Hbody Hbs Hcontent.
  rewrite (send_request_run _ _ _ _ _ _ _ _ Hl Hh Hp), Hnet.
  unfold print_request, print_response. rewrite Hbody. simpl.
  rewrite (decode_valid _ Hbs), (decode_valid _ Hcontent).
  do 2 eexists. split; [done|]. split; [done|].
  by destruct (Response.status_code response =? 200)%Z.
Qed.

(** X7. A fault of the transport ends [send_request] with that fault.  The
    one HTTP call was attempted, nothing is logged, there is no second
    attempt, and the auth header has already been merged into the headers. *)
Theorem send_request_transport_fault (l : loc)
    (auth : option (gmap string string)) (h : heap) (d : RequestData.t)
    (hd ps : gmap string string) (e : exn) :
  h !! l = Some (ORequestData d) →
  h !! RequestData.headers d = Some (ODict hd) →
  h !! RequestData.params d = Some (ODict ps) →
  requests_request (call_for str_upper d auth hd ps) = Raise e →
  send_request str_upper requests_request l auth h
  = Outcome (Raise e)
      (<[RequestData.headers d := ODict (merged auth hd)]> h)
      [HttpRequest (call_for str_upper d auth hd ps)].
Proof.
  intros Hl Hh Hp Hnet.
  by rewrite (send_request_run _ _ _ _ _ _ _ _ Hl Hh Hp), Hnet.
Qed.


(** X9. The HTTP call carries the URL and the payload of the request data
    as they are, and the entries the parameters mapping holds at that
    moment.  When parameters and headers are one and the same mapping, the
    entries of the auth header are therefore sent as query parameters too. *)
Theorem send_request_call_fields (l : loc)
    (auth : option (gmap string string)) (h : heap) (d : RequestData.t)
    (hd ps : gmap string string) :
  h !! l = Some (ORequestData d) →
  h !! RequestData.headers d = Some (ODict hd) →
  h !! RequestData.params d = Some (ODict ps) →
  ∃ c logs,
    out (send_request str_upper requests_request l auth h) = HttpRequest c :: logs
    ∧ Forall is_log logs
    ∧ Call.url c = RequestData.url d
    ∧ Call.json c = RequestData.payload d
    ∧ (RequestData.params d ≠ RequestData.headers d → Call.params c = ps)
    ∧ (RequestData.params d = RequestData.headers d →
       Call.params c = Call.headers c ∧ Call.params c = merged auth ps).
Proof.
  intros Hl Hh Hp.
  destruct (send_request_effects str_upper requests_request _ auth _ _ _ _ Hl Hh Hp)
    as (logs & Hout & Hlogs & _).
  exists (call_for str_upper d auth hd ps), logs.
  split; [done|]. split; [done|]. split; [done|]. split; [done|]. simpl. split.
  - intros Hne. by destruct (decide _).
  - intros Heq. destruct (decide _); [|done]. split; [done|].
    rewrite Heq, Hh in Hp. by injection Hp as ->.
Qed.

End SendingMore.

(** X10. The merge stays in the request data.  When the same request data
    is sent a second time, the headers of the second call are the headers as
    the first send left them, merged with the second auth header: sent again
    without an auth header, the request still carries the entries of the
    first one. *)
Theorem send_request_twice_keeps_auth (str_upper : string → string)
    (net1 net2 : Call.t → result Response.t) (l : loc)
    (auth1 auth2 : option (gmap string string)) (h : heap) (d : RequestData.t)
    (hd ps : gmap string string) :
  h !! l = Some (ORequestData d) →
  h !! RequestData.headers d = Some (ODict hd) →
  h !! RequestData.params d = Some (ODict ps) →
  let h1 := st (send_request str_upper net1 l auth1 h) in
  ∃ c logs,
    out (send_request str_upper net2 l auth2 h1) = HttpRequest c :: logs
    ∧ Call.headers c = merged auth2 (merged auth1 hd)
    ∧ (auth2 = None → Call.headers c = merged auth1 hd)
    ∧ (auth2 = auth1 → Call.headers c = merged auth1 hd).
Proof.
  intros Hl Hh Hp h1.
  destruct (send_request_effects str_upper net1 _ auth1 _ _ _ _ Hl Hh Hp)
    as (logs1 & _ & _ & Hst).
  assert (Hne : RequestData.headers d ≠ l) by congruence.
  assert (Hl1 : h1 !! l = Some (ORequestData d)).
  { unfold h1. rewrite Hst. unfold after_merge. by rewrite lookup_insert_ne. }
  assert (Hh1 : h1 !! RequestData.headers d = Some (ODict (merged auth1 hd))).
  { unfold h1. rewrite Hst. apply lookup_insert_eq. }
  assert (∃ ps1, h1 !! RequestData.params d = Some (ODict ps1)) as [ps1 Hp1].
  { unfold h1. rewrite Hst. unfold after_merge. rewrite lookup_insert.
    destruct (decide _); by eexists. }
  destruct (send_request_effects str_upper net2 _ auth2 _ _ _ _ Hl1 Hh1 Hp1)
    as (logs & Hout & _ & _).
  exists (call_for str_upper d auth2 (merged auth1 hd) ps1), logs.
  split; [done|]. split; [done|]. simpl. split.
  - intros ->. by apply merged_nothing; left.
  - intros ->. apply merged_same.
    unfold merged, updated. apply map_union_subseteq_l.
Qed.

Lemma send_request_status_gate_on_utf8_witness :
  res (send_request upper
         (Examples.network (Examples.answer 400 Examples.empty_json_body "bad uuid"))
         1%positive None (Examples.h_data (JDict [])))
  = Raise (PythXAPIError "Got unexpected status code 400: bad uuid").
Proof.
  destruct (send_request_status_gate_on_utf8 upper
              (Examples.network (Examples.answer 400 Examples.empty_json_body "bad uuid"))
              1%positive None (Examples.h_data (JDict []))
              (Examples.issues_data (JDict []))
              {[ "User-Agent" := "pythx"; "Authorization" := "Bearer old" ]} ∅
              (Examples.answer 400 Examples.empty_json_body "bad uuid")
              (list_byte_of_string "{}")
              eq_refl eq_refl eq_refl eq_refl eq_refl eq_refl eq_refl)
    as (trace1 & trace2 & _ & _ & Hsend).
  rewrite Hsend. reflexivity.
Defined.

Lemma send_request_transport_fault_witness :
  let o := send_request upper Examples.unreachable 1%positive
             (Some (Examples.bearer "new")) (Examples.h_data (JDict [])) in
  res o = Raise (Fault "ConnectionError" "connection refused")
  ∧ st o !! 3%positive
    = Some (ODict {[ "User-Agent" := "pythx"; "Authorization" := "Bearer new" ]})
  ∧ length (out o) = 1%nat.
Proof.
  intros o. subst o.
  rewrite (send_request_transport_fault upper Examples.unreachable
             1%positive (Some (Examples.bearer "new")) (Examples.h_data (JDict []))
             (Examples.issues_data (JDict []))
             {[ "User-Agent" := "pythx"; "Authorization" := "Bearer old" ]} ∅
             (Fault "ConnectionError" "connection refused")
             eq_refl eq_refl eq_refl eq_refl).
  vm_compute. done.
Defined.


Lemma send_request_call_fields_witness :
  ∃ c logs,
    out (send_request upper
           (Examples.network (Examples.answer 200 Examples.empty_json_body "{}"))
           1%positive None (Examples.h_data (JDict [])))
    = HttpRequest c :: logs
    ∧ Call.url c = "https://api.mythx.io/v1/analyses/abc-123/issues"
    ∧ Call.json c = JDict []
    ∧ Call.params c = ∅.
Proof.
  destruct (send_request_call_fields upper
              (Examples.network (Examples.answer 200 Examples.empty_json_body "{}"))
              1%positive None (Examples.h_data (JDict []))
              (Examples.issues_data (JDict []))
              {[ "User-Agent" := "pythx"; "Authorization" := "Bearer old" ]} ∅
              eq_refl eq_refl eq_refl)
    as (c & logs & Hout & _ & Hurl & Hjson & Hparams & _).
  exists c, logs. split; [exact Hout|]. split; [exact Hurl|].
  split; [exact Hjson|]. apply Hparams. discriminate.
Defined.

Lemma send_request_twice_keeps_auth_witness :
  ∃ c logs,
    out (send_request upper
           (Examples.network (Examples.answer 200 Examples.empty_json_body "{}"))
           1%positive None
           (st (send_request upper Examples.unreachable 1%positive
                  (Some (Examples.bearer "t")) (Examples.h_data (JDict [])))))
    = HttpRequest c :: logs
    ∧ Call.headers c !! "Authorization" = Some "Bearer t".
Proof.
  destruct (send_request_twice_keeps_auth upper Examples.unreachable
              (Examples.network (Examples.answer 200 Examples.empty_json_body "{}"))
              1%positive (Some (Examples.bearer "t")) None
              (Examples.h_data (JDict []))
              (Examples.issues_data (JDict []))
              {[ "User-Agent" := "pythx"; "Authorization" := "Bearer old" ]} ∅
              eq_refl eq_refl eq_refl)
    as (c & logs & Hout & _ & Hnone & _).
  exists c, logs. split; [exact Hout|].
  rewrite (Hnone eq_refl). vm_compute. reflexivity.
Defined.

(** ** The stages *)

Lemma request_loop_app (pre post : list BaseMiddleware) (x : loc) (h : heap) :
  request_loop (pre ++ post) x h = (request_loop pre x ≫= request_loop post) h.
Proof.
  rewrite request_loop_loop, loop_app.
  rewrite (bind_outcome_l _ (request_loop pre x)) by (symmetry; apply request_loop_loop).
  apply bind_outcome_r. intros; symmetry; apply request_loop_loop.
Qed.

Lemma response_loop_app (pre post : list BaseMiddleware) (x : loc) (h : heap) :
  response_loop (pre ++ post) x h = (response_loop pre x ≫= response_loop post) h.
Proof.
  rewrite response_loop_loop, loop_app.
  rewrite (bind_outcome_l _ (response_loop pre x)) by (symmetry; apply response_loop_loop).
  apply bind_outcome_r. intros; symmetry; apply response_loop_loop.
Qed.

(** X11. A chain that is one chain followed by another runs as the first
    stage followed by the second on its result, on both legs: the second
    part sees the value, the heap and the faults of the first. *)
Theorem stages_compose_over_concatenation (first second self : APIHandler) :
  middlewares self = middlewares first ++ middlewares second →
  ∀ (x : loc) (h : heap),
    execute_request_middlewares self x h
    = (execute_request_middlewares first x ≫= execute_request_middlewares second) h
    ∧ execute_response_middlewares self x h
      = (execute_response_middlewares first x
         ≫= execute_response_middlewares second) h.
Proof.
  intros Hchain x h.
  unfold execute_request_middlewares, execute_response_middlewares.
  rewrite Hchain. split; [apply request_loop_app|apply response_loop_app].
Qed.

Lemma request_loop_invariant (P : loc → heap → Prop) (mws : list BaseMiddleware) :
  (∀ mw, mw ∈ mws →
     ∀ l h l' h' o, P l h → process_request mw l h = Outcome (Ok l') h' o → P l' h') →
  ∀ l h l' h' o, P l h → request_loop mws l h = Outcome (Ok l') h' o → P l' h'.
Proof.
  induction mws as [|mw mws IH]; intros Hmws l h l' h' o HP Hrun.
  - by injection Hrun as <- <- _.
  - rewrite request_loop_cons in Hrun.
    apply logged_ok_inv in Hrun as [o' Hrun].
    apply bind_ok_inv in Hrun as (l1 & h1 & o1 & o2 & Hstep & Hrest & _).
    eapply IH; [|eapply Hmws; [left|exact HP|exact Hstep]|exact Hrest].
    intros mw' Hin. apply Hmws. by right.
Qed.

Lemma response_loop_invariant (P : loc → heap → Prop) (mws : list BaseMiddleware) :
  (∀ mw, mw ∈ mws →
     ∀ l h l' h' o, P l h → process_response mw l h = Outcome (Ok l') h' o → P l' h') →
  ∀ l h l' h' o, P l h → response_loop mws l h = Outcome (Ok l') h' o → P l' h'.
Proof.
  induction mws as [|mw mws IH]; intros Hmws l h l' h' o HP Hrun.
  - by injection Hrun as <- <- _.
  - rewrite response_loop_cons in Hrun.
    apply logged_ok_inv in Hrun as [o' Hrun].
    apply bind_ok_inv in Hrun as (l1 & h1 & o1 & o2 & Hstep & Hrest & _).
    eapply IH; [|eapply Hmws; [left|exact HP|exact Hstep]|exact Hrest].
    intros mw' Hin. apply Hmws. by right.
Qed.

(** X12. Whatever every registered middleware keeps, the stage keeps: a
    property of the value handed on and of the heap that holds before the
    stage and is kept by each transform that returns also holds for what the
    stage returns.  This is how a chain keeps, say, the type of the response
    model when each of its middlewares does. *)
Theorem stages_preserve_invariants (self : APIHandler) (P : loc → heap → Prop) :
  (∀ (l : loc) (h : heap) l' h' o,
     (∀ mw, mw ∈ middlewares self →
        ∀ (l : loc) (h : heap) l' h' o,
          P l h → process_request mw l h = Outcome (Ok l') h' o → P l' h') →
     P l h →
     execute_request_middlewares self l h = Outcome (Ok l') h' o →
     P l' h')
  ∧ (∀ (l : loc) (h : heap) l' h' o,
     (∀ mw, mw ∈ middlewares self →
        ∀ (l : loc) (h : heap) l' h' o,
          P l h → process_response mw l h = Outcome (Ok l') h' o → P l' h') →
     P l h →
     execute_response_middlewares self l h = Outcome (Ok l') h' o →
     P l' h').
Proof.
  unfold execute_request_middlewares, execute_response_middlewares.
  split; intros l h l' h' o Hmws HP Hrun.
  - by eapply (request_loop_invariant P).
  - by eapply (response_loop_invariant P).
Qed.

Lemma response_loop_heap_invariant (I : heap → Prop) (mws : list BaseMiddleware) :
  (∀ mw, mw ∈ mws → ∀ (l : loc) (h : heap), I h → I (st (process_response mw l h))) →
  ∀ (l : loc) (h : heap), I h → I (st (response_loop mws l h)).
Proof.
  induction mws as [|mw mws IH]; intros Hmws l h HI; [done|].
  rewrite response_loop_cons. unfold logged. simpl.
  assert (Hstep : I (st (process_response mw l h))) by (apply Hmws; [left|done]).
  unfold mbind, M_bind, bind.
  destruct (process_response mw l h) as [[l1|e] h1 o1]; simpl in *; [|done].
  apply IH; [|done]. intros mw' Hin. apply Hmws. by right.
Qed.

(** X13. A property of the heap that every registered middleware keeps
    however it ends, by returning or by raising, holds after the stage
    however the stage ends: an abort in the middle of the chain leaves the
    heap within what the middlewares themselves allow.  The loops add no
    change of their own. *)
Theorem stages_keep_heap_invariants (self : APIHandler) (I : heap → Prop) :
  (∀ (l : loc) (h : heap),
     (∀ mw, mw ∈ middlewares self →
        ∀ (l : loc) (h : heap), I h → I (st (process_request mw l h))) →
     I h → I (st (execute_request_middlewares self l h)))
  ∧ (∀ (l : loc) (h : heap),
     (∀ mw, mw ∈ middlewares self →
        ∀ (l : loc) (h : heap), I h → I (st (process_response mw l h))) →
     I h → I (st (execute_response_middlewares self l h))).
Proof.
  unfold execute_request_middlewares, execute_response_middlewares.
  split; intros l h Hmws HI.
  - by apply (request_loop_heap_invariant I).
  - by apply (response_loop_heap_invariant I).
Qed.

Lemma request_loop_log (mws : list BaseMiddleware) :
  Forall request_silent mws →
  ∀ (l : loc) (h : heap),
    out (request_loop mws l h) `prefix_of` map request_record mws
    ∧ (∀ l', res (request_loop mws l h) = Ok l' →
             out (request_loop mws l h) = map request_record mws).
Proof.
  induction 1 as [|mw mws Hmw _ IH]; intros l h; [by split|].
  rewrite request_loop_cons. unfold logged. simpl.
  rewrite out_bind, Hmw. simpl.
  unfold mbind, M_bind, bind.
  destruct (process_request mw l h) as [[l1|e] h1 o1]; simpl.
  - destruct (IH l1 h1) as [Hpre Hall]. split.
    + by apply prefix_cons.
    + intros l' Hres. f_equal. by eapply Hall.
  - split; [|done]. apply prefix_cons, prefix_nil.
Qed.

Lemma response_loop_log (mws : list BaseMiddleware) :
  Forall response_silent mws →
  ∀ (l : loc) (h : heap),
    out (response_loop mws l h) `prefix_of` map response_record mws
    ∧ (∀ l', res (response_loop mws l h) = Ok l' →
             out (response_loop mws l h) = map response_record mws).
Proof.
  induction 1 as [|mw mws Hmw _ IH]; intros l h; [by split|].
  rewrite response_loop_cons. unfold logged. simpl.
  rewrite out_bind, Hmw. simpl.
  unfold mbind, M_bind, bind.
  destruct (process_response mw l h) as [[l1|e] h1 o1]; simpl.
  - destruct (IH l1 h1) as [Hpre Hall]. split.
    + by apply prefix_cons.
    + intros l' Hres. f_equal. by eapply Hall.
  - split; [|done]. apply prefix_cons, prefix_nil.
Qed.

(** X14. With middlewares that log nothing themselves, the log of a stage
    is one record [Executing ... middleware: name] per middleware that was
    started, in registration order: always a prefix of the records of the
    whole chain, and all of them when the stage returns. *)
Theorem stages_log_one_record_per_middleware (self : APIHandler) (l : loc) (h : heap) :
  (Forall request_silent (middlewares self) →
   out (execute_request_middlewares self l h)
     `prefix_of` map request_record (middlewares self)
   ∧ (∀ l', res (execute_request_middlewares self l h) = Ok l' →
            out (execute_request_middlewares self l h)
            = map request_record (middlewares self)))
  ∧ (Forall response_silent (middlewares self) →
     out (execute_response_middlewares self l h)
       `prefix_of` map response_record (middlewares self)
     ∧ (∀ l', res (execute_response_middlewares self l h) = Ok l' →
              out (execute_response_middlewares self l h)
              = map response_record (middlewares self))).
Proof.
  unfold execute_request_middlewares, execute_response_middlewares.
  split; intros Hsilent.
  - by apply request_loop_log.
  - by apply response_loop_log.
Qed.

(** ** Decoding *)

(** X15. With no middleware registered, [parse_response] is the model's
    [from_json] and nothing more: the same result or fault, the same heap,
    the same log. *)
Theorem parse_response_without_middlewares (self : APIHandler) (resp : string)
    (model : ModelClass) (h : heap) :
  middlewares self = [] →
  parse_response self resp model h = from_json model resp h.
Proof.
  intros Hnil. unfold parse_response.
  rewrite (bind_outcome_r _ _ mret).
  - apply bind_ret_r.
  - intros m h'. unfold execute_response_middlewares. by rewrite Hnil.
Qed.

(** ** Assembly and sending together *)

(** A new object leaves the others where they are. *)
Lemma lookup_alloc (h : heap) (x : obj) (l : loc) (o : obj) :
  h !! l = Some o →
  <[fresh (dom h) := x]> h !! l = Some o ∧ l ≠ fresh (dom h).
Proof.
  intros Hl.
  assert (Hne : l ≠ fresh (dom h)).
  { intros ->. by rewrite fresh_unused in Hl. }
  split; [by rewrite lookup_insert_ne|done].
Qed.

Section PipelineMore.

Variable str_upper : string → string.
Variable endpoints : gmap string string.
Variable urljoin : string → string → result string.

(** X16. With no middleware registered, the HTTP call of the pipeline is
    read off the domain request.  When its five attributes can be read, the
    join of the base endpoint with its endpoint returns, and the objects
    that were read as its headers and its parameters are mappings: the verb
    is what [str.upper] gives for its method, the URL is the joined URL, the
    body its payload, the headers its headers merged with the auth header,
    the query parameters its parameters.  After what the reads sent out it
    is the only call; all that follows is log records.  When the join
    raises, the pipeline ends with that fault and no call is made. *)
Theorem pipeline_call_without_middlewares
    (requests_request : Call.t → result Response.t) (self : APIHandler)
    (req : DomainRequest.t) (auth : option (gmap string string)) (h : heap)
    (base : string) :
  middlewares self = [] →
  endpoints !! mode self = Some base →
  (∀ endpoint method payload params headers h1 o url hd ps,
     attributes_read req h endpoint method payload params headers h1 o →
     urljoin base endpoint = Ok url →
     h1 !! headers = Some (ODict hd) →
     h1 !! params = Some (ODict ps) →
     ∃ c logs,
       out (pipeline str_upper requests_request endpoints urljoin self req auth h)
       = o ++ HttpRequest c :: logs
       ∧ Forall is_log logs
       ∧ Call.method c = str_upper method
       ∧ Call.url c = url
       ∧ Call.json c = payload
       ∧ Call.headers c = merged auth hd
       ∧ (params ≠ headers → Call.params c = ps))
  ∧ (∀ endpoint h1 o1 e,
       DomainRequest.endpoint req h = Outcome (Ok endpoint) h1 o1 →
       urljoin base endpoint = Raise e →
       pipeline str_upper requests_request endpoints urljoin self req auth h
       = Outcome (Raise e) h1 o1).
Proof.
  intros Hnil Hbase. split.
  - intros endpoint method payload params headers h1 o url hd ps
      Hread Hjoin Hh Hp.
    rewrite (pipeline_run _ _ _ _ _ _ _ _ _ _ _ _ _ _ _ _ _ Hnil Hbase Hread Hjoin).
    set (d0 := RequestData.Make method payload params headers url).
    destruct (lookup_alloc _ (ORequestData d0) _ _ Hh) as [Hh1 _].
    destruct (lookup_alloc _ (ORequestData d0) _ _ Hp) as [Hp1 _].
    destruct (send_request_effects str_upper requests_request _ auth _ d0 hd ps
                (lookup_insert_eq _ _ _) Hh1 Hp1)
      as (logs & Hout & Hlogs & _).
    exists (call_for str_upper d0 auth hd ps), logs.
    unfold logged. simpl. rewrite Hout.
    do 6 (split; [done|]). intros Hne.
    destruct (decide _) as [Heq|]; [|done]. by destruct Hne.
  - intros endpoint h1 o1 e He Hjoin. unfold pipeline.
    apply bind_raise.
    by apply (assemble_request_join_fault _ _ _ _ _ base endpoint).
Qed.

(** X17. Two dictionaries assembled from the same domain request, with no
    middleware registered.  For a model that stores its headers mapping they
    are two objects with one headers mapping between them, the model's own:
    the merge made when the first is sent shows in the second, which, sent
    without any auth header, still carries the auth entries of the first.
    For a model that computes its headers on every access each dictionary
    has a headers mapping of its own, and the second, sent without an auth
    header, carries the headers of the model and nothing of the first
    send. *)
Theorem assembled_dictionaries_share_headers
    (net1 net2 : Call.t → result Response.t) (self : APIHandler)
    (auth : option (gmap string string)) (h : heap) (base : string) :
  middlewares self = [] →
  endpoints !! mode self = Some base →
  (∀ (req : loc) r hd ps url,
     h !! req = Some (OStoredRequest r) →
     h !! StoredRequest.headers r = Some (ODict hd) →
     h !! StoredRequest.parameters r = Some (ODict ps) →
     urljoin base (StoredRequest.endpoint r) = Ok url →
     let o1 := assemble_request endpoints urljoin self (stored_request req) h in
     let o2 := assemble_request endpoints urljoin self (stored_request req) (st o1) in
     ∃ l1 l2 d1 d2,
       res o1 = Ok l1 ∧ res o2 = Ok l2 ∧ l1 ≠ l2
       ∧ st o2 !! l1 = Some (ORequestData d1)
       ∧ st o2 !! l2 = Some (ORequestData d2)
       ∧ RequestData.headers d1 = StoredRequest.headers r
       ∧ RequestData.headers d2 = StoredRequest.headers r
       ∧ ∃ c logs,
           out (send_request str_upper net2 l2 None
                  (st (send_request str_upper net1 l1 auth (st o2))))
           = HttpRequest c :: logs
           ∧ Call.headers c = merged auth hd)
  ∧ (∀ endpoint method payload parameters headers url,
       urljoin base endpoint = Ok url →
       let req := computed_request endpoint method payload parameters headers in
       let o1 := assemble_request endpoints urljoin self req h in
       let o2 := assemble_request endpoints urljoin self req (st o1) in
       ∃ l1 l2 d1 d2,
         res o1 = Ok l1 ∧ res o2 = Ok l2 ∧ l1 ≠ l2
         ∧ st o2 !! l1 = Some (ORequestData d1)
         ∧ st o2 !! l2 = Some (ORequestData d2)
         ∧ RequestData.headers d1 ≠ RequestData.headers d2
         ∧ ∃ c logs,
             out (send_request str_upper net2 l2 None
                    (st (send_request str_upper net1 l1 auth (st o2))))
             = HttpRequest c :: logs
             ∧ Call.headers c = headers).
Proof.
  intros Hnil Hbase.
  assert (Hrun : ∀ req h0 endpoint method payload params headers h1 url,
             attributes_read req h0 endpoint method payload params headers h1 [] →
             urljoin base endpoint = Ok url →
             assemble_request endpoints urljoin self req h0
             = Outcome (Ok (fresh (dom h1)))
                 (<[fresh (dom h1) :=
                      ORequestData
                        (RequestData.Make method payload params headers url)]> h1)
                 []).
  { intros req h0 endpoint method payload params headers h1 url Hread Hjoin.
    rewrite (assemble_request_run _ _ _ _ _ _ _ _ _ _ _ _ _ _ Hbase Hread Hjoin).
    unfold execute_request_middlewares. by rewrite Hnil. }
  split.
  - intros req r hd ps url Hreq Hh Hp Hjoin o1 o2.
    set (d0 := RequestData.Make (StoredRequest.method r) (StoredRequest.payload r)
                 (StoredRequest.parameters r) (StoredRequest.headers r) url).
    set (l1 := fresh (dom h)).
    set (h1 := <[l1 := ORequestData d0]> h).
    assert (Ho1 : o1 = Outcome (Ok l1) h1 []).
    { unfold o1. by apply (Hrun _ _ _ _ _ _ _ _ _ (stored_request_read _ _ _ Hreq)). }
    destruct (lookup_alloc _ (ORequestData d0) _ _ Hreq) as [Hreq1 _].
    destruct (lookup_alloc _ (ORequestData d0) _ _ Hh) as [Hh1 _].
    destruct (lookup_alloc _ (ORequestData d0) _ _ Hp) as [Hp1 _].
    fold l1 h1 in Hreq1, Hh1, Hp1.
    assert (H11 : h1 !! l1 = Some (ORequestData d0)) by apply lookup_insert_eq.
    set (l2 := fresh (dom h1)).
    set (h2 := <[l2 := ORequestData d0]> h1).
    assert (Ho2 : o2 = Outcome (Ok l2) h2 []).
    { unfold o2. rewrite Ho1. simpl.
      by apply (Hrun _ _ _ _ _ _ _ _ _ (stored_request_read _ _ _ Hreq1)). }
    destruct (lookup_alloc _ (ORequestData d0) _ _ H11) as [H21 Hne12].
    destruct (lookup_alloc _ (ORequestData d0) _ _ Hh1) as [Hh2 _].
    destruct (lookup_alloc _ (ORequestData d0) _ _ Hp1) as [Hp2 _].
    fold l2 h2 in H21, Hh2, Hp2, Hne12.
    assert (H22 : h2 !! l2 = Some (ORequestData d0)) by apply lookup_insert_eq.
    exists l1, l2, d0, d0. rewrite Ho1, Ho2. simpl.
    split; [done|]. split; [done|]. split; [done|].
    split; [done|]. split; [done|]. split; [done|]. split; [done|].
    destruct (send_request_effects str_upper net1 l1 auth h2 d0 hd ps H21 Hh2 Hp2)
      as (logs1 & _ & _ & Hst).
    set (h3 := st (send_request str_upper net1 l1 auth h2)) in *.
    assert (H32 : h3 !! l2 = Some (ORequestData d0)).
    { rewrite Hst. unfold after_merge. rewrite lookup_insert_ne; [done|].
      simpl. congruence. }
    assert (Hh3 : h3 !! StoredRequest.headers r = Some (ODict (merged auth hd))).
    { rewrite Hst. apply lookup_insert_eq. }
    assert (∃ ps3, h3 !! StoredRequest.parameters r = Some (ODict ps3))
      as [ps3 Hp3].
    { rewrite Hst. unfold after_merge. rewrite lookup_insert.
      destruct (decide _); by eexists. }
    destruct (send_request_effects str_upper net2 l2 None h3 d0 (merged auth hd) ps3
                H32 Hh3 Hp3)
      as (logs & Hout & _ & _).
    exists (call_for str_upper d0 None (merged auth hd) ps3), logs.
    split; [done|]. simpl. by apply merged_nothing; left.
  - intros endpoint method payload parameters headers url Hjoin req o1 o2.
    set (lp1 := fresh (dom h)).
    set (h1 := <[lp1 := ODict parameters]> h).
    set (lh1 := fresh (dom h1)).
    set (h2 := <[lh1 := ODict headers]> h1).
    set (l1 := fresh (dom h2)).
    set (d1 := RequestData.Make method payload lp1 lh1 url).
    set (h3 := <[l1 := ORequestData d1]> h2).
    assert (Ho1 : o1 = Outcome (Ok l1) h3 []).
    { unfold o1, req.
      by apply (Hrun _ _ _ _ _ _ _ _ _ (computed_request_read _ _ _ _ _ h)). }
    set (lp2 := fresh (dom h3)).
    set (h4 := <[lp2 := ODict parameters]> h3).
    set (lh2 := fresh (dom h4)).
    set (h5 := <[lh2 := ODict headers]> h4).
    set (l2 := fresh (dom h5)).
    set (d2 := RequestData.Make method payload lp2 lh2 url).
    set (h6 := <[l2 := ORequestData d2]> h5).
    assert (Ho2 : o2 = Outcome (Ok l2) h6 []).
    { unfold o2, req. rewrite Ho1. simpl.
      by apply (Hrun _ _ _ _ _ _ _ _ _ (computed_request_read _ _ _ _ _ h3)). }
    assert (Hp1 : h1 !! lp1 = Some (ODict parameters)) by apply lookup_insert_eq.
    destruct (lookup_alloc _ (ODict headers) _ _ Hp1) as [Hp2 _].
    fold lh1 h2 in Hp2.
    assert (Hh2 : h2 !! lh1 = Some (ODict headers)) by apply lookup_insert_eq.
    destruct (lookup_alloc _ (ORequestData d1) _ _ Hp2) as [Hp3 _].
    destruct (lookup_alloc _ (ORequestData d1) _ _ Hh2) as [Hh3 _].
    fold l1 h3 in Hp3, Hh3.
    assert (H13 : h3 !! l1 = Some (ORequestData d1)) by apply lookup_insert_eq.
    destruct (lookup_alloc _ (ODict parameters) _ _ Hp3) as [Hp4 _].
    destruct (lookup_alloc _ (ODict parameters) _ _ Hh3) as [Hh4 Hne_hp].
    destruct (lookup_alloc _ (ODict parameters) _ _ H13) as [H14 _].
    fold lp2 h4 in Hp4, Hh4, H14, Hne_hp.
    assert (Hq4 : h4 !! lp2 = Some (ODict parameters)) by apply lookup_insert_eq.
    destruct (lookup_alloc _ (ODict headers) _ _ Hp4) as [Hp5 _].
    destruct (lookup_alloc _ (ODict headers) _ _ Hh4) as [Hh5 Hne_h].
    destruct (lookup_alloc _ (ODict headers) _ _ H14) as [H15 _].
    destruct (lookup_alloc _ (ODict headers) _ _ Hq4) as [Hq5 Hne_q].
    fold lh2 h5 in Hp5, Hh5, H15, Hq5, Hne_h, Hne_q.
    assert (Hg5 : h5 !! lh2 = Some (ODict headers)) by apply lookup_insert_eq.
    destruct (lookup_alloc _ (ORequestData d2) _ _ Hp5) as [Hp6 _].
    destruct (lookup_alloc _ (ORequestData d2) _ _ Hh5) as [Hh6 _].
    destruct (lookup_alloc _ (ORequestData d2) _ _ H15) as [H16 Hne12].
    destruct (lookup_alloc _ (ORequestData d2) _ _ Hq5) as [Hq6 _].
    destruct (lookup_alloc _ (ORequestData d2) _ _ Hg5) as [Hg6 _].
    fold l2 h6 in Hp6, Hh6, H16, Hq6, Hg6, Hne12.
    assert (H26 : h6 !! l2 = Some (ORequestData d2)) by apply lookup_insert_eq.
    exists l1, l2, d1, d2. rewrite Ho1, Ho2. simpl.
    split; [done|]. split; [done|]. split; [done|].
    split; [done|]. split; [done|]. split; [done|].
    destruct (send_request_effects str_upper net1 l1 auth h6 d1 headers parameters
                H16 Hh6 Hp6)
      as (logs1 & _ & _ & Hst).
    set (h7 := st (send_request str_upper net1 l1 auth h6)) in *.
    assert (H27 : h7 !! l2 = Some (ORequestData d2)).
    { rewrite Hst. unfold after_merge. rewrite lookup_insert_ne; [done|].
      simpl. congruence. }
    assert (Hg7 : h7 !! lh2 = Some (ODict headers)).
    { rewrite Hst. unfold after_merge. by rewrite lookup_insert_ne. }
    assert (Hq7 : h7 !! lp2 = Some (ODict parameters)).
    { rewrite Hst. unfold after_merge. by rewrite lookup_insert_ne. }
    destruct (send_request_effects str_upper net2 l2 None h7 d2 headers parameters
                H27 Hg7 Hq7)
      as (logs & Hout & _ & _).
    exists (call_for str_upper d2 None headers parameters), logs.
    split; [done|]. simpl. by apply merged_nothing; left.
Qed.

End PipelineMore.

(** ** The examples, run through the properties above *)

Lemma stamp_keeps_variant (name variant : string) (l : loc) (h : heap) l' h' o :
  (∃ fields, h !! l = Some (OModel variant fields)) →
  process_response (Examples.stamp name) l h = Outcome (Ok l') h' o →
  ∃ fields, h' !! l' = Some (OModel variant fields).
Proof.
  intros [fields Hl]. unfold Examples.stamp, process_response. rewrite Hl.
  intros [= <- <- _]. eexists. apply lookup_insert_eq.
Qed.

Lemma stamp_keeps_request_data (name : string) (l0 : loc) (d0 : RequestData.t)
    (l : loc) (h : heap) :
  h !! l0 = Some (ORequestData d0) →
  st (process_request (Examples.stamp name) l h) !! l0 = Some (ORequestData d0).
Proof.
  intros Hl0. unfold Examples.stamp, process_request.
  unfold mbind, M_bind, bind, read_request_data, dict_update.
  destruct (h !! l) as [[|d| |]|]; simpl; try done.
  destruct (h !! RequestData.headers d) as [[hd| | |]|] eqn:Hh; simpl; try done.
  rewrite lookup_insert_ne; [done|congruence].
Qed.

Lemma stages_compose_over_concatenation_witness :
  execute_request_middlewares
    (Examples.handler [Examples.stamp "A"; Examples.stamp "B"])
    1%positive (Examples.h_data JNone)
  = (execute_request_middlewares (Examples.handler [Examples.stamp "A"]) 1%positive
     ≫= execute_request_middlewares (Examples.handler [Examples.stamp "B"]))
      (Examples.h_data JNone).
Proof.
  exact (proj1 (stages_compose_over_concatenation
                  (Examples.handler [Examples.stamp "A"])
                  (Examples.handler [Examples.stamp "B"])
                  (Examples.handler [Examples.stamp "A"; Examples.stamp "B"])
                  eq_refl 1%positive (Examples.h_data JNone))).
Defined.

(** Two stamping middlewares keep the type of the response model. *)
Lemma stages_preserve_invariants_witness :
  ∃ fields,
    st (execute_response_middlewares
          (Examples.handler [Examples.stamp "A"; Examples.stamp "B"])
          1%positive Examples.h_model)
    !! 1%positive = Some (OModel "DetectedIssuesResponse" fields).
Proof.
  apply (proj2 (stages_preserve_invariants
                  (Examples.handler [Examples.stamp "A"; Examples.stamp "B"])
                  (λ l h, ∃ fields,
                     h !! l = Some (OModel "DetectedIssuesResponse" fields)))
           1%positive Examples.h_model 1%positive
           (st (execute_response_middlewares
                  (Examples.handler [Examples.stamp "A"; Examples.stamp "B"])
                  1%positive Examples.h_model))
           (out (execute_response_middlewares
                   (Examples.handler [Examples.stamp "A"; Examples.stamp "B"])
                   1%positive Examples.h_model))).
  - intros mw Hin l h l' h' o.
    apply elem_of_cons in Hin as [->|Hin]; [apply stamp_keeps_variant|].
    apply elem_of_cons in Hin as [->|Hin]; [apply stamp_keeps_variant|].
    by apply elem_of_nil in Hin.
  - eexists. reflexivity.
  - reflexivity.
Defined.

(** The chain A, F, B aborts at F; the request data at location 1 is as it
    was, as each of the three middlewares leaves it. *)
Lemma stages_keep_heap_invariants_witness :
  st (execute_request_middlewares
        (Examples.handler [Examples.stamp "A"; Examples.failing "F" Examples.boom;
                           Examples.stamp "B"])
        1%positive (Examples.h_data JNone))
  !! 1%positive = Some (ORequestData (Examples.issues_data JNone)).
Proof.
  apply (proj1 (stages_keep_heap_invariants
                  (Examples.handler [Examples.stamp "A";
                                     Examples.failing "F" Examples.boom;
                                     Examples.stamp "B"])
                  (λ h, h !! 1%positive
                        = Some (ORequestData (Examples.issues_data JNone))))
           1%positive (Examples.h_data JNone)).
  - intros mw Hin l h Hinv.
    apply elem_of_cons in Hin as [->|Hin]; [by apply stamp_keeps_request_data|].
    apply elem_of_cons in Hin as [->|Hin]; [exact Hinv|].
    apply elem_of_cons in Hin as [->|Hin]; [by apply stamp_keeps_request_data|].
    by apply elem_of_nil in Hin.
  - reflexivity.
Defined.

Lemma stages_log_one_record_per_middleware_witness :
  out (execute_request_middlewares
         (Examples.handler [Examples.stamp "A"; Examples.stamp "B"])
         1%positive (Examples.h_data JNone))
  = [LogDebug "Executing request middleware: A";
     LogDebug "Executing request middleware: B"].
Proof.
  apply (proj2 (proj1 (stages_log_one_record_per_middleware
                         (Examples.handler [Examples.stamp "A"; Examples.stamp "B"])
                         1%positive (Examples.h_data JNone))
                  ltac:(repeat constructor; apply stamp_request_silent))
           1%positive).
  reflexivity.
Defined.

Lemma parse_response_without_middlewares_witness :
  parse_response (__init__ None false) "{}" Examples.issues_model ∅
  = from_json Examples.issues_model "{}" ∅.
Proof.
  exact (parse_response_without_middlewares (__init__ None false) "{}"
           Examples.issues_model ∅ eq_refl).
Defined.

Lemma pipeline_call_without_middlewares_witness :
  (∃ c logs,
     out (pipeline upper
            (Examples.network (Examples.answer 200 Examples.empty_json_body "{}"))
            Examples.config_endpoints Examples.urljoin
            (__init__ None false) (stored_request 1%positive)
            (Some (Examples.bearer "t")) Examples.h_request)
     = [] ++ HttpRequest c :: logs
     ∧ Call.method c = "GET"
     ∧ Call.url c = "https://api.mythx.io/v1/analyses/abc-123/issues"
     ∧ Call.headers c = Examples.bearer "t")
  ∧ out (pipeline upper
           (Examples.network (Examples.answer 200 Examples.empty_json_body "{}"))
           Examples.config_endpoints Examples.urljoin
           (__init__ None false)
           (computed_request "//[" "get" (JText EmptyString) ∅ ∅)
           (Some (Examples.bearer "t")) Examples.h_request)
    = [].
Proof.
  destruct (pipeline_call_without_middlewares upper
              Examples.config_endpoints Examples.urljoin
              (Examples.network (Examples.answer 200 Examples.empty_json_body "{}"))
              (__init__ None false) (stored_request 1%positive)
              (Some (Examples.bearer "t")) Examples.h_request
              "https://api.mythx.io" eq_refl eq_refl)
    as [Hcall _].
  destruct (pipeline_call_without_middlewares upper
              Examples.config_endpoints Examples.urljoin
              (Examples.network (Examples.answer 200 Examples.empty_json_body "{}"))
              (__init__ None false)
              (computed_request "//[" "get" (JText EmptyString) ∅ ∅)
              (Some (Examples.bearer "t")) Examples.h_request
              "https://api.mythx.io" eq_refl eq_refl)
    as [_ Hfault].
  split.
  - destruct (Hcall "/v1/analyses/abc-123/issues" "get" (JText EmptyString)
                2%positive 3%positive Examples.h_request []
                "https://api.mythx.io/v1/analyses/abc-123/issues" ∅ ∅
                (stored_request_read 1%positive Examples.h_request
                   Examples.issues_request eq_refl)
                ltac:(vm_compute; reflexivity) eq_refl eq_refl)
      as (c & logs & Hout & _ & Hmethod & Hurl & _ & Hheaders & _).
    exists c, logs. split; [exact Hout|]. split; [exact Hmethod|].
    split; [exact Hurl|]. rewrite Hheaders. vm_compute. reflexivity.
  - rewrite (Hfault "//[" Examples.h_request [] (ValueError "Invalid IPv6 URL")
               eq_refl ltac:(vm_compute; reflexivity)).
    reflexivity.
Defined.

(** The token given when the first dictionary is sent goes out with the
    second, which is sent without one, for the model that stores its
    headers; not for the one that computes them. *)
Lemma assembled_dictionaries_share_headers_witness :
  let sent req :=
    let assemble :=
      assemble_request Examples.config_endpoints Examples.urljoin
        (__init__ None false) req in
    let o1 := assemble Examples.h_request in
    let o2 := assemble (st o1) in
    match res o1, res o2 with
    | Ok l1, Ok l2 =>
        out (send_request upper
               (Examples.network (Examples.answer 200 Examples.empty_json_body "{}"))
               l2 None
               (st (send_request upper Examples.unreachable l1
                      (Some (Examples.bearer "t")) (st o2))))
    | _, _ => []
    end in
  (∃ c logs, sent (stored_request 1%positive) = HttpRequest c :: logs
             ∧ Call.headers c = Examples.bearer "t")
  ∧ (∃ c logs, sent Examples.issues_query = HttpRequest c :: logs
               ∧ Call.headers c = ∅).
Proof.
  intros sent. subst sent.
  destruct (assembled_dictionaries_share_headers upper
              Examples.config_endpoints Examples.urljoin
              Examples.unreachable
              (Examples.network (Examples.answer 200 Examples.empty_json_body "{}"))
              (__init__ None false) (Some (Examples.bearer "t"))
              Examples.h_request "https://api.mythx.io" eq_refl eq_refl)
    as [Hstored Hcomputed].
  split.
  - destruct (Hstored 1%positive Examples.issues_request ∅ ∅
                "https://api.mythx.io/v1/analyses/abc-123/issues"
                eq_refl eq_refl eq_refl ltac:(vm_compute; reflexivity))
      as (l1 & l2 & d1 & d2 & H1 & H2 & _ & _ & _ & _ & _ & c & logs & Hout & Hheaders).
    cbv zeta. rewrite H1, H2.
    exists c, logs. split; [exact Hout|].
    rewrite Hheaders. vm_compute. reflexivity.
  - destruct (Hcomputed "/v1/analyses/abc-123/issues" "get" (JText EmptyString) ∅ ∅
                "https://api.mythx.io/v1/analyses/abc-123/issues"
                ltac:(vm_compute; reflexivity))
      as (l1 & l2 & d1 & d2 & H1 & H2 & _ & _ & _ & _ & c & logs & Hout & Hheaders).
    cbv zeta. unfold Examples.issues_query. rewrite H1, H2.
    exists c, logs. split; [exact Hout|exact Hheaders].
Defined.
